(** * Errbot backend for Rocket.Chat: a shallow embedding and its properties

    The development follows [src/rocketchat/backends/rocketchat.py].
    Python values are embedded as the inductive type [pyval]; the backend
    object is a record; methods that mutate the backend, talk to the meteor
    client or raise are written in a small state/log/exception monad whose
    outcomes also cover a thread blocked on an [Event] for ever.  The meteor
    client's own thread is sequentialised: its pending callbacks run at the
    points where the main thread blocks or polls. *)

From Stdlib Require Import ZArith String Ascii List Bool Lia DecimalString.
From stdpp Require Import base option list gmap strings pretty.

Set Warnings "-register-all".

Open Scope string_scope.
Open Scope list_scope.

(** ** Python values *)

(** The values that reach the backend: configuration values, JSON payloads
    delivered by the meteor client, and callables.  A [str] is kept as its
    UTF-8 text; numbers are integers. *)
Inductive pyval :=
| VNone
| VBool (b : bool)
| VInt (z : Z)
| VStr (s : string)
| VBytes (b : list Byte.byte)
| VList (l : list pyval)
| VDict (d : list (string * pyval))
| VFunc (name : string).

(** Exceptions.  [KeyboardInterrupt] and [SystemExit] derive from
    [BaseException] only, so [except Exception] does not catch them. *)
Inductive exn :=
| ValueError (msg : string)
| TypeError
| KeyError (key : string)
| AttributeError (name : string)
| AssertionError (msg : string)
| OtherException (name : string)
| KeyboardInterrupt
| SystemExit.

Definition is_Exception (e : exn) : bool :=
  match e with
  | KeyboardInterrupt | SystemExit => false
  | _ => true
  end.

(** [bool(v)] *)
Definition py_truthy (v : pyval) : bool :=
  match v with
  | VNone => false
  | VBool b => b
  | VInt z => negb (z =? 0)%Z
  | VStr s => negb (String.eqb s "")
  | VBytes b => match b with [] => false | _ => true end
  | VList l => match l with [] => false | _ => true end
  | VDict d => match d with [] => false | _ => true end
  | VFunc _ => true
  end.

(** [a or b] *)
Definition py_or (a b : pyval) : pyval := if py_truthy a then a else b.

Definition is_none (v : pyval) : bool :=
  match v with VNone => true | _ => false end.

Definition isinstance_str (v : pyval) : bool :=
  match v with VStr _ => true | _ => false end.

(** [bool] is a subclass of [int]. *)
Definition isinstance_int (v : pyval) : bool :=
  match v with VInt _ | VBool _ => true | _ => false end.


Definition isinstance_list (v : pyval) : bool :=
  match v with VList _ => true | _ => false end.

Definition callable (v : pyval) : bool :=
  match v with VFunc _ => true | _ => false end.

(** [d.get(key)] on an association list: the first binding wins. *)
Fixpoint dict_get (d : list (string * pyval)) (key : string) : option pyval :=
  match d with
  | [] => None
  | (k, v) :: d' => if String.eqb k key then Some v else dict_get d' key
  end.

Definition int_of_bool (b : bool) : Z := if b then 1%Z else 0%Z.

#[global] Instance byte_eq_dec : EqDecision Byte.byte := Byte.byte_eq_dec.

(** [a == b]: numbers compare by value across [bool] and [int], lists
    pointwise, dicts by their bindings whatever the order. *)
Fixpoint py_eq (a b : pyval) {struct a} : bool :=
  match a, b with
  | VNone, VNone => true
  | VBool x, VBool y => Bool.eqb x y
  | VBool x, VInt y => (int_of_bool x =? y)%Z
  | VInt x, VBool y => (x =? int_of_bool y)%Z
  | VInt x, VInt y => (x =? y)%Z
  | VStr x, VStr y => String.eqb x y
  | VBytes x, VBytes y => bool_decide (x = y)
  | VList xs, VList ys =>
      (fix go (xs ys : list pyval) {struct xs} : bool :=
         match xs, ys with
         | [], [] => true
         | x :: xs', y :: ys' => py_eq x y && go xs' ys'
         | _, _ => false
         end) xs ys
  | VDict d1, VDict d2 =>
      Nat.eqb (length d1) (length d2) &&
      (fix go (d : list (string * pyval)) {struct d} : bool :=
         match d with
         | [] => true
         | (k, v) :: d' =>
             match dict_get d2 k with
             | Some w => py_eq v w
             | None => false
             end && go d'
         end) d1
  | VFunc x, VFunc y => String.eqb x y
  | _, _ => false
  end.

(** [str.lower()], on the ASCII letters.  No character outside ASCII
    lowers to one of the letters of '0', 'false' or 'no', which is all
    the backend asks of a lowered string. *)
Definition lower_ascii (c : ascii) : ascii :=
  let n := nat_of_ascii c in
  if (65 <=? n)%nat && (n <=? 90)%nat then ascii_of_nat (n + 32) else c.

Fixpoint py_lower (s : string) : string :=
  match s with
  | EmptyString => EmptyString
  | String c s' => String (lower_ascii c) (py_lower s')
  end.

(** *** [repr] and [str] *)

Definition dquote : ascii := ascii_of_nat 34.
Definition squote : ascii := ascii_of_nat 39.
Definition backslash : ascii := ascii_of_nat 92.

Definition hex_digit (n : nat) : ascii :=
  match String.get n "0123456789abcdef" with
  | Some c => c
  | None => "0"%char
  end.

Fixpoint string_mem (c : ascii) (s : string) : bool :=
  match s with
  | EmptyString => false
  | String c' s' => Ascii.eqb c c' || string_mem c s'
  end.

(** The quote [repr] wraps a text in: double quotes only when the text has
    a single quote and no double quote. *)
Definition repr_quote (s : string) : ascii :=
  if string_mem squote s && negb (string_mem dquote s) then dquote else squote.

(** One character of a [repr]; [wide] is set for [bytes], whose bytes
    above 127 are written in hexadecimal. *)
Definition repr_char (q : ascii) (wide : bool) (c : ascii) : string :=
  let n := nat_of_ascii c in
  if Ascii.eqb c backslash then String backslash (String backslash "")
  else if Ascii.eqb c q then String backslash (String q "")
  else if (n =? 9)%nat then String backslash "t"
  else if (n =? 10)%nat then String backslash "n"
  else if (n =? 13)%nat then String backslash "r"
  else if (n <? 32)%nat || (n =? 127)%nat || (wide && (127 <? n)%nat)
       then String backslash
              (String "x" (String (hex_digit (n / 16)) (String (hex_digit (n mod 16)) "")))
  else String c "".

Fixpoint repr_chars (q : ascii) (wide : bool) (s : string) : string :=
  match s with
  | EmptyString => EmptyString
  | String c s' => repr_char q wide c +:+ repr_chars q wide s'
  end.

Definition repr_str (s : string) : string :=
  let q := repr_quote s in
  String q (repr_chars q false s +:+ String q "").

Definition repr_bytes (b : list Byte.byte) : string :=
  let s := string_of_list_byte b in
  let q := repr_quote s in
  String "b" (String q (repr_chars q true s +:+ String q "")).

Fixpoint py_repr (v : pyval) : string :=
  match v with
  | VNone => "None"
  | VBool true => "True"
  | VBool false => "False"
  | VInt z => pretty z
  | VStr s => repr_str s
  | VBytes b => repr_bytes b
  | VList l =>
      "[" +:+
      (fix items (l : list pyval) : string :=
         match l with
         | [] => ""
         | [x] => py_repr x
         | x :: l' => py_repr x +:+ ", " +:+ items l'
         end) l +:+ "]"
  | VDict d =>
      "{" +:+
      (fix items (d : list (string * pyval)) : string :=
         match d with
         | [] => ""
         | [(k, x)] => repr_str k +:+ ": " +:+ py_repr x
         | (k, x) :: d' => repr_str k +:+ ": " +:+ py_repr x +:+ ", " +:+ items d'
         end) d +:+ "}"
  | VFunc name => "<function " +:+ name +:+ ">"
  end.

(** [str(v)] *)
Definition py_str (v : pyval) : string :=
  match v with
  | VStr s => s
  | _ => py_repr v
  end.

(** ** Collaborators outside the repository

    What the backend takes from Python's library and from the Errbot
    framework, as an interface: the attributes of the [logging] module,
    [float()], [time.sleep()] and the framework's message splitter. *)
Class Platform := {
  (** [getattr(logging, name, None)] *)
  logging_getattr : string -> pyval;
  pyfloat : Type;
  (** [float(v)] *)
  py_float : pyval -> exn + pyfloat;
  (** [time.sleep(t)] raises on a negative length *)
  time_sleep_error : pyfloat -> option exn;
  (** [split_string_after(body, MESSAGE_SIZE_LIMIT)] *)
  split_string_after : string -> list string;
}.

(** ** Config keys *)

Module CONFIG_KEYS.
Definition SERVER_URI := "SERVER_URI".
Definition LOGIN_USERNAME := "LOGIN_USERNAME".
Definition LOGIN_PASSWORD := "LOGIN_PASSWORD".
Definition PATCH_METEOR_CLIENT := "PATCH_METEOR_CLIENT".
Definition RECONNECT_ENABLED := "RECONNECT_ENABLED".
Definition HEARTBEAT_ENABLED := "HEARTBEAT_ENABLED".
Definition HEARTBEAT_INTERVAL := "HEARTBEAT_INTERVAL".
Definition HEARTBEAT_FUNC := "HEARTBEAT_FUNC".
Definition BOT_LOG_LEVEL := "BOT_LOG_LEVEL".
End CONFIG_KEYS.

Definition _ENV_VAR_NAME_PREFIX := "ROCKETCHAT_".

(** ** class RocketChatUser *)

Module RocketChatUser.
Record t := mk {
  _person : pyval;
  _client : pyval;
  _nick : pyval;
  _fullname : pyval;
}.

Definition __init__ (person client nick fullname : pyval) : t :=
  {| _person := person;
     _client := client;
     _nick := py_or nick person;
     _fullname := py_or fullname person |}.

Definition person (self : t) : pyval := _person self.
Definition client (self : t) : pyval := _client self.
Definition nick (self : t) : pyval := _nick self.
Definition fullname (self : t) : pyval := _fullname self.
Definition aclattr (self : t) : pyval := person self.
Definition __str__ (self : t) : pyval := _person self.
End RocketChatUser.

(** Objects handed to [send] as [identifier]: a [RocketChatUser] (a
    [Person]), some other [Identifier] of the framework such as a [Room]
    (which has no [person] attribute), or a value that is no [Identifier]. *)
Inductive pyobject :=
| ObjUser (u : RocketChatUser.t)
| ObjRoom (name : string)
| ObjValue (v : pyval).

Definition isinstance_Identifier (o : pyobject) : bool :=
  match o with ObjUser _ | ObjRoom _ => true | ObjValue _ => false end.

Definition isinstance_Room (o : pyobject) : bool :=
  match o with ObjRoom _ => true | _ => false end.

Definition repr_object (o : pyobject) : string :=
  match o with
  | ObjUser u => "<RocketChatUser " +:+ py_repr (RocketChatUser._person u) +:+ ">"
  | ObjRoom name => "<Room " +:+ name +:+ ">"
  | ObjValue v => py_repr v
  end.

(** ** Messages *)

(** [errbot.backends.base.Message], with the fields the backend sets.  The
    [extras] dict holds a raw message-info record under 'msg_info' or an
    original message under 'orig_msg'. *)
Inductive Message :=
| mkMessage (body : pyval) (frm to : pyobject)
            (extras : list (string * (pyval + Message))).

Definition body (m : Message) : pyval :=
  match m with mkMessage b _ _ _ => b end.
Definition frm (m : Message) : pyobject :=
  match m with mkMessage _ f _ _ => f end.
Definition to (m : Message) : pyobject :=
  match m with mkMessage _ _ t _ => t end.
Definition extras (m : Message) : list (string * (pyval + Message)) :=
  match m with mkMessage _ _ _ e => e end.

Fixpoint extras_get (e : list (string * (pyval + Message))) (key : string)
  : option (pyval + Message) :=
  match e with
  | [] => None
  | (k, v) :: e' => if String.eqb k key then Some v else extras_get e' key
  end.

(** ** The backend object and the meteor client *)

(** The attributes of Errbot's config module that the backend reads. *)
Record bot_config_module := {
  ROCKETCHAT_CONFIG : option (gmap string pyval);
  cfg_BOT_LOG_LEVEL : option pyval;
  GROUPCHAT_NICK_PREFIXED : pyval;
}.

(** Bound methods of the backend handed to the meteor client as
    callbacks; [Cb_query_user] is the closure built by [create_reply_msg]. *)
Inductive callback :=
| Cb_meteor_connected
| Cb_meteor_changed
| Cb_meteor_added
| Cb_meteor_removed
| Cb_meteor_failed
| Cb_meteor_reconnected
| Cb_meteor_closed
| Cb_meteor_login
| Cb_meteor_subscribe
| Cb_query_user (identifier : pyobject) (text : string).

(** What the meteor client's thread has still to deliver: a named event
    for the hooked listeners, or the reply to a call, for its callback. *)
Inductive transport_event :=
| Emit (name : string) (args : list pyval)
| Reply (cb : callback) (args : list pyval).

Record MeteorClient := {
  mc_uri : pyval;
  mc_listeners : list (string * callback);
  connected : bool;
  mc_closed : bool;
  mc_queue : list transport_event;
  (** how often this session's main thread has read [connected] and
      called the heartbeat function *)
  mc_polls : nat;
  mc_beats : nat;
}.

Definition MeteorClient_new (uri : pyval) : MeteorClient :=
  {| mc_uri := uri; mc_listeners := []; connected := false;
     mc_closed := false; mc_queue := []; mc_polls := 0; mc_beats := 0 |}.

Definition with_listeners (l : list (string * callback)) (c : MeteorClient) : MeteorClient :=
  {| mc_uri := mc_uri c; mc_listeners := l; connected := connected c;
     mc_closed := mc_closed c; mc_queue := mc_queue c;
     mc_polls := mc_polls c; mc_beats := mc_beats c |}.

Definition with_queue (q : list transport_event) (c : MeteorClient) : MeteorClient :=
  {| mc_uri := mc_uri c; mc_listeners := mc_listeners c; connected := connected c;
     mc_closed := mc_closed c; mc_queue := q;
     mc_polls := mc_polls c; mc_beats := mc_beats c |}.

Definition with_connected (b : bool) (c : MeteorClient) : MeteorClient :=
  {| mc_uri := mc_uri c; mc_listeners := mc_listeners c; connected := b;
     mc_closed := mc_closed c; mc_queue := mc_queue c;
     mc_polls := mc_polls c; mc_beats := mc_beats c |}.

Definition with_closed (c : MeteorClient) : MeteorClient :=
  {| mc_uri := mc_uri c; mc_listeners := mc_listeners c; connected := false;
     mc_closed := true; mc_queue := mc_queue c;
     mc_polls := mc_polls c; mc_beats := mc_beats c |}.

Definition with_counters (p b : nat) (c : MeteorClient) : MeteorClient :=
  {| mc_uri := mc_uri c; mc_listeners := mc_listeners c; connected := connected c;
     mc_closed := mc_closed c; mc_queue := mc_queue c;
     mc_polls := p; mc_beats := b |}.

Record RocketChat := {
  bot_config : bot_config_module;
  _config_obj : option (gmap string pyval);
  _logger : option pyval;
  _server_uri : pyval;
  _login_username : pyval;
  _login_password : pyval;
  bot_identifier : RocketChatUser.t;
  _subscribing_done_event : bool;
  _meteor_closed_event : bool;
  _meteor_client : option MeteorClient;
}.

Definition set_meteor_client (c : option MeteorClient) (b : RocketChat) : RocketChat :=
  {| bot_config := bot_config b; _config_obj := _config_obj b;
     _logger := _logger b; _server_uri := _server_uri b;
     _login_username := _login_username b;
     _login_password := _login_password b;
     bot_identifier := bot_identifier b;
     _subscribing_done_event := _subscribing_done_event b;
     _meteor_closed_event := _meteor_closed_event b;
     _meteor_client := c |}.

Inductive event_id := SubscribingDone | MeteorClosed.

Definition set_event (e : event_id) (v : bool) (b : RocketChat) : RocketChat :=
  {| bot_config := bot_config b; _config_obj := _config_obj b;
     _logger := _logger b; _server_uri := _server_uri b;
     _login_username := _login_username b;
     _login_password := _login_password b;
     bot_identifier := bot_identifier b;
     _subscribing_done_event :=
       match e with SubscribingDone => v | MeteorClosed => _subscribing_done_event b end;
     _meteor_closed_event :=
       match e with MeteorClosed => v | SubscribingDone => _meteor_closed_event b end;
     _meteor_client := _meteor_client b |}.

Definition event_flag (e : event_id) (b : RocketChat) : bool :=
  match e with
  | SubscribingDone => _subscribing_done_event b
  | MeteorClosed => _meteor_closed_event b
  end.

Inductive presence_status := ONLINE | OFFLINE.

(** ** Config lookup *)

(** [RocketChat._get_config]: the env variable first, then the config
    object, else the default. *)
Definition _get_config (environ : gmap string string)
    (config_obj : option (gmap string pyval)) (key : string) (default : pyval) : pyval :=
  let env_var_name := _ENV_VAR_NAME_PREFIX +:+ key in
  match environ !! env_var_name with
  | Some s => VStr s
  | None =>
      match config_obj with
      | None => default
      | Some obj =>
          match obj !! key with
          | Some v => v
          | None => default
          end
      end
  end.

(** [RocketChat._get_bool_config] *)
Definition _get_bool_config (environ : gmap string string)
    (config_obj : option (gmap string pyval)) (key : string) (default : pyval) : bool :=
  let config_value := _get_config environ config_obj key default in
  if negb (py_truthy config_value) then false
  else
    let config_value_str_lower := py_lower (py_str config_value) in
    negb (bool_decide (config_value_str_lower ∈ ["0"; "false"; "no"])).

(** [RocketChat.build_identifier] *)
Definition build_identifier (username : pyval) : RocketChatUser.t :=
  RocketChatUser.__init__ username VNone VNone VNone.

(** ** Effects: state, observable actions, exceptions *)

Declare Scope M_scope.

Section Backend.
Context {platform : Platform}.

(** What a run does that its surroundings can see: calls on the meteor
    client, on the framework, on the events, and log records (with the
    fixed text of their message). *)
Inductive action :=
| ACreateClient (uri : pyval)
| AConnect
| ALogin (user password : pyval)
| ASubscribe (name : string) (params : list pyval)
| ACall (method : string) (params : list pyval)
| AClose
| ARemoveAllListeners
| AReleaseClient
| APollConnected (b : bool)
| AEventSet (e : event_id)
| AEventClear (e : event_id)
| AEventWaited (e : event_id)
| AHeartbeat (func : pyval)
| ASleep (t : pyfloat)
| AConnectCallback
| ADisconnectCallback
| ACallbackPresence (identifier : RocketChatUser.t) (status : presence_status)
| ACallbackMessage (m : Message)
| ASuperSendMessage (m : Message)
| AResetReconnectionCount
| ADelayReconnect
| AShutdown
| APatchMeteorClient
| ATransportThreadError (e : exn)
| ALogDebug (msg : string)
| ALogError (msg : string).

(** The process: its environment variables and the backend object. *)
Record world := {
  environ : gmap string string;
  self : RocketChat;
}.

Inductive outcome (A : Type) :=
| Return (a : A)
| Raise (e : exn)
| Blocked
| OutOfFuel.
#[global] Arguments Return {A} a.
#[global] Arguments Raise {A} e.
#[global] Arguments Blocked {A}.
#[global] Arguments OutOfFuel {A}.

Record run (A : Type) := mkRun {
  out : outcome A;
  final : world;
  log : list action;
}.
#[global] Arguments mkRun {A} out final log.
#[global] Arguments out {A} r.
#[global] Arguments final {A} r.
#[global] Arguments log {A} r.

Definition M (A : Type) : Type := world -> run A.

Definition cast_outcome {A B} (o : outcome A) (d : outcome B) : outcome B :=
  match o with
  | Return _ => d
  | Raise e => Raise e
  | Blocked => Blocked
  | OutOfFuel => OutOfFuel
  end.

Definition ret {A} (a : A) : M A := fun w => mkRun (Return a) w [].

Definition bind {A B} (m : M A) (f : A -> M B) : M B := fun w =>
  let r := m w in
  match out r with
  | Return a => let r' := f a (final r) in mkRun (out r') (final r') (log r ++ log r')
  | o => mkRun (cast_outcome o Blocked) (final r) (log r)
  end.

Notation "x ← y ; z" := (bind y (fun x => z))
  (at level 20, y at level 100, z at level 200, only parsing) : M_scope.
Notation "x ;; z" := (bind x (fun _ => z))
  (at level 100, z at level 200, only parsing, right associativity) : M_scope.
Local Open Scope M_scope.

Definition raise {A} (e : exn) : M A := fun w => mkRun (Raise e) w [].
Definition blocked {A} : M A := fun w => mkRun Blocked w [].
Definition out_of_fuel {A} : M A := fun w => mkRun OutOfFuel w [].
Definition tell (a : action) : M unit := fun w => mkRun (Return tt) w [a].

(** [try: m except <catches>: h] *)
Definition try_except {A} (catches : exn -> bool) (m : M A) (h : exn -> M A) : M A :=
  fun w =>
    let r := m w in
    match out r with
    | Raise e =>
        if catches e
        then let r' := h e (final r) in mkRun (out r') (final r') (log r ++ log r')
        else r
    | _ => r
    end.

(** [try: m finally: f] — [f] runs when [m] returns or raises, and an
    exception of [f] replaces the pending one. *)
Definition try_finally {A} (m : M A) (f : M unit) : M A :=
  fun w =>
    let r := m w in
    match out r with
    | Return _ | Raise _ =>
        let r' := f (final r) in
        mkRun (cast_outcome (out r') (out r)) (final r') (log r ++ log r')
    | _ => r
    end.

Definition is_KeyboardInterrupt (e : exn) : bool :=
  match e with KeyboardInterrupt => true | _ => false end.

Definition get_world : M world := fun w => mkRun (Return w) w [].
Definition get_self : M RocketChat := fun w => mkRun (Return (self w)) w [].
Definition modify_self (f : RocketChat -> RocketChat) : M unit :=
  fun w => mkRun (Return tt)
    {| environ := environ w; self := f (self w) |} [].

Definition lift_exn {A} (r : exn + A) : M A :=
  match r with
  | inl e => raise e
  | inr a => ret a
  end.

(** [for x in l: f x] *)
Fixpoint for_each {A} (l : list A) (f : A -> M unit) : M unit :=
  match l with
  | [] => ret tt
  | x :: l' => f x;; for_each l' f
  end.

Definition _log_debug (msg : string) : M unit := tell (ALogDebug msg).
Definition _log_error (msg : string) : M unit := tell (ALogError msg).

(** *** [threading.Event] *)

Definition event_set (e : event_id) : M unit :=
  modify_self (set_event e true);; tell (AEventSet e).

Definition event_clear (e : event_id) : M unit :=
  modify_self (set_event e false);; tell (AEventClear e).

Definition event_is_set (e : event_id) : M bool :=
  b ← get_self; ret (event_flag e b).

(** ** The remote side *)

(** What the server, the network and the user's heartbeat function do in
    one session.  A login or subscription that gets no reply stands for a
    connection lost at that point. *)
Record scenario := {
  sc_connect_error : option exn;
  sc_login : option (pyval * pyval);
  sc_subscribe : option pyval;
  sc_interrupt_subscribing : option exn;
  sc_drop_at_poll : nat -> bool;
  sc_heartbeat_error : nat -> option exn;
  sc_server_closes : bool;
  sc_interrupt_closed : option exn;
  sc_close_info : pyval * pyval;
  sc_call_reply : string -> list pyval -> list pyval;
}.

Section Session.
Variable sc : scenario.

(** *** [self._meteor_client] and its methods *)

(** [self._meteor_client.<attr>]: an [AttributeError] once the reference
    has been dropped. *)
Definition the_client : M MeteorClient :=
  b ← get_self;
  match _meteor_client b with
  | Some c => ret c
  | None => raise (AttributeError "_meteor_client")
  end.

Definition modify_client (f : MeteorClient -> MeteorClient) : M unit :=
  c ← the_client; modify_self (set_meteor_client (Some (f c))).

Definition enqueue (ev : transport_event) : M unit :=
  modify_client (fun c => with_queue (mc_queue c ++ [ev]) c).

(** The connection goes down, once: [connected] drops and the 'closed'
    event is due. *)
Definition transport_down : M unit :=
  c ← the_client;
  if mc_closed c then ret tt
  else
    modify_client with_closed;;
    enqueue (Emit "closed" [fst (sc_close_info sc); snd (sc_close_info sc)]).

(** The same, brought about by the remote side. *)
Definition remote_close : M unit :=
  b ← get_self;
  match _meteor_client b with
  | Some _ => transport_down
  | None => ret tt
  end.

Definition mc_on (name : string) (cb : callback) : M unit :=
  modify_client (fun c => with_listeners (mc_listeners c ++ [(name, cb)]) c).

Definition mc_remove_all_listeners : M unit :=
  _ ← the_client;
  tell ARemoveAllListeners;;
  modify_client (with_listeners []).

Definition mc_connect : M unit :=
  _ ← the_client;
  tell AConnect;;
  match sc_connect_error sc with
  | Some e => raise e
  | None => enqueue (Emit "connected" [])
  end.

Definition mc_login (user password : pyval) (cb : callback) : M unit :=
  _ ← the_client;
  tell (ALogin user password);;
  match sc_login sc with
  | Some (error_info, success_info) => enqueue (Reply cb [error_info; success_info])
  | None => transport_down
  end.

Definition mc_subscribe (name : string) (params : list pyval) (cb : callback) : M unit :=
  _ ← the_client;
  tell (ASubscribe name params);;
  match sc_subscribe sc with
  | Some error_info => enqueue (Reply cb [error_info])
  | None => transport_down
  end.

Definition mc_call (method : string) (params : list pyval) (cb : option callback) : M unit :=
  _ ← the_client;
  tell (ACall method params);;
  match cb with
  | Some c => enqueue (Reply c (sc_call_reply sc method params))
  | None => ret tt
  end.

Definition mc_close : M unit :=
  _ ← the_client;
  tell AClose;;
  transport_down.

(** ** class RocketChat *)

Definition get_config (key : string) (default : pyval) : M pyval :=
  w ← get_world; ret (_get_config (environ w) (_config_obj (self w)) key default).

Definition get_bool_config (key : string) (default : pyval) : M bool :=
  w ← get_world; ret (_get_bool_config (environ w) (_config_obj (self w)) key default).

(** *** Framework methods the backend calls (Errbot's [ErrBot]) *)

Definition connect_callback : M unit := tell AConnectCallback.
Definition disconnect_callback : M unit := tell ADisconnectCallback.
Definition callback_presence (identifier : RocketChatUser.t) (status : presence_status) : M unit :=
  tell (ACallbackPresence identifier status).
Definition callback_message (m : Message) : M unit := tell (ACallbackMessage m).
Definition reset_reconnection_count : M unit := tell AResetReconnectionCount.
Definition _delay_reconnect : M unit := tell ADelayReconnect.
Definition shutdown : M unit := tell AShutdown.

(** *** Subscripting and [.get] on a payload *)

(** [v.get(key, None)] *)
Definition py_get (v : pyval) (key : string) : exn + pyval :=
  match v with
  | VDict d => inr (match dict_get d key with Some x => x | None => VNone end)
  | _ => inl (AttributeError "get")
  end.

(** [v[key]] for a string key *)
Definition py_getitem (v : pyval) (key : string) : exn + pyval :=
  match v with
  | VDict d =>
      match dict_get d key with
      | Some x => inr x
      | None => inl (KeyError key)
      end
  | _ => inl TypeError
  end.

(** *** Meteor callbacks *)

Definition _meteor_connected_callback : M unit :=
  _log_debug "# ----- _meteor_connected_callback -----";;
  _log_debug "# ----- Log in to meteor server -----";;
  b ← get_self;
  mc_login (_login_username b) (_login_password b) Cb_meteor_login.

Definition _meteor_login_callback (error_info success_info : pyval) : M unit :=
  _log_debug "# ----- _meteor_login_callback -----";;
  if negb (is_none error_info) then
    _log_debug "Login failed:";;
    mc_close
  else
    _log_debug "Login succeeded:";;
    mc_subscribe "stream-room-messages" [VStr "__my_messages__"; VBool false]
                 Cb_meteor_subscribe.

Definition _meteor_subscribe_callback (error_info : pyval) : M unit :=
  _log_debug "# ----- _meteor_subscribe_callback -----";;
  if negb (is_none error_info) then
    _log_debug "Subscribing failed:";;
    mc_close
  else
    _log_debug "Subscribing succeeded.";;
    _log_debug "# ----- Call `connect_callback` -----";;
    connect_callback;;
    _log_debug "# ----- Call `callback_presence` -----";;
    b ← get_self;
    callback_presence (bot_identifier b) ONLINE;;
    _log_debug "# ----- Hook callback `_meteor_changed_callback` -----";;
    reset_reconnection_count;;
    event_set SubscribingDone.

(** The body of the loop over [args] in [_meteor_changed_callback]. *)
Definition handle_msg_info (msg_info : pyval) : M unit :=
  msg ← lift_exn (py_get msg_info "msg");
  if negb (is_none msg) then
    sender_info ← lift_exn (py_getitem msg_info "u");
    sender_username ← lift_exn (py_getitem sender_info "username");
    b ← get_self;
    if negb (py_eq sender_username (_login_username b)) then
      let sender_identifier := build_identifier sender_username in
      let extras := [("msg_info", inl msg_info)] in
      let msg_obj :=
        mkMessage msg (ObjUser sender_identifier) (ObjUser (bot_identifier b)) extras in
      _log_debug "# ----- Call `callback_message` -----";;
      callback_message msg_obj
    else ret tt
  else ret tt.

Definition _meteor_changed_callback (collection id fields cleared : pyval) : M unit :=
  if py_eq collection (VStr "stream-room-messages") then
    args ← lift_exn (py_get fields "args");
    match args with
    | VList l => for_each l handle_msg_info
    | _ => ret tt
    end
  else ret tt.

Definition _meteor_added_callback (collection id fields : pyval) : M unit :=
  _log_debug "# ----- _meteor_added_callback -----".

Definition _meteor_removed_callback (collection id : pyval) : M unit :=
  _log_debug "# ----- _meteor_removed_callback -----".

Definition _meteor_failed_callback : M unit :=
  _log_debug "# ----- _meteor_failed_callback -----".

Definition _meteor_reconnected_callback : M unit :=
  _log_debug "# ----- _meteor_reconnected_callback -----".

Definition _meteor_closed_callback (code reason : pyval) : M unit :=
  _log_debug "# ----- _meteor_closed_callback -----";;
  event_set SubscribingDone;;
  event_set MeteorClosed.

(** *** Sending *)

Definition prefix_groupchat_reply (message : Message) (identifier : pyobject) : M unit :=
  ret tt.

Definition send_rocketchat_message (params : pyval) : M unit :=
  let params := match params with VList l => l | _ => [params] end in
  mc_call "sendMessage" params None.

Definition send_message (mess : Message) : M unit :=
  tell (ASuperSendMessage mess);;
  orig_msg ← match extras_get (extras mess) "orig_msg" with
             | Some (inr m) => ret m
             | Some (inl _) => raise (AttributeError "extras")
             | None => raise (KeyError "orig_msg")
             end;
  msg_info ← match extras_get (extras orig_msg) "msg_info" with
             | Some (inl v) => ret v
             | Some (inr _) => raise TypeError
             | None => raise (KeyError "msg_info")
             end;
  room_id ← lift_exn (py_getitem msg_info "rid");
  send_rocketchat_message (VDict [("rid", room_id); ("msg", body mess)]).

(** The framework's [split_and_send_message]: one [send_message] per part
    of the body, each part a copy of the message with that body. *)
Definition split_and_send_message (msg : Message) : M unit :=
  match body msg with
  | VStr text =>
      for_each (split_string_after text)
        (fun part => send_message (mkMessage (VStr part) (frm msg) (to msg) (extras msg)))
  | _ => raise TypeError
  end.

Definition create_reply_msg (identifier : pyobject) (text : string) : M unit :=
  _ ← the_client;
  person ← match identifier with
           | ObjUser u => ret (RocketChatUser.person u)
           | _ => raise (AttributeError "person")
           end;
  mc_call "createDirectMessage" [person] (Some (Cb_query_user identifier text)).

Definition send (identifier : pyobject) (text : string)
    (in_reply_to : option Message) (groupchat_nick_reply : bool) : M pyval :=
  if negb (isinstance_Identifier identifier) then
    let error_msg :=
      "Argument `identifier` is not Identifier instance: " +:+ repr_object identifier in
    raise (ValueError error_msg)
  else
    match in_reply_to with
    | None =>
        create_reply_msg identifier text;;
        ret (VBool true)
    | Some in_reply_to =>
        let msg_obj :=
          mkMessage (VStr text) (to in_reply_to) identifier
                    [("orig_msg", inr in_reply_to)] in
        b ← get_self;
        let group_chat_prefix := GROUPCHAT_NICK_PREFIXED (bot_config b) in
        (if isinstance_Room identifier then
           if py_truthy group_chat_prefix || groupchat_nick_reply then
             prefix_groupchat_reply msg_obj (frm in_reply_to)
           else ret tt
         else ret tt);;
        split_and_send_message msg_obj;;
        ret VNone
    end.

(** The closure [query_user_callback] of [create_reply_msg], called with
    the reply's positional arguments. *)
Definition query_user_callback (identifier : pyobject) (text : string)
    (args : list pyval) : M unit :=
  arg1 ← match args with
         | _ :: a :: _ => ret a
         | _ => raise (OtherException "IndexError")
         end;
  b ← get_self;
  let in_reply_to :=
    mkMessage (VStr text) identifier (ObjUser (bot_identifier b))
              [("msg_info", inl arg1)] in
  send identifier text (Some in_reply_to) false;;
  ret tt.

(** ** The meteor client's thread *)

Definition run_callback (cb : callback) (args : list pyval) : M unit :=
  match cb, args with
  | Cb_meteor_connected, [] => _meteor_connected_callback
  | Cb_meteor_changed, [collection; id; fields; cleared] =>
      _meteor_changed_callback collection id fields cleared
  | Cb_meteor_added, [collection; id; fields] => _meteor_added_callback collection id fields
  | Cb_meteor_removed, [collection; id] => _meteor_removed_callback collection id
  | Cb_meteor_failed, [] => _meteor_failed_callback
  | Cb_meteor_reconnected, [] => _meteor_reconnected_callback
  | Cb_meteor_closed, [code; reason] => _meteor_closed_callback code reason
  | Cb_meteor_login, [error_info; success_info] =>
      _meteor_login_callback error_info success_info
  | Cb_meteor_subscribe, [error_info] => _meteor_subscribe_callback error_info
  | Cb_query_user identifier text, _ => query_user_callback identifier text args
  | _, _ => raise TypeError
  end.

(** Delivering one event: a named event goes to every listener hooked
    under that name, a reply to its callback. *)
Definition deliver (ev : transport_event) : M unit :=
  match ev with
  | Emit name args =>
      (if String.eqb name "connected" then modify_client (with_connected true)
       else ret tt);;
      c ← the_client;
      for_each (mc_listeners c)
        (fun l => if String.eqb (fst l) name then run_callback (snd l) args else ret tt)
  | Reply cb args => run_callback cb args
  end.

(** An exception of a callback stays in the client's thread. *)
Definition in_transport_thread (m : M unit) : M unit :=
  try_except (fun _ => true) m (fun e => tell (ATransportThreadError e)).

(** The client's thread delivers what is pending, callbacks queueing
    further events as they go. *)
Fixpoint run_transport (fuel : nat) {struct fuel} : M unit :=
  b ← get_self;
  match _meteor_client b with
  | None => ret tt
  | Some c =>
      match mc_queue c with
      | [] => ret tt
      | ev :: q =>
          match fuel with
          | O => out_of_fuel
          | S fuel' =>
              modify_client (with_queue q);;
              in_transport_thread (deliver ev);;
              run_transport fuel'
          end
      end
  end.

(** [event.wait()]: the client's thread runs while the main thread is
    blocked; the wait returns once the event is set, and never if nothing
    is left that could set it. *)
Definition event_wait (fuel : nat) (e : event_id) (interrupt : option exn)
    (remote_closes : bool) : M unit :=
  match interrupt with
  | Some x => raise x
  | None =>
      run_transport fuel;;
      is_set ← event_is_set e;
      if is_set then tell (AEventWaited e)
      else if remote_closes then
        remote_close;;
        run_transport fuel;;
        is_set ← event_is_set e;
        if is_set then tell (AEventWaited e) else blocked
      else blocked
  end.

(** Reading [self._meteor_client.connected]. *)
Definition read_connected (fuel : nat) : M bool :=
  run_transport fuel;;
  c ← the_client;
  (if sc_drop_at_poll sc (mc_polls c) then remote_close;; run_transport fuel
   else ret tt);;
  modify_client (fun c => with_counters (S (mc_polls c)) (mc_beats c) c);;
  c ← the_client;
  tell (APollConnected (connected c));;
  ret (connected c).

(** [heartbeat_func(self)] *)
Definition call_heartbeat (heartbeat_func : pyval) : M unit :=
  c ← the_client;
  tell (AHeartbeat heartbeat_func);;
  modify_client (fun c => with_counters (mc_polls c) (S (mc_beats c)) c);;
  match sc_heartbeat_error sc (mc_beats c) with
  | Some e => raise e
  | None => ret tt
  end.

Definition time_sleep (t : pyfloat) : M unit :=
  match time_sleep_error t with
  | Some e => raise e
  | None => tell (ASleep t)
  end.

(** ** serve_once *)

(** The loop at 65ZNO. *)
Fixpoint heartbeat_loop (n fuel : nat) (heartbeat_func : pyval)
    (heartbeat_interval : pyfloat) {struct n} : M unit :=
  match n with
  | O => out_of_fuel
  | S n' =>
      c ← read_connected fuel;
      if c then
        call_heartbeat heartbeat_func;;
        time_sleep heartbeat_interval;;
        heartbeat_loop n' fuel heartbeat_func heartbeat_interval
      else ret tt
  end.

(** The handler of the first [try]: connecting failed. *)
Definition serve_once_connect_failed (e : exn) : M unit :=
  _log_debug "# ----- Connecting failed -----";;
  _log_debug "# ----- Unhook meteor client callbacks -----";;
  mc_remove_all_listeners;;
  modify_self (set_meteor_client None);;
  tell AReleaseClient;;
  event_clear SubscribingDone;;
  event_clear MeteorClosed;;
  raise e.

(** The body of the second [try]. *)
Definition serve_once_wait (fuel : nat) (heartbeat_enabled : bool) : M unit :=
  event_wait fuel SubscribingDone (sc_interrupt_subscribing sc) false;;
  (if heartbeat_enabled then
     heartbeat_func ← get_config CONFIG_KEYS.HEARTBEAT_FUNC VNone;
     (if callable heartbeat_func then ret tt
      else raise (AssertionError (py_repr heartbeat_func)));;
     heartbeat_interval ← get_config CONFIG_KEYS.HEARTBEAT_INTERVAL (VInt 10);
     heartbeat_interval ← lift_exn (py_float heartbeat_interval);
     heartbeat_loop fuel fuel heartbeat_func heartbeat_interval
   else ret tt);;
  event_wait fuel MeteorClosed (sc_interrupt_closed sc) (sc_server_closes sc).

(** Its [except Exception] handler. *)
Definition serve_once_on_error (fuel : nat) (e : exn) : M unit :=
  mc_close;;
  event_wait fuel MeteorClosed None false;;
  raise e.

(** Its [finally] block. *)
Definition serve_once_finally : M unit :=
  _log_debug "# ----- Unhook meteor client callbacks -----";;
  mc_remove_all_listeners;;
  modify_self (set_meteor_client None);;
  tell AReleaseClient;;
  _log_debug "# ----- Call `callback_presence` -----";;
  b ← get_self;
  callback_presence (bot_identifier b) OFFLINE;;
  _log_debug "# ----- Call `disconnect_callback` -----";;
  disconnect_callback;;
  event_clear SubscribingDone;;
  event_clear MeteorClosed.

(** Its beginning: a fresh client, the callbacks hooked, the events
    cleared. *)
Definition serve_once_begin : M unit :=
  _log_debug "# ----- serve_once -----";;
  _log_debug "# ----- Create meteor client -----";;
  b ← get_self;
  tell (ACreateClient (_server_uri b));;
  modify_self (set_meteor_client (Some (MeteorClient_new (_server_uri b))));;
  _log_debug "# ----- Hook meteor client callbacks -----";;
  mc_on "connected" Cb_meteor_connected;;
  mc_on "changed" Cb_meteor_changed;;
  mc_on "added" Cb_meteor_added;;
  mc_on "removed" Cb_meteor_removed;;
  mc_on "failed" Cb_meteor_failed;;
  mc_on "reconnected" Cb_meteor_reconnected;;
  mc_on "closed" Cb_meteor_closed;;
  event_clear SubscribingDone;;
  event_clear MeteorClosed;;
  _log_debug "# ----- Connect to meteor server -----".

Definition serve_once (fuel : nat) : M unit :=
  serve_once_begin;;
  try_except is_Exception mc_connect serve_once_connect_failed;;
  heartbeat_enabled ← get_bool_config CONFIG_KEYS.HEARTBEAT_ENABLED VNone;
  try_finally
    (try_except is_Exception
       (serve_once_wait fuel heartbeat_enabled)
       (serve_once_on_error fuel))
    serve_once_finally;;
  _log_debug "# ===== serve_once =====".

End Session.

(** ** serve_forever *)

Definition _patch_meteor_client : M unit :=
  need_patch ← get_bool_config CONFIG_KEYS.PATCH_METEOR_CLIENT (VBool true);
  if need_patch then tell APatchMeteorClient else ret tt.

(** The [while True] loop; the [n]-th attempt meets the [n]-th scenario. *)
Fixpoint serve_loop (scs : nat -> scenario) (reconnect_enabled : bool)
    (fuel attempts n : nat) {struct attempts} : M unit :=
  match attempts with
  | O => out_of_fuel
  | S attempts' =>
      try_except is_Exception
        (serve_once (scs n) fuel)
        (fun _ => _log_error "# ----- `serve_once` failed with error -----");;
      if reconnect_enabled then
        _log_debug "# ----- Sleep before reconnect -----";;
        _delay_reconnect;;
        _log_debug "# ----- Wake up to reconnect -----";;
        serve_loop scs reconnect_enabled fuel attempts' (S n)
      else ret tt
  end.

Definition serve_forever (scs : nat -> scenario) (fuel attempts : nat) : M unit :=
  _log_debug "# ----- serve_forever -----";;
  _patch_meteor_client;;
  reconnect_enabled ← get_bool_config CONFIG_KEYS.RECONNECT_ENABLED (VBool true);
  try_finally
    (try_except is_KeyboardInterrupt
       (serve_loop scs reconnect_enabled fuel attempts 0)
       (fun _ => ret tt))
    shutdown;;
  _log_debug "# ===== serve_forever =====".

(** ** The constructor *)

(** [self._log_error] as [__init__] reaches it: the logger is created
    only after the logging level has been accepted. *)
Definition init_log_error (logger : option pyval) (msg : string) : exn + unit :=
  match logger with
  | Some _ => inr tt
  | None => inl (AttributeError "_logger")
  end.

Definition missing_config (logger : option pyval) (key : string) : exn :=
  let error_msg := "Missing config `" +:+ key +:+ "`." in
  match init_log_error logger error_msg with
  | inl e => e
  | inr _ => ValueError error_msg
  end.

(** [RocketChat.__init__] *)
Definition __init__ (environ : gmap string string) (config : bot_config_module)
  : exn + RocketChat :=
  let config_obj := ROCKETCHAT_CONFIG config in
  let env_log_level := _get_config environ config_obj CONFIG_KEYS.BOT_LOG_LEVEL VNone in
  let orig_log_level :=
    if is_none env_log_level
    then match cfg_BOT_LOG_LEVEL config with Some v => v | None => VNone end
    else env_log_level in
  let log_level :=
    if is_none orig_log_level then logging_getattr "DEBUG" else orig_log_level in
  let log_level :=
    match log_level with
    | VStr name => logging_getattr name
    | _ => log_level
    end in
  if negb (isinstance_int log_level) then
    let error_msg :=
      "Config `BOT_LOG_LEVEL` value is invalid: " +:+ py_repr orig_log_level in
    match init_log_error None error_msg with
    | inl e => inl e
    | inr _ => inl (ValueError error_msg)
    end
  else
    let logger := Some log_level in
    let server_uri := _get_config environ config_obj CONFIG_KEYS.SERVER_URI VNone in
    if is_none server_uri then inl (missing_config logger CONFIG_KEYS.SERVER_URI)
    else
      let login_username :=
        _get_config environ config_obj CONFIG_KEYS.LOGIN_USERNAME VNone in
      if is_none login_username then inl (missing_config logger CONFIG_KEYS.LOGIN_USERNAME)
      else
        let login_password :=
          _get_config environ config_obj CONFIG_KEYS.LOGIN_PASSWORD VNone in
        if is_none login_password
        then inl (missing_config logger CONFIG_KEYS.LOGIN_PASSWORD)
        else
          match
            (match login_password with
             | VBytes _ => inr login_password
             | VStr s => inr (VBytes (list_byte_of_string s))
             | _ => inl TypeError
             end)
          with
          | inl e => inl e
          | inr login_password =>
              inr {| bot_config := config;
                     _config_obj := config_obj;
                     _logger := logger;
                     _server_uri := server_uri;
                     _login_username := login_username;
                     _login_password := login_password;
                     bot_identifier := build_identifier login_username;
                     _subscribing_done_event := false;
                     _meteor_closed_event := false;
                     _meteor_client := None |}
          end.

End Backend.

Notation "x ← y ; z" := (bind y (fun x => z))
  (at level 20, y at level 100, z at level 200, only parsing) : M_scope.
Notation "x ;; z" := (bind x (fun _ => z))
  (at level 100, z at level 200, only parsing, right associativity) : M_scope.
Local Open Scope M_scope.

(** * Further methods of the backend *)

(** ** The patched [CollectionData.change_data] *)

(** [CollectionData.data] is a map from the collection to a map from the
    item id to the map of the item's fields. *)

(** [self.data[collection][id]] *)
Definition get_item (data : gmap string (gmap string (gmap string pyval)))
    (collection id : string) : option (gmap string pyval) :=
  data !! collection ≫= (fun items => items !! id).

(** [self.data[collection][id] = item], once [self.data[collection]] is
    there. *)
Definition set_item (data : gmap string (gmap string (gmap string pyval)))
    (collection id : string) (item : gmap string pyval)
  : gmap string (gmap string (gmap string pyval)) :=
  match data !! collection with
  | Some items => <[collection := <[id := item]> items]> data
  | None => data
  end.

(** [for key, value in fields.items(): item[key] = value], [fields] given
    by its items in the order of the iteration. *)
Definition set_fields (fields : list (string * pyval)) (item : gmap string pyval)
  : gmap string pyval :=
  foldl (fun it kv => <[fst kv := snd kv]> it) item fields.

(** [for key in cleared: del item[key]]: a [KeyError] at the first key
    that is not there, the keys before it deleted. *)
Fixpoint clear_fields (cleared : list string) (item : gmap string pyval)
  : option exn * gmap string pyval :=
  match cleared with
  | [] => (None, item)
  | key :: rest =>
      match item !! key with
      | Some _ => clear_fields rest (delete key item)
      | None => (Some (KeyError key), item)
      end
  end.

(** The function [change_data] that [_patch_meteor_client] installs: the
    store it leaves, and the error it raised if any. *)
Definition change_data (data : gmap string (gmap string (gmap string pyval)))
    (collection id : string) (fields : list (string * pyval)) (cleared : list string)
  : option exn * gmap string (gmap string (gmap string pyval)) :=
  let data :=
    match data !! collection with
    | None => <[collection := ∅]> data
    | Some _ => data
    end in
  let data :=
    match get_item data collection id with
    | None => set_item data collection id ∅
    | Some _ => data
    end in
  let item := default ∅ (get_item data collection id) in
  let item := set_fields fields item in
  let '(error, item) := clear_fields cleared item in
  (error, set_item data collection id item).

(** ** Replies, cards and the methods left unimplemented *)

(** [RocketChat.mode] *)
Definition mode : pyval := VStr "rocketchat".

(** [RocketChat.build_reply] *)
Definition build_reply (mess : Message) (text : pyval) (private threaded : bool)
  : Message :=
  mkMessage text (to mess) (frm mess) [("orig_msg", inr mess)].

(** [errbot.backends.base.Card], with the attributes [send_card] reads;
    [card_fields] are its (title, value) pairs. *)
Record Card := {
  card_body : pyval;
  card_parent : option Message;
  card_color : pyval;
  card_title : pyval;
  card_link : pyval;
  card_summary : pyval;
  card_image : pyval;
  card_thumbnail : pyval;
  card_fields : list (pyval * pyval);
}.

(** [if value: attachment[key] = value] *)
Definition attachment_entry (key : string) (value : pyval) : list (string * pyval) :=
  if py_truthy value then [(key, value)] else [].

(** The [attachment] dict [send_card] builds. *)
Definition card_attachment (card : Card) : list (string * pyval) :=
  attachment_entry "color" (card_color card) ++
  attachment_entry "title" (card_title card) ++
  attachment_entry "title_link" (card_link card) ++
  attachment_entry "text" (card_summary card) ++
  attachment_entry "image_url" (card_image card) ++
  attachment_entry "thumb_url" (card_thumbnail card) ++
  (if (0 <? length (card_fields card))%nat then
     [("fields",
       VList (map (fun field => VDict [("title", fst field); ("value", snd field)])
                  (card_fields card)))]
   else []).

Section Further.
Context {platform : Platform}.
Variable sc : scenario.

(** [RocketChat.send_card] *)
Definition send_card (card : Card) : M unit :=
  parent ← match card_parent card with
           | Some m => ret m
           | None => raise (AttributeError "extras")
           end;
  msg_info ← match extras_get (extras parent) "msg_info" with
             | Some (inl v) => ret v
             | Some (inr _) => raise TypeError
             | None => raise (KeyError "msg_info")
             end;
  room_id ← lift_exn (py_getitem msg_info "rid");
  let attachment := card_attachment card in
  send_rocketchat_message sc
    (VDict [("rid", room_id); ("msg", card_body card);
            ("attachments", VList [VDict attachment])]).

(** [RocketChat.query_room]: not implemented, None. *)
Definition query_room (room : pyval) : M pyval := ret VNone.

(** [RocketChat.rooms]: not implemented, the empty list. *)
Definition rooms : M pyval := ret (VList []).

(** [RocketChat.change_presence]: does nothing. *)
Definition change_presence (status : presence_status) (message : string) : M unit :=
  ret tt.

End Further.

(** * Vocabulary of the properties *)

(** The strings that mean false in a boolean setting, in lower case. *)
Definition false_words : list string := ["0"; "false"; "no"].

(** A nickname or full name that was not given: None or empty. *)
Definition absent (v : pyval) : Prop := v = VNone \/ v = VStr "".

(** The settings [__init__] requires. *)
Definition required_settings : list string :=
  [CONFIG_KEYS.SERVER_URI; CONFIG_KEYS.LOGIN_USERNAME; CONFIG_KEYS.LOGIN_PASSWORD].

(** Counting the actions of a log that satisfy a test. *)
Definition count {A} (p : A -> bool) (l : list A) : nat :=
  length (List.filter p l).

Section Vocabulary.
Context {platform : Platform}.

Definition is_unhook (a : action) : bool :=
  match a with ARemoveAllListeners => true | _ => false end.
Definition is_release (a : action) : bool :=
  match a with AReleaseClient => true | _ => false end.
Definition is_offline (a : action) : bool :=
  match a with ACallbackPresence _ OFFLINE => true | _ => false end.
Definition is_disconnect (a : action) : bool :=
  match a with ADisconnectCallback => true | _ => false end.
Definition is_create_client (a : action) : bool :=
  match a with ACreateClient _ => true | _ => false end.
Definition is_heartbeat (a : action) : bool :=
  match a with AHeartbeat _ => true | _ => false end.
Definition is_poll_true (a : action) : bool :=
  match a with APollConnected true => true | _ => false end.
Definition is_shutdown (a : action) : bool :=
  match a with AShutdown => true | _ => false end.

(** What the callbacks run by the client's thread may do. *)
Definition transport_action (a : action) : bool :=
  match a with
  | ALogDebug _ | ALogin _ _ | ASubscribe _ _ | AClose | AEventSet _
  | AConnectCallback | ACallbackPresence _ ONLINE | AResetReconnectionCount
  | ACallbackMessage _ | ASuperSendMessage _ | ACall _ _
  | ATransportThreadError _ => true
  | _ => false
  end.

(** What happens between a successful connect and the cleanup. *)
Definition session_action (a : action) : bool :=
  transport_action a ||
  match a with
  | APollConnected _ | AHeartbeat _ | ASleep _ | AEventWaited _ => true
  | _ => false
  end.

(** The messages handed to [callback_message], in order. *)
Fixpoint dispatched (l : list action) : list Message :=
  match l with
  | [] => []
  | ACallbackMessage m :: l' => m :: dispatched l'
  | _ :: l' => dispatched l'
  end.

(** The calls made on the meteor client, in order. *)
Fixpoint calls (l : list action) : list (string * list pyval) :=
  match l with
  | [] => []
  | ACall method params :: l' => (method, params) :: calls l'
  | _ :: l' => calls l'
  end.

Definition has_client (b : RocketChat) : Prop :=
  exists c, _meteor_client b = Some c.

(** A computation respects [p] and [I] when every action it logs passes
    [p] and it keeps the backend within [I]. *)
Definition respects (p : action -> bool) (I : RocketChat -> Prop) {A} (m : M A) : Prop :=
  forall w, I (self w) -> I (self (final (m w))) /\ forallb p (log (m w)) = true.

(** Invariants that survive setting an event and updating the client. *)
Definition stable (I : RocketChat -> Prop) : Prop :=
  (forall e v b, I b -> I (set_event e v b)) /\
  (forall c b, I b -> I (set_meteor_client (Some c) b)).

Definition hooked_listeners : list (string * callback) :=
  [("connected", Cb_meteor_connected); ("changed", Cb_meteor_changed);
   ("added", Cb_meteor_added); ("removed", Cb_meteor_removed);
   ("failed", Cb_meteor_failed); ("reconnected", Cb_meteor_reconnected);
   ("closed", Cb_meteor_closed)].

Definition session_world (w : world) (c : MeteorClient) (subscribing_done closed : bool) : world :=
  {| environ := environ w;
     self :=
       {| bot_config := bot_config (self w); _config_obj := _config_obj (self w);
          _logger := _logger (self w); _server_uri := _server_uri (self w);
          _login_username := _login_username (self w);
          _login_password := _login_password (self w);
          bot_identifier := bot_identifier (self w);
          _subscribing_done_event := subscribing_done;
          _meteor_closed_event := closed;
          _meteor_client := Some c |} |}.

Definition connected_world (w : world) : world :=
  session_world w
    {| mc_uri := _server_uri (self w); mc_listeners := hooked_listeners;
       connected := false; mc_closed := false; mc_queue := [Emit "connected" []];
       mc_polls := 0; mc_beats := 0 |} false false.

Definition connect_log (uri : pyval) : list action :=
  [ALogDebug "# ----- serve_once -----";
   ALogDebug "# ----- Create meteor client -----";
   ACreateClient uri;
   ALogDebug "# ----- Hook meteor client callbacks -----";
   AEventClear SubscribingDone; AEventClear MeteorClosed;
   ALogDebug "# ----- Connect to meteor server -----"; AConnect].

Definition serve_once_session (sc : scenario) (fuel : nat) : M unit :=
  heartbeat_enabled ← get_bool_config CONFIG_KEYS.HEARTBEAT_ENABLED VNone;
  try_finally
    (try_except is_Exception
       (serve_once_wait sc fuel heartbeat_enabled)
       (serve_once_on_error sc fuel))
    serve_once_finally;;
  _log_debug "# ===== serve_once =====".

Definition begin_log (uri : pyval) : list action :=
  [ALogDebug "# ----- serve_once -----";
   ALogDebug "# ----- Create meteor client -----";
   ACreateClient uri;
   ALogDebug "# ----- Hook meteor client callbacks -----";
   AEventClear SubscribingDone; AEventClear MeteorClosed;
   ALogDebug "# ----- Connect to meteor server -----"].

Definition fresh_client (uri : pyval) : MeteorClient :=
  {| mc_uri := uri; mc_listeners := hooked_listeners;
     connected := false; mc_closed := false; mc_queue := [];
     mc_polls := 0; mc_beats := 0 |}.

Definition is_log_error (a : action) : bool :=
  match a with ALogError _ => true | _ => false end.

(** What one run of [serve_once] may do after creating its client. *)
Definition attempt_action (a : action) : bool :=
  negb (is_create_client a || is_shutdown a || is_log_error a).

Definition patch_log (w : world) : list action :=
  if _get_bool_config (environ w) (_config_obj (self w))
       CONFIG_KEYS.PATCH_METEOR_CLIENT (VBool true)
  then [APatchMeteorClient] else [].

Definition serve_forever_tail (o : outcome unit) : outcome unit * list action :=
  match o with
  | Return _ => (Return tt, [AShutdown; ALogDebug "# ===== serve_forever ====="])
  | Raise e =>
      if is_Exception e then
        (Return tt, [ALogError "# ----- `serve_once` failed with error -----";
                     AShutdown; ALogDebug "# ===== serve_forever ====="])
      else if is_KeyboardInterrupt e then
        (Return tt, [AShutdown; ALogDebug "# ===== serve_forever ====="])
      else (Raise e, [AShutdown])
  | Blocked => (Blocked, [])
  | OutOfFuel => (OutOfFuel, [])
  end.

(** The 'msg' of a record of the message stream, when it is there and
    other than None: what the callback tests before it asks for the
    sender. *)
Definition record_msg (r : pyval) : option pyval :=
  match r with
  | VDict d =>
      match dict_get d "msg" with
      | None | Some VNone => None
      | Some msg => Some msg
      end
  | _ => None
  end.

(** The body of a record, when it has one that is not empty. *)
Definition nonempty_body (r : pyval) : option pyval :=
  match record_msg r with
  | Some msg => if py_truthy msg then Some msg else None
  | None => None
  end.

(** The sender's user name of a record: its ['u']['username']. *)
Definition record_sender (r : pyval) : option pyval :=
  match r with
  | VDict d =>
      match dict_get d "u" with
      | Some (VDict u) => dict_get u "username"
      | _ => None
      end
  | _ => None
  end.

(** What is wrong with a record, if anything: it is no dict, or it has a
    'msg' other than None and its 'u' is missing or no dict, or the
    'username' of its 'u' is missing. *)
Definition record_error (r : pyval) : option exn :=
  match r with
  | VDict d =>
      match record_msg r with
      | None => None
      | Some _ =>
          match dict_get d "u" with
          | None => Some (KeyError "u")
          | Some (VDict u) =>
              match dict_get u "username" with
              | None => Some (KeyError "username")
              | Some _ => None
              end
          | Some _ => Some TypeError
          end
      end
  | _ => Some (AttributeError "get")
  end.

Definition well_formed_record (r : pyval) : bool :=
  match record_error r with None => true | Some _ => false end.

(** The inbound message for a body and a sender's user name found in a
    record. *)
Definition inbound_message (b : RocketChat) (r msg name : pyval) : Message :=
  mkMessage msg (ObjUser (build_identifier name)) (ObjUser (bot_identifier b))
            [("msg_info", inl r)].

(** The messages one record of the stream gives rise to. *)
Definition record_messages (w : world) (r : pyval) : list Message :=
  dispatched (log (handle_msg_info r w)).

(** The 'sendMessage' call for one part of a text to a room. *)
Definition send_message_call (room_id : pyval) (part : string) : string * list pyval :=
  ("sendMessage", [VDict [("rid", room_id); ("msg", VStr part)]]).

(** The reply context [query_user_callback] builds from the reply. *)
Definition synthesized_reply (b : RocketChat) (identifier : pyobject) (text : string)
    (msg_info : pyval) : Message :=
  mkMessage (VStr text) identifier (ObjUser (bot_identifier b)) [("msg_info", inl msg_info)].

Definition is_waited_subscribing (a : action) : bool :=
  match a with AEventWaited SubscribingDone => true | _ => false end.

(** In a log, the subscribing-done event is set before the main thread's
    wait on it returns, and that wait does return. *)
Fixpoint settled_before_wait (l : list action) : bool :=
  match l with
  | [] => false
  | AEventSet SubscribingDone :: l' => existsb is_waited_subscribing l'
  | AEventWaited SubscribingDone :: _ => false
  | _ :: l' => settled_before_wait l'
  end.

(** Actions that neither call the heartbeat nor read [connected]. *)
Definition silent (a : action) : bool :=
  match a with
  | AHeartbeat _ | APollConnected _ => false
  | _ => true
  end.

(** What the loop at 65ZNO does: reading [connected], calling the
    heartbeat function, sleeping. *)
Definition loop_action (a : action) : bool :=
  match a with
  | APollConnected _ | AHeartbeat _ | ASleep _ => true
  | _ => false
  end.

(** [k] rounds of the loop, and the read that ends it. *)
Fixpoint heartbeat_trace (heartbeat_func : pyval) (t : pyfloat) (k : nat) : list action :=
  match k with
  | O => [APollConnected false]
  | S k' =>
      APollConnected true :: AHeartbeat heartbeat_func :: ASleep t ::
      heartbeat_trace heartbeat_func t k'
  end.

(** The client of a session in progress, after [p] reads of [connected]
    and [b] heartbeats. *)
Definition live_client (uri : pyval) (p b : nat) : MeteorClient :=
  {| mc_uri := uri; mc_listeners := hooked_listeners; connected := true;
     mc_closed := false; mc_queue := []; mc_polls := p; mc_beats := b |}.

(** The same client once the connection is down and 'closed' delivered. *)
Definition closed_client (uri : pyval) (p b : nat) : MeteorClient :=
  {| mc_uri := uri; mc_listeners := hooked_listeners; connected := false;
     mc_closed := true; mc_queue := []; mc_polls := p; mc_beats := b |}.

(** A computation's log has as many heartbeat calls as reads of
    [connected] that gave true. *)
Definition beats_match {A} (m : M A) : Prop :=
  forall w, count is_heartbeat (log (m w)) = count is_poll_true (log (m w)).

(** The reads of [connected]: one read, true exactly when the result is,
    and the client still there afterwards. *)
Definition poll_spec (m : M bool) : Prop :=
  forall w,
    count is_heartbeat (log (m w)) = 0 /\
    count is_poll_true (log (m w)) =
      match out (m w) with Return true => 1 | _ => 0 end /\
    (forall b, out (m w) = Return b -> has_client (self (final (m w)))).

End Vocabulary.

(** ** Further vocabulary *)

(** The backend between two sessions: no meteor client, both events
    cleared. *)
Definition idle (b : RocketChat) : RocketChat :=
  set_event MeteorClosed false
    (set_event SubscribingDone false (set_meteor_client None b)).

(** [if value: ...]: the value when it is truthy. *)
Definition truthy_or_none (v : pyval) : option pyval :=
  if py_truthy v then Some v else None.

(** The session does not get established: the login or the subscription
    is refused, or the connection is lost before its reply. *)
Definition session_fails (sc : scenario) : bool :=
  match sc_login sc, sc_subscribe sc with
  | Some (VNone, _), Some VNone => false
  | _, _ => true
  end.

Section Session_vocabulary.
Context {platform : Platform}.

Definition is_online (a : action) : bool :=
  match a with ACallbackPresence _ ONLINE => true | _ => false end.
Definition is_connect_callback (a : action) : bool :=
  match a with AConnectCallback => true | _ => false end.
Definition is_close (a : action) : bool :=
  match a with AClose => true | _ => false end.
Definition is_sleep (a : action) : bool :=
  match a with ASleep _ => true | _ => false end.
Definition is_delay_reconnect (a : action) : bool :=
  match a with ADelayReconnect => true | _ => false end.

End Session_vocabulary.

Section Constructor_vocabulary.
Context {platform : Platform}.

(** The logging level [__init__] arrives at: BOT_LOG_LEVEL from the
    environment or the config object, else from the config module, else
    [logging.DEBUG]; a name is looked up in [logging]. *)
Definition resolved_log_level (environ : gmap string string)
    (config : bot_config_module) : pyval :=
  let found := _get_config environ (ROCKETCHAT_CONFIG config)
                 CONFIG_KEYS.BOT_LOG_LEVEL VNone in
  let found :=
    if is_none found
    then match cfg_BOT_LOG_LEVEL config with Some v => v | None => VNone end
    else found in
  let level := if is_none found then logging_getattr "DEBUG" else found in
  match level with
  | VStr name => logging_getattr name
  | _ => level
  end.

End Constructor_vocabulary.

(** * Concrete inputs *)

(** [split_string_after(str_, n)]: the parts of at most [n] characters,
    in order; none for the empty string. *)
Fixpoint split_every (fuel n : nat) (s : string) : list string :=
  match fuel with
  | O => []
  | S fuel' =>
      if String.eqb s "" then []
      else substring 0 n s
           :: split_every fuel' n (substring n (String.length s - n) s)
  end.

(** A platform to run the backend on: the levels of [logging] by name,
    whole numbers for the floats ([float] of a text is given for decimal
    integers only) and Errbot's default MESSAGE_SIZE_LIMIT. *)
Definition example_platform : Platform :=
  {| logging_getattr name :=
       if String.eqb name "DEBUG" then VInt 10
       else if String.eqb name "INFO" then VInt 20
       else if String.eqb name "WARNING" then VInt 30
       else if String.eqb name "ERROR" then VInt 40
       else if String.eqb name "CRITICAL" then VInt 50
       else VNone;
     pyfloat := Z;
     py_float v :=
       match v with
       | VInt z => inr z
       | VBool b => inr (if b then 1 else 0)%Z
       | VStr s =>
           match NilZero.int_of_string s with
           | Some i => inr (Z.of_int i)
           | None => inl (ValueError ("could not convert string to float: " +:+ s))
           end
       | _ => inl TypeError
       end;
     time_sleep_error t :=
       if (t <? 0)%Z then Some (ValueError "sleep length must be non-negative")
       else None;
     split_string_after s := split_every (String.length s) (100 * 100) s |}.

Definition example_settings (reconnect heartbeat : bool) : gmap string pyval :=
  list_to_map
    [(CONFIG_KEYS.SERVER_URI, VStr "ws://localhost:3000/websocket");
     (CONFIG_KEYS.LOGIN_USERNAME, VStr "bot");
     (CONFIG_KEYS.LOGIN_PASSWORD, VStr "secret");
     (CONFIG_KEYS.RECONNECT_ENABLED, VBool reconnect);
     (CONFIG_KEYS.HEARTBEAT_ENABLED, VBool heartbeat);
     (CONFIG_KEYS.HEARTBEAT_FUNC, VFunc "heartbeat");
     (CONFIG_KEYS.HEARTBEAT_INTERVAL, VInt 1)].

Definition example_config (reconnect heartbeat : bool) : bot_config_module :=
  {| ROCKETCHAT_CONFIG := Some (example_settings reconnect heartbeat);
     cfg_BOT_LOG_LEVEL := None;
     GROUPCHAT_NICK_PREFIXED := VBool false |}.

(** The backend [__init__] builds from [example_config]. *)
Definition example_backend (reconnect heartbeat : bool) : RocketChat :=
  {| bot_config := example_config reconnect heartbeat;
     _config_obj := Some (example_settings reconnect heartbeat);
     _logger := Some (VInt 10);
     _server_uri := VStr "ws://localhost:3000/websocket";
     _login_username := VStr "bot";
     _login_password := VBytes (list_byte_of_string "secret");
     bot_identifier := build_identifier (VStr "bot");
     _subscribing_done_event := false;
     _meteor_closed_event := false;
     _meteor_client := None |}.

Definition example_world (reconnect heartbeat : bool) : world :=
  {| environ := ∅; self := example_backend reconnect heartbeat |}.

(** A config that lacks the login password. *)
Definition config_without_password : bot_config_module :=
  {| ROCKETCHAT_CONFIG :=
       Some (list_to_map
               [(CONFIG_KEYS.SERVER_URI, VStr "ws://localhost:3000/websocket");
                (CONFIG_KEYS.LOGIN_USERNAME, VStr "bot")]);
     cfg_BOT_LOG_LEVEL := None;
     GROUPCHAT_NICK_PREFIXED := VBool false |}.

(** A server that accepts the login and the subscription, answers
    'createDirectMessage' with a room, and whose connection is found down
    at the fourth read of [connected]. *)
Definition steady_session : scenario :=
  {| sc_connect_error := None;
     sc_login := Some (VNone, VDict [("id", VStr "u1")]);
     sc_subscribe := Some VNone;
     sc_interrupt_subscribing := None;
     sc_drop_at_poll i := Nat.leb 3 i;
     sc_heartbeat_error _ := None;
     sc_server_closes := true;
     sc_interrupt_closed := None;
     sc_close_info := (VInt 1000, VStr "bye");
     sc_call_reply _ _ := [VNone; VDict [("rid", VStr "room1")]] |}.

(** A server that refuses the login. *)
Definition login_refused : scenario :=
  {| sc_connect_error := None;
     sc_login := Some (VDict [("error", VInt 403)], VNone);
     sc_subscribe := Some VNone;
     sc_interrupt_subscribing := None;
     sc_drop_at_poll _ := false;
     sc_heartbeat_error _ := None;
     sc_server_closes := true;
     sc_interrupt_closed := None;
     sc_close_info := (VInt 1000, VStr "bye");
     sc_call_reply _ _ := [] |}.

(** A server that cannot be reached: [connect] raises. *)
Definition connect_refused : scenario :=
  {| sc_connect_error := Some (OtherException "ConnectionRefusedError");
     sc_login := None;
     sc_subscribe := None;
     sc_interrupt_subscribing := None;
     sc_drop_at_poll _ := false;
     sc_heartbeat_error _ := None;
     sc_server_closes := false;
     sc_interrupt_closed := None;
     sc_close_info := (VNone, VNone);
     sc_call_reply _ _ := [] |}.

(** Records of the message stream: from another user, from the bot
    itself, and one with a body but no sender. *)
Definition record_from (name text : string) : pyval :=
  VDict [("msg", VStr text); ("rid", VStr "room1");
         ("u", VDict [("username", VStr name)])].

Definition record_without_sender : pyval :=
  VDict [("msg", VStr "hello"); ("rid", VStr "room1")].

(** A backend in a session, its client connected. *)
Definition example_session_world : world :=
  session_world (example_world false false)
    (live_client (VStr "ws://localhost:3000/websocket") 0 0) true false.

(** A store with one user, and a change to it. *)
Definition example_store : gmap string (gmap string (gmap string pyval)) :=
  {[ "users" := {[ "u1" := {[ "name" := VStr "alice"; "status" := VStr "online" ]} ]} ]}.

(** The message relayed for a record of alice's, in the example session. *)
Definition example_inbound : Message :=
  inbound_message (self example_session_world) (record_from "alice" "hello")
    (VStr "hello") (VStr "alice").

(** A card in answer to it, with a title, a link and one field. *)
Definition example_card : Card :=
  {| card_body := VStr "build finished";
     card_parent := Some example_inbound;
     card_color := VNone;
     card_title := VStr "Build 42";
     card_link := VStr "http://ci/42";
     card_summary := VStr "";
     card_image := VNone;
     card_thumbnail := VNone;
     card_fields := [(VStr "result", VStr "passed")] |}.

(** A session in which the third call of the heartbeat function raises. *)
Definition heartbeat_breaks : scenario :=
  {| sc_connect_error := None;
     sc_login := Some (VNone, VDict [("id", VStr "u1")]);
     sc_subscribe := Some VNone;
     sc_interrupt_subscribing := None;
     sc_drop_at_poll _ := false;
     sc_heartbeat_error i :=
       if Nat.eqb i 2 then Some (OtherException "RuntimeError") else None;
     sc_server_closes := true;
     sc_interrupt_closed := None;
     sc_close_info := (VInt 1000, VStr "bye");
     sc_call_reply _ _ := [] |}.

(** The user interrupts while the client connects. *)
Definition connect_interrupted : scenario :=
  {| sc_connect_error := Some KeyboardInterrupt;
     sc_login := None;
     sc_subscribe := None;
     sc_interrupt_subscribing := None;
     sc_drop_at_poll _ := false;
     sc_heartbeat_error _ := None;
     sc_server_closes := false;
     sc_interrupt_closed := None;
     sc_close_info := (VNone, VNone);
     sc_call_reply _ _ := [] |}.

(** A backend whose heartbeat is enabled with no function to call. *)
Definition world_without_heartbeat_func : world :=
  {| environ := ∅;
     self :=
       {| bot_config := example_config false true;
          _config_obj :=
            Some (list_to_map
                    [(CONFIG_KEYS.SERVER_URI, VStr "ws://localhost:3000/websocket");
                     (CONFIG_KEYS.LOGIN_USERNAME, VStr "bot");
                     (CONFIG_KEYS.LOGIN_PASSWORD, VStr "secret");
                     (CONFIG_KEYS.HEARTBEAT_ENABLED, VBool true)]);
          _logger := Some (VInt 10);
          _server_uri := VStr "ws://localhost:3000/websocket";
          _login_username := VStr "bot";
          _login_password := VBytes (list_byte_of_string "secret");
          bot_identifier := build_identifier (VStr "bot");
          _subscribing_done_event := false;
          _meteor_closed_event := false;
          _meteor_client := None |} |}.

(** * Properties *)


(** ** Strings *)

Lemma lower_ascii_zero c : lower_ascii c = "0"%char -> c = "0"%char.
Proof.
  destruct c as [[] [] [] [] [] [] [] []]; vm_compute; intros H;
    first [reflexivity | discriminate H].
Qed.

Lemma lower_ascii_f c : lower_ascii c = "f"%char -> c = "f"%char \/ c = "F"%char.
Proof.
  destruct c as [[] [] [] [] [] [] [] []]; vm_compute; intros H;
    first [discriminate H | left; reflexivity | right; reflexivity].
Qed.

Lemma lower_ascii_n c : lower_ascii c = "n"%char -> c = "n"%char \/ c = "N"%char.
Proof.
  destruct c as [[] [] [] [] [] [] [] []]; vm_compute; intros H;
    first [discriminate H | left; reflexivity | right; reflexivity].
Qed.

Lemma string_app_head c s t : String c s +:+ t = String c (s +:+ t).
Proof. reflexivity. Qed.

Lemma py_lower_empty s : py_lower s = "" -> s = "".
Proof. destruct s; [reflexivity | discriminate]. Qed.

(** A text whose first character is none of 0, f, F, n, N is no false word,
    and a text that starts with 0 is one only when it is "0". *)
Lemma head_not_false_word c rest :
  c <> "f"%char -> c <> "F"%char -> c <> "n"%char -> c <> "N"%char ->
  String c rest <> "0" ->
  py_lower (String c rest) ∉ false_words.
Proof.
  intros Hf HF Hn HN H0 Hin. unfold false_words in Hin. cbn [py_lower] in Hin.
  rewrite !elem_of_cons in Hin.
  destruct Hin as [H | [H | [H | H]]].
  - injection H as Hc Hr. apply lower_ascii_zero in Hc. apply py_lower_empty in Hr.
    subst. by apply H0.
  - injection H as Hc _. destruct (lower_ascii_f _ Hc); congruence.
  - injection H as Hc _. destruct (lower_ascii_n _ Hc); congruence.
  - by apply elem_of_nil in H.
Qed.

Lemma pretty_N_char_digit d :
  pretty_N_char d ∈ ["0"; "1"; "2"; "3"; "4"; "5"; "6"; "7"; "8"; "9"]%char.
Proof.
  destruct d as [|p]; [apply list_elem_of_here|].
  do 4 (try destruct p as [p|p|]); cbn;
    repeat first [apply list_elem_of_here | apply list_elem_of_further].
Qed.

Lemma pretty_N_go_head x : forall s, (0 < x)%N ->
  exists d rest, pretty_N_go x s = String (pretty_N_char d) rest.
Proof.
  induction (N.lt_wf_0 x) as [x _ IH]; intros s Hx.
  rewrite pretty_N_go_step by done.
  destruct (decide (x `div` 10 = 0)%N) as [->|Hne].
  - rewrite pretty_N_go_0. eauto.
  - apply IH; [apply N.div_lt; lia | by apply N.neq_0_lt_0].
Qed.

(** The decimal form of a non-zero integer starts with a digit or a minus
    sign and is not "0". *)
Lemma pretty_Z_head z : z <> 0%Z ->
  exists c rest, pretty z = String c rest /\
    c ∈ ["-"; "0"; "1"; "2"; "3"; "4"; "5"; "6"; "7"; "8"; "9"]%char /\
    pretty z <> "0".
Proof.
  intros Hz. destruct z as [|p|p]; [done| |].
  - destruct (pretty_N_go_head (Npos p) "") as (d & rest & E); [lia|].
    exists (pretty_N_char d), rest. split; [exact E|]. split.
    + constructor. apply pretty_N_char_digit.
    + intros H.
      pose proof (pretty_Z_inj _ _ (H : pretty (Z.pos p) = pretty 0%Z)). done.
  - exists "-"%char, (pretty (N.pos p)). split; [reflexivity|].
    split; [apply list_elem_of_here|].
    intros H. pose proof (pretty_Z_inj _ _ (H : pretty (Z.neg p) = pretty 0%Z)). done.
Qed.

(** Only a [str] can read as a false word: the [str()] of any other truthy
    value does not. *)
Lemma str_of_other_value_not_false_word v :
  py_truthy v = true -> (forall s, v <> VStr s) ->
  py_lower (py_str v) ∉ false_words.
Proof.
  intros Ht Hs. destruct v as [|[]|z|s|b|l|d|name]; try discriminate Ht.
  - by apply (head_not_false_word "T" "rue").
  - cbn [py_str py_repr]. cbn in Ht. apply negb_true_iff, Z.eqb_neq in Ht.
    destruct (pretty_Z_head z Ht) as (c & rest & E & Hc & Hne). rewrite E.
    rewrite E in Hne.
    rewrite !elem_of_cons in Hc.
    apply head_not_false_word; try done;
      intros ->; repeat (destruct Hc as [Hc | Hc]; [discriminate Hc|]);
      by apply elem_of_nil in Hc.
  - by destruct (Hs s).
  - cbn [py_str py_repr]. unfold repr_bytes. by apply head_not_false_word.
  - cbn [py_str py_repr]. rewrite string_app_head. by apply head_not_false_word.
  - cbn [py_str py_repr]. rewrite string_app_head. by apply head_not_false_word.
  - cbn [py_str py_repr]. rewrite string_app_head. by apply head_not_false_word.
Qed.

(** ** C3: the boolean config parser *)

Lemma get_config_env environ config_obj key default s :
  environ !! (_ENV_VAR_NAME_PREFIX +:+ key) = Some s ->
  _get_config environ config_obj key default = VStr s.
Proof. intros H. unfold _get_config. by rewrite H. Qed.

Lemma get_config_absent environ config_obj key default :
  environ !! (_ENV_VAR_NAME_PREFIX +:+ key) = None ->
  (config_obj = None \/ exists obj, config_obj = Some obj /\ obj !! key = None) ->
  _get_config environ config_obj key default = default.
Proof.
  intros H [-> | (obj & -> & Hk)]; unfold _get_config; rewrite H; [done|].
  by rewrite Hk.
Qed.

Lemma get_bool_config_of_value environ config_obj key default :
  _get_bool_config environ config_obj key default =
  let v := _get_config environ config_obj key default in
  py_truthy v && negb (bool_decide (py_lower (py_str v) ∈ false_words)).
Proof. unfold _get_bool_config. cbn zeta. by destruct (py_truthy _). Qed.

(** C3.  [_get_bool_config] on the value [v] that [_get_config] finds: a
    string that lowers to '0', 'false' or 'no' gives False; any other
    truthy value gives True; None, 0 and the empty string give False; a
    key that is absent from the environment and from the config object
    gives the parse of the default, so False without a default and True
    with [default=True].  In particular 'no', '0' and 'FALSE' give False
    and 'yes' gives True. *)
Theorem get_bool_config_rule environ config_obj key default :
  let v := _get_config environ config_obj key default in
  let parsed := _get_bool_config environ config_obj key default in
  (forall s, v = VStr s -> py_lower s ∈ false_words -> parsed = false) /\
  (py_truthy v = true ->
   (forall s, v = VStr s -> py_lower s ∉ false_words) -> parsed = true) /\
  (v = VNone \/ v = VInt 0 \/ v = VStr "" -> parsed = false) /\
  (environ !! (_ENV_VAR_NAME_PREFIX +:+ key) = None ->
   (config_obj = None \/ exists obj, config_obj = Some obj /\ obj !! key = None) ->
   v = default /\
   (default = VNone -> parsed = false) /\
   (default = VBool true -> parsed = true)) /\
  (forall s, environ !! (_ENV_VAR_NAME_PREFIX +:+ key) = Some s ->
   v = VStr s /\
   (s = "no" -> parsed = false) /\
   (s = "0" -> parsed = false) /\
   (s = "FALSE" -> parsed = false) /\
   (s = "yes" -> parsed = true)).
Proof.
  intros v parsed. subst parsed. rewrite get_bool_config_of_value. fold v. cbn zeta.
  repeat split.
  - intros s -> Hin. cbn [py_str]. rewrite (bool_decide_eq_true_2 _ Hin).
    apply andb_false_r.
  - intros Ht Hs. rewrite Ht. cbn. apply negb_true_iff, bool_decide_eq_false_2.
    destruct (isinstance_str v) eqn:Hv.
    + destruct v; try discriminate Hv. cbn [py_str]. by eapply Hs.
    + apply str_of_other_value_not_false_word; [done|].
      intros s E. by rewrite E in Hv.
  - by intros [-> | [-> | ->]].
  - by apply get_config_absent.
  - intros ->. subst v. by rewrite get_config_absent.
  - intros ->. subst v. by rewrite get_config_absent.
  - subst v. by apply get_config_env.
  - intros ->. subst v. by rewrite (get_config_env _ _ _ _ _ H).
  - intros ->. subst v. by rewrite (get_config_env _ _ _ _ _ H).
  - intros ->. subst v. by rewrite (get_config_env _ _ _ _ _ H).
  - intros ->. subst v. by rewrite (get_config_env _ _ _ _ _ H).
Qed.

(** ** C9: user identifiers *)

(** C9.  A [RocketChatUser] built from a user name with the nickname and
    the full name absent (None or empty) has both equal to the user name,
    and its string form is the user name; [build_identifier] builds such a
    user. *)
Theorem user_defaults_to_person person client nick fullname :
  absent nick -> absent fullname ->
  let u := RocketChatUser.__init__ person client nick fullname in
  RocketChatUser.nick u = person /\
  RocketChatUser.fullname u = person /\
  RocketChatUser.__str__ u = person /\
  RocketChatUser.person u = person /\
  build_identifier person = RocketChatUser.__init__ person VNone VNone VNone.
Proof.
  intros [-> | ->] [-> | ->]; cbn; repeat split; reflexivity.
Qed.

Lemma user_defaults_to_person_witness :
  RocketChatUser.nick (build_identifier (VStr "alice")) = VStr "alice" /\
  RocketChatUser.fullname (RocketChatUser.__init__ (VStr "alice") VNone VNone (VStr ""))
  = VStr "alice".
Proof.
  split.
  - apply (user_defaults_to_person (VStr "alice") VNone VNone VNone);
      by left.
  - apply (user_defaults_to_person (VStr "alice") VNone VNone (VStr ""));
      [by left | by right].
Defined.

Section Properties.
Context {platform : Platform}.

(** ** C8: the constructor *)

Lemma missing_config_is_ValueError level key :
  missing_config (Some level) key = ValueError ("Missing config `" +:+ key +:+ "`.").
Proof. reflexivity. Qed.

(** C8.  When the server URI, the login username or the login password
    resolves to None, [__init__] raises an error and no backend — hence no
    meteor client — comes to exist; when it succeeds, the backend holds no
    meteor client yet and its login password is a byte sequence: the bytes
    given, or the UTF-8 bytes of the string given. *)
Theorem init_requires_settings environ config :
  let config_obj := ROCKETCHAT_CONFIG config in
  (forall key, key ∈ required_settings ->
     _get_config environ config_obj key VNone = VNone ->
     exists e, __init__ environ config = inl e /\ is_Exception e = true) /\
  (forall b, __init__ environ config = inr b ->
     _meteor_client b = None /\
     exists bytes, _login_password b = VBytes bytes /\
       (forall s, _get_config environ config_obj CONFIG_KEYS.LOGIN_PASSWORD VNone = VStr s ->
          bytes = list_byte_of_string s) /\
       (forall x, _get_config environ config_obj CONFIG_KEYS.LOGIN_PASSWORD VNone = VBytes x ->
          bytes = x)).
Proof.
  intros config_obj. split.
  - intros key Hkey Hnone. unfold required_settings in Hkey.
    rewrite !elem_of_cons in Hkey. unfold __init__. fold config_obj.
    destruct (negb (isinstance_int _)); [by eexists|].
    destruct Hkey as [-> | [-> | [-> | Hkey]]]; [| | | by apply elem_of_nil in Hkey].
    + rewrite Hnone. cbn [is_none]. by eexists.
    + destruct (is_none (_get_config _ _ CONFIG_KEYS.SERVER_URI _)); [by eexists|].
      rewrite Hnone. cbn [is_none]. by eexists.
    + destruct (is_none (_get_config _ _ CONFIG_KEYS.SERVER_URI _)); [by eexists|].
      destruct (is_none (_get_config _ _ CONFIG_KEYS.LOGIN_USERNAME _)); [by eexists|].
      rewrite Hnone. cbn [is_none]. by eexists.
  - intros b. unfold __init__. fold config_obj.
    destruct (negb (isinstance_int _)); [discriminate|].
    destruct (is_none (_get_config _ _ CONFIG_KEYS.SERVER_URI _)); [discriminate|].
    destruct (is_none (_get_config _ _ CONFIG_KEYS.LOGIN_USERNAME _)); [discriminate|].
    destruct (_get_config _ _ CONFIG_KEYS.LOGIN_PASSWORD _) as [| | |s|x| | |];
      cbn [is_none]; try discriminate;
      intros [= <-]; cbn; (split; [reflexivity|]); eexists;
      (split; [reflexivity|]); split; congruence.
Qed.

(** ** C10: [send] refuses what is no Identifier *)

(** C10.  [send] with an [identifier] that is no [Identifier] instance
    raises a [ValueError]; nothing has been called and the backend is as
    it was. *)
Theorem send_rejects_non_identifier sc v text in_reply_to groupchat_nick_reply w :
  let r := send sc (ObjValue v) text in_reply_to groupchat_nick_reply w in
  (exists msg, out r = Raise (ValueError msg)) /\ final r = w /\ log r = [].
Proof. cbn. eauto. Qed.

End Properties.

(** ** Reasoning about logs and invariants *)

Section Respects.
Context {platform : Platform}.
Variable p : action -> bool.
Variable I : RocketChat -> Prop.

Lemma respects_ret {A} (a : A) : respects p I (ret a).
Proof. intros w HI. by split. Qed.

Lemma respects_raise {A} e : respects p I (@raise _ A e).
Proof. intros w HI. by split. Qed.

Lemma respects_blocked {A} : respects p I (@blocked _ A).
Proof. intros w HI. by split. Qed.

Lemma respects_out_of_fuel {A} : respects p I (@out_of_fuel _ A).
Proof. intros w HI. by split. Qed.

Lemma respects_get_self : respects p I get_self.
Proof. intros w HI. by split. Qed.

Lemma respects_get_world : respects p I get_world.
Proof. intros w HI. by split. Qed.

Lemma respects_tell a : p a = true -> respects p I (tell a).
Proof. intros Ha w HI. split; [done|]. cbn. by rewrite Ha. Qed.

Lemma respects_modify_self f :
  (forall b, I b -> I (f b)) -> respects p I (modify_self f).
Proof. intros Hf w HI. split; [by apply Hf | done]. Qed.

Lemma respects_bind {A B} (m : M A) (f : A -> M B) :
  respects p I m -> (forall a, respects p I (f a)) -> respects p I (bind m f).
Proof.
  intros Hm Hf w HI. destruct (Hm w HI) as [HI1 Hl1]. unfold bind.
  destruct (out (m w)) as [a| | |]; cbn; try done.
  destruct (Hf a (final (m w)) HI1) as [HI2 Hl2].
  split; [done|]. rewrite forallb_app. by rewrite Hl1, Hl2.
Qed.

Lemma respects_try_except {A} catches (m : M A) h :
  respects p I m -> (forall e, respects p I (h e)) ->
  respects p I (try_except catches m h).
Proof.
  intros Hm Hh w HI. destruct (Hm w HI) as [HI1 Hl1]. unfold try_except.
  destruct (out (m w)) as [a|e| |]; cbn; try done.
  destruct (catches e); [|done].
  destruct (Hh e (final (m w)) HI1) as [HI2 Hl2]. cbn.
  split; [done|]. rewrite forallb_app. by rewrite Hl1, Hl2.
Qed.

Lemma respects_try_finally {A} (m : M A) f :
  respects p I m -> respects p I f -> respects p I (try_finally m f).
Proof.
  intros Hm Hf w HI. destruct (Hm w HI) as [HI1 Hl1]. unfold try_finally.
  destruct (Hf (final (m w)) HI1) as [HI2 Hl2].
  destruct (out (m w)) as [a|e| |]; cbn; try done;
    (split; [done|]); rewrite forallb_app; by rewrite Hl1, Hl2.
Qed.

Lemma respects_weaken {A} (q : action -> bool) (m : M A) :
  (forall a, q a = true -> p a = true) -> respects q I m -> respects p I m.
Proof.
  intros Hqp Hm w HI. destruct (Hm w HI) as [HI1 Hl1]. split; [done|].
  rewrite forallb_forall in *. auto.
Qed.

Lemma respects_lift_exn {A} (r : exn + A) : respects p I (lift_exn r).
Proof. destruct r; [apply respects_raise | apply respects_ret]. Qed.

Lemma respects_for_each {A} (l : list A) (f : A -> M unit) :
  (forall x, respects p I (f x)) -> respects p I (for_each l f).
Proof.
  intros Hf. induction l as [|x l IH]; cbn [for_each].
  - apply respects_ret.
  - apply respects_bind; [apply Hf | intros _; apply IH].
Qed.

End Respects.

Create HintDb backend.

(** One step of a proof that a computation respects a test and an
    invariant: split the computation at its head. *)
Ltac respects_step :=
  first
    [ apply respects_ret
    | apply respects_raise
    | apply respects_blocked
    | apply respects_out_of_fuel
    | apply respects_get_self
    | apply respects_get_world
    | apply respects_lift_exn
    | apply respects_tell; reflexivity
    | apply respects_bind; [|intros ?]
    | apply respects_try_except; [|intros ?]
    | apply respects_for_each; intros ?
    | match goal with
      | |- respects _ _ (match ?x with _ => _ end) => destruct x
      end ].

#[export] Hint Unfold _log_debug _log_error event_set event_clear event_is_set
  the_client modify_client enqueue transport_down remote_close
  mc_on mc_login mc_subscribe mc_call mc_close get_config get_bool_config
  connect_callback callback_presence callback_message reset_reconnection_count
  _meteor_connected_callback _meteor_login_callback _meteor_subscribe_callback
  handle_msg_info _meteor_changed_callback _meteor_added_callback
  _meteor_removed_callback _meteor_failed_callback _meteor_reconnected_callback
  _meteor_closed_callback prefix_groupchat_reply send_rocketchat_message
  send_message split_and_send_message create_reply_msg send query_user_callback
  in_transport_thread : backend.

Section Session_facts.
Context {platform : Platform}.
Variable sc : scenario.
Variable I : RocketChat -> Prop.
Hypothesis I_stable : stable I.

Ltac respects_modify :=
  apply respects_modify_self; intros ? ?;
  first [ by apply (proj1 I_stable) | by apply (proj2 I_stable) ].

Ltac respects_auto :=
  repeat first [ respects_step | respects_modify | progress autounfold with backend ].

Lemma run_callback_respects cb args :
  respects transport_action I (run_callback sc cb args).
Proof. unfold run_callback. respects_auto. Qed.

Lemma deliver_respects ev : respects transport_action I (deliver sc ev).
Proof.
  destruct ev as [name args | cb args]; cbn [deliver];
    [|apply run_callback_respects].
  repeat first [ apply run_callback_respects | respects_step | respects_modify
               | progress autounfold with backend ].
Qed.

Lemma run_transport_respects fuel : respects transport_action I (run_transport sc fuel).
Proof.
  induction fuel as [|fuel IH]; cbn [run_transport];
    repeat first [ apply deliver_respects | apply IH | respects_step | respects_modify
                 | progress autounfold with backend ].
Qed.

Lemma transport_is_session a : transport_action a = true -> session_action a = true.
Proof. intros H. unfold session_action. by rewrite H. Qed.

Lemma run_transport_session fuel : respects session_action I (run_transport sc fuel).
Proof.
  eapply respects_weaken; [apply transport_is_session | apply run_transport_respects].
Qed.

Ltac session_auto :=
  repeat first [ apply run_transport_session | respects_step | respects_modify
               | progress autounfold with backend ].

Lemma event_wait_respects fuel e interrupt remote_closes :
  respects session_action I (event_wait sc fuel e interrupt remote_closes).
Proof. unfold event_wait. session_auto. Qed.

Lemma read_connected_respects fuel : respects session_action I (read_connected sc fuel).
Proof. unfold read_connected. session_auto. Qed.

Lemma call_heartbeat_respects f : respects session_action I (call_heartbeat sc f).
Proof. unfold call_heartbeat. session_auto. Qed.

Lemma time_sleep_respects t : respects session_action I (time_sleep t).
Proof. unfold time_sleep. session_auto. Qed.

Lemma heartbeat_loop_respects n fuel f t :
  respects session_action I (heartbeat_loop sc n fuel f t).
Proof.
  induction n as [|n IH]; cbn [heartbeat_loop]; [apply respects_out_of_fuel|].
  apply respects_bind; [apply read_connected_respects|]. intros [].
  - apply respects_bind; [apply call_heartbeat_respects|]. intros _.
    apply respects_bind; [apply time_sleep_respects|]. intros _. apply IH.
  - apply respects_ret.
Qed.

Lemma serve_once_wait_respects fuel hb :
  respects session_action I (serve_once_wait sc fuel hb).
Proof.
  unfold serve_once_wait.
  repeat first [ apply event_wait_respects | apply heartbeat_loop_respects
               | respects_step | progress autounfold with backend ].
Qed.

Lemma serve_once_on_error_respects fuel e :
  respects session_action I (serve_once_on_error sc fuel e).
Proof.
  unfold serve_once_on_error.
  repeat first [ apply event_wait_respects | respects_step | respects_modify
               | progress autounfold with backend ].
Qed.

(** The second [try] of [serve_once], without its [finally]. *)
Lemma serve_once_session_respects fuel hb :
  respects session_action I
    (try_except is_Exception (serve_once_wait sc fuel hb) (serve_once_on_error sc fuel)).
Proof.
  apply respects_try_except;
    [apply serve_once_wait_respects | apply serve_once_on_error_respects].
Qed.

End Session_facts.

(** ** Runs of the control loop *)

Section Runs.
Context {platform : Platform}.

Lemma bind_run {A B} (m : M A) (f : A -> M B) w a w' l :
  m w = mkRun (Return a) w' l ->
  bind m f w = mkRun (out (f a w')) (final (f a w')) (l ++ log (f a w')).
Proof. intros H. unfold bind. by rewrite H. Qed.

Lemma count_app {A} (p : A -> bool) l1 l2 :
  count p (l1 ++ l2) = count p l1 + count p l2.
Proof. unfold count. by rewrite List.filter_app, length_app. Qed.

Lemma count_none {A} (p q : A -> bool) l :
  forallb q l = true -> (forall a, q a = true -> p a = false) -> count p l = 0.
Proof.
  intros Hq Hpq. unfold count. induction l as [|a l IH]; [done|].
  cbn in Hq. apply andb_true_iff in Hq as [Ha Hl]. cbn.
  rewrite (Hpq a Ha). by apply IH.
Qed.

Lemma stable_True : stable (fun _ => True).
Proof. by split. Qed.

Lemma stable_has_client : stable has_client.
Proof.
  split.
  - intros e v b [c Hc]. exists c. by destruct e.
  - intros c b _. by exists c.
Qed.

Lemma serve_once_begin_run w :
  serve_once_begin w =
  mkRun (Return tt) (session_world w (fresh_client (_server_uri (self w))) false false)
        (begin_log (_server_uri (self w))).
Proof. reflexivity. Qed.

Lemma connect_step sc w :
  sc_connect_error sc = None ->
  try_except is_Exception (mc_connect sc) serve_once_connect_failed
    (session_world w (fresh_client (_server_uri (self w))) false false)
  = mkRun (Return tt) (connected_world w) [AConnect].
Proof. intros H. unfold try_except, mc_connect. rewrite H. reflexivity. Qed.

Lemma serve_once_connected sc fuel w :
  sc_connect_error sc = None ->
  serve_once sc fuel w =
  let r := serve_once_session sc fuel (connected_world w) in
  mkRun (out r) (final r) (begin_log (_server_uri (self w)) ++ AConnect :: log r).
Proof.
  intros H. unfold serve_once.
  rewrite (bind_run _ _ _ _ _ _ (serve_once_begin_run w)).
  rewrite (bind_run _ _ _ _ _ _ (connect_step sc w H)).
  reflexivity.
Qed.

Lemma serve_once_finally_run w :
  has_client (self w) ->
  let r := serve_once_finally w in
  out r = Return tt /\
  count is_unhook (log r) = 1 /\ count is_release (log r) = 1 /\
  count is_offline (log r) = 1 /\ count is_disconnect (log r) = 1 /\
  count is_create_client (log r) = 0.
Proof.
  intros [c Hc]. destruct w as [env b]. destruct b. cbn in Hc. subst.
  cbn. repeat split; reflexivity.
Qed.

Lemma session_not_cleanup a :
  session_action a = true ->
  is_unhook a = false /\ is_release a = false /\ is_offline a = false /\
  is_disconnect a = false /\ is_create_client a = false.
Proof. destruct a as [| | | | | | | | | | | | | | | | ? []| | | | | | | | |]; cbn; try done. Qed.

Lemma get_bool_config_run key d w :
  get_bool_config key d w =
  mkRun (Return (_get_bool_config (environ w) (_config_obj (self w)) key d)) w [].
Proof. reflexivity. Qed.

Lemma bind_unfold {A B} (m : M A) (f : A -> M B) w :
  bind m f w =
  match out (m w) with
  | Return a =>
      mkRun (out (f a (final (m w)))) (final (f a (final (m w))))
            (log (m w) ++ log (f a (final (m w))))
  | o => mkRun (cast_outcome o Blocked) (final (m w)) (log (m w))
  end.
Proof. reflexivity. Qed.

Lemma try_finally_unfold {A} (m : M A) f w :
  try_finally m f w =
  match out (m w) with
  | Return _ | Raise _ =>
      mkRun (cast_outcome (out (f (final (m w)))) (out (m w)))
            (final (f (final (m w)))) (log (m w) ++ log (f (final (m w))))
  | _ => m w
  end.
Proof. reflexivity. Qed.

Lemma serve_once_session_cleanup sc fuel w :
  has_client (self w) ->
  let r := serve_once_session sc fuel w in
  (out r = Return tt \/ exists e, out r = Raise e) ->
  count is_unhook (log r) = 1 /\ count is_release (log r) = 1 /\
  count is_offline (log r) = 1 /\ count is_disconnect (log r) = 1.
Proof.
  intros Hc. cbn zeta. unfold serve_once_session.
  rewrite (bind_run _ _ _ _ _ _ (get_bool_config_run _ _ w)).
  cbn [out log final app].
  generalize (_get_bool_config (environ w) (_config_obj (self w))
                CONFIG_KEYS.HEARTBEAT_ENABLED VNone). intros hb.
  destruct (serve_once_session_respects sc has_client stable_has_client fuel hb w Hc)
    as [Hc' Hlog].
  rewrite bind_unfold, try_finally_unfold.
  generalize dependent (try_except is_Exception (serve_once_wait sc fuel hb)
            (serve_once_on_error sc fuel) w). intros rb Hc' Hlog.
  pose proof (serve_once_finally_run (final rb) Hc') as (Ho & H1 & H2 & H3 & H4 & _).
  cbn zeta in Ho, H1, H2, H3, H4.
  assert (Hz : forall p, (forall a, session_action a = true -> p a = false) ->
                         count p (log rb) = 0).
  { intros p Hp. by eapply count_none. }
  destruct rb as [o wf l]. cbn [out final log] in *.
  destruct o as [[]|e| |]; cbn [out final log cast_outcome];
    rewrite ?Ho; cbn [out final log cast_outcome].
  - intros _. rewrite !count_app, H1, H2, H3, H4.
    rewrite !Hz by (intros a Ha; by destruct (session_not_cleanup a Ha) as (?&?&?&?&?)).
    cbn. done.
  - intros _. rewrite !count_app, H1, H2, H3, H4.
    rewrite !Hz by (intros a Ha; by destruct (session_not_cleanup a Ha) as (?&?&?&?&?)).
    done.
  - intros [H | [e H]]; discriminate H.
  - intros [H | [e H]]; discriminate H.
Qed.

Lemma connect_failed_step sc w e :
  sc_connect_error sc = Some e -> is_Exception e = true ->
  try_except is_Exception (mc_connect sc) serve_once_connect_failed
    (session_world w (fresh_client (_server_uri (self w))) false false)
  = mkRun (Raise e)
      {| environ := environ w;
         self := set_meteor_client None (self (session_world w
                   (fresh_client (_server_uri (self w))) false false)) |}
      [AConnect; ALogDebug "# ----- Connecting failed -----";
       ALogDebug "# ----- Unhook meteor client callbacks -----";
       ARemoveAllListeners; AReleaseClient;
       AEventClear SubscribingDone; AEventClear MeteorClosed].
Proof.
  intros H He. unfold try_except, mc_connect. rewrite H. cbn. rewrite He. reflexivity.
Qed.

Lemma connect_interrupted_step sc w e :
  sc_connect_error sc = Some e -> is_Exception e = false ->
  try_except is_Exception (mc_connect sc) serve_once_connect_failed
    (session_world w (fresh_client (_server_uri (self w))) false false)
  = mkRun (Raise e)
      (session_world w (fresh_client (_server_uri (self w))) false false)
      [AConnect].
Proof.
  intros H He. unfold try_except, mc_connect. rewrite H. cbn. rewrite He. reflexivity.
Qed.

(** C1.  A run of [serve_once] that got its connection started and then
    returns or raises, whatever stage failed after that (login,
    subscription, a wait, the heartbeat), has unhooked the callbacks,
    released the client, notified the bot offline and called the
    disconnect callback, each exactly once.  A run whose [connect] itself
    fails re-raises after unhooking the callbacks and releasing the client
    once, and sends neither notification. *)
Theorem cleanup_on_every_exit sc fuel w :
  let r := serve_once sc fuel w in
  (sc_connect_error sc = None ->
   (out r = Return tt \/ exists e, out r = Raise e) ->
   count is_unhook (log r) = 1 /\ count is_release (log r) = 1 /\
   count is_offline (log r) = 1 /\ count is_disconnect (log r) = 1) /\
  (forall e, sc_connect_error sc = Some e -> is_Exception e = true ->
   out r = Raise e /\
   count is_unhook (log r) = 1 /\ count is_release (log r) = 1 /\
   count is_offline (log r) = 0 /\ count is_disconnect (log r) = 0).
Proof.
  split.
  - intros H. rewrite (serve_once_connected sc fuel w H). cbn [out final log].
    intros Hout.
    assert (Hc : has_client (self (connected_world w))) by (by eexists).
    destruct (serve_once_session_cleanup sc fuel (connected_world w) Hc Hout)
      as (H1 & H2 & H3 & H4).
    rewrite !count_app. change (AConnect :: ?l) with ([AConnect] ++ l).
    rewrite !count_app, H1, H2, H3, H4. done.
  - intros e H He. unfold serve_once.
    rewrite (bind_run _ _ _ _ _ _ (serve_once_begin_run w)).
    rewrite bind_unfold, (connect_failed_step sc w e H He). done.
Qed.

Lemma session_is_attempt a : session_action a = true -> attempt_action a = true.
Proof. destruct a as [| | | | | | | | | | | | | | | | ? []| | | | | | | | |]; cbn; try done. Qed.

Lemma serve_once_rest_respects sc fuel :
  respects attempt_action (fun _ => True)
    (try_except is_Exception (mc_connect sc) serve_once_connect_failed;;
     serve_once_session sc fuel).
Proof.
  unfold serve_once_session, serve_once_connect_failed, serve_once_finally,
    mc_connect, mc_remove_all_listeners, disconnect_callback.
  repeat first
    [ eapply respects_weaken;
        [apply session_is_attempt
        |apply (serve_once_session_respects sc _ stable_True)]
    | apply respects_try_finally
    | respects_step
    | apply respects_modify_self; done
    | progress autounfold with backend ].
Qed.

Lemma serve_once_attempt sc fuel w :
  count is_create_client (log (serve_once sc fuel w)) = 1 /\
  count is_shutdown (log (serve_once sc fuel w)) = 0 /\
  count is_log_error (log (serve_once sc fuel w)) = 0.
Proof.
  unfold serve_once.
  rewrite (bind_run _ _ _ _ _ _ (serve_once_begin_run w)). cbn [log].
  destruct (serve_once_rest_respects sc fuel
              (session_world w (fresh_client (_server_uri (self w))) false false) I)
    as [_ Hl].
  rewrite !count_app.
  rewrite !(count_none _ attempt_action _ Hl);
    [done | | |]; intros a Ha; unfold attempt_action in Ha;
    apply negb_true_iff, orb_false_iff in Ha as [Ha ?];
    apply orb_false_iff in Ha as [? ?]; done.
Qed.

Lemma patch_run w : _patch_meteor_client w = mkRun (Return tt) w (patch_log w).
Proof.
  unfold _patch_meteor_client, patch_log.
  rewrite (bind_run _ _ _ _ _ _ (get_bool_config_run _ _ w)).
  by destruct (_get_bool_config _ _ _ _).
Qed.

Lemma try_except_unfold {A} catches (m : M A) h w :
  try_except catches m h w =
  match out (m w) with
  | Raise e =>
      if catches e
      then mkRun (out (h e (final (m w)))) (final (h e (final (m w))))
                 (log (m w) ++ log (h e (final (m w))))
      else m w
  | _ => m w
  end.
Proof. reflexivity. Qed.

Lemma log_debug_run msg w : _log_debug msg w = mkRun (Return tt) w [ALogDebug msg].
Proof. reflexivity. Qed.

Lemma bind_stop {A B} (m : M A) (f : A -> M B) w o w' l :
  m w = mkRun o w' l -> (forall a, o <> Return a) ->
  bind m f w = mkRun (cast_outcome o Blocked) w' l.
Proof. intros H Ho. unfold bind. rewrite H. destruct o; [by destruct (Ho a)|done..]. Qed.

Lemma try_except_pass {A} catches (m : M A) h w o w' l :
  m w = mkRun o w' l ->
  (forall e, o = Raise e -> catches e = false) ->
  try_except catches m h w = mkRun o w' l.
Proof.
  intros H Ho. unfold try_except. rewrite H. cbn.
  destruct o as [a|e| |]; try done. by rewrite (Ho e eq_refl).
Qed.

Lemma try_except_caught {A} catches (m : M A) h w e w' l :
  m w = mkRun (Raise e) w' l -> catches e = true ->
  try_except catches m h w =
  mkRun (out (h e w')) (final (h e w')) (l ++ log (h e w')).
Proof. intros H He. unfold try_except. rewrite H. cbn. by rewrite He. Qed.

Lemma try_finally_exit {A} (m : M A) f w o w' l :
  m w = mkRun o w' l -> o <> Blocked -> o <> OutOfFuel ->
  try_finally m f w =
  mkRun (cast_outcome (out (f w')) o) (final (f w')) (l ++ log (f w')).
Proof. intros H Hb Hf. unfold try_finally. rewrite H. by destruct o. Qed.

Lemma try_finally_stuck {A} (m : M A) f w o w' l :
  m w = mkRun o w' l -> o = Blocked \/ o = OutOfFuel ->
  try_finally m f w = mkRun o w' l.
Proof. intros H [-> | ->]; unfold try_finally; by rewrite H. Qed.

Lemma serve_loop_once scs fuel attempts n :
  serve_loop scs false fuel (S attempts) n =
  (try_except is_Exception (serve_once (scs n) fuel)
     (fun _ => _log_error "# ----- `serve_once` failed with error -----");;
   ret tt).
Proof. reflexivity. Qed.

Lemma serve_forever_single scs fuel attempts w :
  _get_bool_config (environ w) (_config_obj (self w))
     CONFIG_KEYS.RECONNECT_ENABLED (VBool true) = false ->
  let r := serve_forever scs fuel (S attempts) w in
  let r1 := serve_once (scs 0) fuel w in
  out r = fst (serve_forever_tail (out r1)) /\
  log r = (ALogDebug "# ----- serve_forever -----" :: patch_log w)
          ++ log r1 ++ snd (serve_forever_tail (out r1)).
Proof.
  intros H. cbn zeta. unfold serve_forever.
  rewrite (bind_run _ _ _ _ _ _ (log_debug_run _ w)).
  rewrite (bind_run _ _ _ _ _ _ (patch_run w)).
  rewrite (bind_run _ _ _ _ _ _ (get_bool_config_run _ _ w)).
  rewrite H, serve_loop_once.
  generalize (serve_once (scs 0) fuel). intros m1.
  destruct (m1 w) as [o wf l] eqn:E. cbn [out final log].
  destruct o as [[]|e| |].
  - pose proof (try_except_pass is_Exception m1
      (fun _ => _log_error "# ----- `serve_once` failed with error -----")
      _ _ _ _ E ltac:(done)) as E1.
    pose proof (bind_run _ (fun _ => ret tt) _ _ _ _ E1) as E2. cbn [ret out final log] in E2.
    pose proof (try_except_pass is_KeyboardInterrupt _ (fun _ => ret tt)
      _ _ _ _ E2 ltac:(done)) as E3.
    pose proof (try_finally_exit _ shutdown _ _ _ _ E3 ltac:(done) ltac:(done)) as E4.
    cbn [shutdown tell out final log cast_outcome] in E4.
    rewrite (bind_run _ _ _ _ _ _ E4). cbn.
    split; [done|]. by rewrite <- ?app_assoc.
  - destruct (is_Exception e) eqn:He.
    + pose proof (try_except_caught is_Exception m1
        (fun _ => _log_error "# ----- `serve_once` failed with error -----")
        _ _ _ _ E He) as E1. cbn [_log_error tell out final log] in E1.
      pose proof (bind_run _ (fun _ => ret tt) _ _ _ _ E1) as E2.
      cbn [ret out final log] in E2.
      pose proof (try_except_pass is_KeyboardInterrupt _ (fun _ => ret tt)
        _ _ _ _ E2 ltac:(done)) as E3.
      pose proof (try_finally_exit _ shutdown _ _ _ _ E3 ltac:(done) ltac:(done)) as E4.
      cbn [shutdown tell out final log cast_outcome] in E4.
      rewrite (bind_run _ _ _ _ _ _ E4). cbn. rewrite He. cbn.
      split; [done|]. by rewrite <- ?app_assoc.
    + pose proof (try_except_pass is_Exception m1
        (fun _ => _log_error "# ----- `serve_once` failed with error -----")
        _ _ _ _ E ltac:(by intros ? [= <-])) as E1.
      pose proof (bind_stop _ (fun _ => ret tt) _ _ _ _ E1 ltac:(done)) as E2.
      cbn [cast_outcome] in E2.
      destruct (is_KeyboardInterrupt e) eqn:Hk.
      * pose proof (try_except_caught is_KeyboardInterrupt _ (fun _ => ret tt)
          _ _ _ _ E2 Hk) as E3. cbn [ret out final log] in E3.
        pose proof (try_finally_exit _ shutdown _ _ _ _ E3 ltac:(done) ltac:(done)) as E4.
        cbn [shutdown tell out final log cast_outcome] in E4.
        rewrite (bind_run _ _ _ _ _ _ E4). cbn. rewrite He, Hk. cbn.
        split; [done|]. by rewrite <- ?app_assoc.
      * pose proof (try_except_pass is_KeyboardInterrupt _ (fun _ => ret tt)
          _ _ _ _ E2 ltac:(by intros ? [= <-])) as E3.
        pose proof (try_finally_exit _ shutdown _ _ _ _ E3 ltac:(done) ltac:(done)) as E4.
        cbn [shutdown tell out final log cast_outcome] in E4.
        rewrite (bind_stop _ _ _ _ _ _ E4 ltac:(done)). cbn. rewrite He, Hk. cbn.
        split; [done|]. by rewrite <- ?app_assoc.
  - pose proof (try_except_pass is_Exception m1
      (fun _ => _log_error "# ----- `serve_once` failed with error -----")
      _ _ _ _ E ltac:(done)) as E1.
    pose proof (bind_stop _ (fun _ => ret tt) _ _ _ _ E1 ltac:(done)) as E2.
    cbn [cast_outcome] in E2.
    pose proof (try_except_pass is_KeyboardInterrupt _ (fun _ => ret tt)
      _ _ _ _ E2 ltac:(done)) as E3.
    pose proof (try_finally_stuck _ shutdown _ _ _ _ E3 ltac:(by left)) as E4.
    rewrite (bind_stop _ _ _ _ _ _ E4 ltac:(done)). cbn.
    split; [done|]. by rewrite app_nil_r.
  - pose proof (try_except_pass is_Exception m1
      (fun _ => _log_error "# ----- `serve_once` failed with error -----")
      _ _ _ _ E ltac:(done)) as E1.
    pose proof (bind_stop _ (fun _ => ret tt) _ _ _ _ E1 ltac:(done)) as E2.
    cbn [cast_outcome] in E2.
    pose proof (try_except_pass is_KeyboardInterrupt _ (fun _ => ret tt)
      _ _ _ _ E2 ltac:(done)) as E3.
    pose proof (try_finally_stuck _ shutdown _ _ _ _ E3 ltac:(by right)) as E4.
    rewrite (bind_stop _ _ _ _ _ _ E4 ltac:(done)). cbn.
    split; [done|]. by rewrite app_nil_r.
Qed.

End Runs.

(** ** Inbound messages *)

Section Inbound.
Context {platform : Platform}.

Lemma dispatched_app l1 l2 : dispatched (l1 ++ l2) = dispatched l1 ++ dispatched l2.
Proof.
  induction l1 as [|a l1 IH]; [done|]. destruct a; cbn; try done. by rewrite IH.
Qed.

Lemma handle_msg_info_ok r w :
  well_formed_record r = true ->
  out (handle_msg_info r w) = Return tt /\ final (handle_msg_info r w) = w.
Proof.
  unfold well_formed_record, record_error, record_msg.
  destruct r as [| | | | | |d|]; try discriminate.
  unfold handle_msg_info, bind, lift_exn, py_get, py_getitem. cbn.
  destruct (dict_get d "msg") as [[]|]; cbn; try done;
    (destruct (dict_get d "u") as [[| | | | | |u|]|]; try discriminate; cbn;
     destruct (dict_get u "username") as [nm|]; try discriminate; cbn;
     destruct (py_eq nm (_login_username (self w))); done).
Qed.

Lemma handle_msg_info_error r w e :
  record_error r = Some e ->
  handle_msg_info r w = mkRun (Raise e) w [].
Proof.
  unfold record_error, record_msg.
  destruct r as [| | | | | |d|]; try (intros [= <-]; reflexivity).
  unfold handle_msg_info, bind, lift_exn, py_get, py_getitem. cbn.
  destruct (dict_get d "msg") as [[]|]; cbn; try discriminate;
    (destruct (dict_get d "u") as [[| | | | | |u|]|]; cbn;
     try (intros [= <-]; reflexivity);
     destruct (dict_get u "username") as [nm|]; cbn; try discriminate;
     intros [= <-]; reflexivity).
Qed.

Lemma record_from_bot r name w :
  record_sender r = Some name ->
  py_eq name (_login_username (self w)) = true ->
  out (handle_msg_info r w) = Return tt /\ record_messages w r = [].
Proof.
  unfold record_sender, record_messages.
  destruct r as [| | | | | |d|]; try discriminate.
  destruct (dict_get d "u") as [[| | | | | |u|]|] eqn:Hu; try discriminate.
  intros Hn Heq.
  unfold handle_msg_info, bind, lift_exn, py_get, py_getitem. cbn.
  destruct (dict_get d "msg") as [[]|]; cbn; try done;
    rewrite Hu; cbn; rewrite Hn; cbn; rewrite Heq; done.
Qed.

Lemma record_from_other r msg name w :
  nonempty_body r = Some msg ->
  record_sender r = Some name ->
  py_eq name (_login_username (self w)) = false ->
  out (handle_msg_info r w) = Return tt /\
  record_messages w r = [inbound_message (self w) r msg name].
Proof.
  unfold nonempty_body, record_msg, record_sender, record_messages.
  destruct r as [| | | | | |d|]; try discriminate.
  destruct (dict_get d "u") as [[| | | | | |u|]|] eqn:Hu; try discriminate.
  intros Hm Hn Heq.
  unfold handle_msg_info, bind, lift_exn, py_get, py_getitem. cbn.
  destruct (dict_get d "msg") as [m|]; [|discriminate].
  destruct m; cbn in Hm; try discriminate Hm;
    try match type of Hm with
        | (if ?c then _ else _) = _ => destruct c eqn:Ht; [|discriminate Hm]
        end;
    injection Hm as <-; cbn; rewrite Hu; cbn; rewrite Hn; cbn; rewrite Heq; done.
Qed.

Lemma for_each_records l w :
  forallb well_formed_record l = true ->
  out (for_each l handle_msg_info w) = Return tt /\
  final (for_each l handle_msg_info w) = w /\
  dispatched (log (for_each l handle_msg_info w)) = flat_map (record_messages w) l.
Proof.
  induction l as [|r l IH]; [done|]. cbn [forallb for_each flat_map].
  intros [Hr Hl]%andb_true_iff. destruct (IH Hl) as (Ho & Hf & Hd).
  destruct (handle_msg_info_ok r w Hr) as [Ho1 Hf1].
  rewrite bind_unfold, Ho1, Hf1. cbn [out final log].
  split; [done|]. split; [done|]. by rewrite dispatched_app, Hd.
Qed.

Lemma for_each_records_stop l1 bad l2 w e :
  forallb well_formed_record l1 = true ->
  record_error bad = Some e ->
  out (for_each (l1 ++ bad :: l2) handle_msg_info w) = Raise e /\
  final (for_each (l1 ++ bad :: l2) handle_msg_info w) = w /\
  dispatched (log (for_each (l1 ++ bad :: l2) handle_msg_info w)) =
  flat_map (record_messages w) l1.
Proof.
  intros Hl He. induction l1 as [|r l1 IH]; cbn [app for_each forallb flat_map] in *.
  - rewrite bind_unfold, (handle_msg_info_error bad w e He). done.
  - apply andb_true_iff in Hl as [Hr Hl]. destruct (IH Hl) as (Ho & Hf & Hd).
    destruct (handle_msg_info_ok r w Hr) as [Ho1 Hf1].
    rewrite bind_unfold, Ho1, Hf1. cbn [out final log].
    split; [done|]. split; [done|]. by rewrite dispatched_app, Hd.
Qed.

(** C6.  A data change on another collection than 'stream-room-messages'
    dispatches nothing.  On that collection a record whose sender is the
    bot's login user name gives no message, and a record with a non-empty
    body whose sender is another user gives exactly one: with that body,
    the identifier built from the sender's user name, the bot as recipient
    and the record itself under 'msg_info'.  When every record of [args]
    is well formed the callback returns, leaves the backend as it was, and
    has dispatched the messages of the records in order.  At the first
    record that is not well formed it raises that record's error, having
    dispatched the messages of the records before it and none of a later
    one.  An [args] that is no list dispatches nothing. *)
Theorem changed_callback_relays collection id fields cleared w :
  let r := _meteor_changed_callback collection id fields cleared w in
  (py_eq collection (VStr "stream-room-messages") = false ->
   out r = Return tt /\ log r = []) /\
  (forall rec name,
     record_sender rec = Some name ->
     py_eq name (_login_username (self w)) = true ->
     record_messages w rec = []) /\
  (forall rec msg name,
     nonempty_body rec = Some msg ->
     record_sender rec = Some name ->
     py_eq name (_login_username (self w)) = false ->
     record_messages w rec =
     [mkMessage msg (ObjUser (build_identifier name))
        (ObjUser (bot_identifier (self w))) [("msg_info", inl rec)]]) /\
  (forall l,
     py_eq collection (VStr "stream-room-messages") = true ->
     py_get fields "args" = inr (VList l) ->
     forallb well_formed_record l = true ->
     out r = Return tt /\ final r = w /\
     dispatched (log r) = flat_map (record_messages w) l) /\
  (forall l1 bad l2 e,
     py_eq collection (VStr "stream-room-messages") = true ->
     py_get fields "args" = inr (VList (l1 ++ bad :: l2)) ->
     forallb well_formed_record l1 = true ->
     record_error bad = Some e ->
     out r = Raise e /\ final r = w /\
     dispatched (log r) = flat_map (record_messages w) l1) /\
  (forall args,
     py_eq collection (VStr "stream-room-messages") = true ->
     py_get fields "args" = inr args ->
     isinstance_list args = false ->
     out r = Return tt /\ log r = []).
Proof.
  cbn zeta. unfold _meteor_changed_callback. repeat apply conj.
  - intros ->. done.
  - intros rec name Hs He. by destruct (record_from_bot rec name w Hs He).
  - intros rec msg name Hm Hs He.
    by destruct (record_from_other rec msg name w Hm Hs He).
  - intros l -> Hargs Hwf. rewrite Hargs.
    rewrite (bind_run _ _ w (VList l) w [] eq_refl). cbn [out final log app].
    by apply for_each_records.
  - intros l1 bad l2 e -> Hargs Hwf He. rewrite Hargs.
    rewrite (bind_run _ _ w (VList (l1 ++ bad :: l2)) w [] eq_refl).
    cbn [out final log app]. by apply for_each_records_stop.
  - intros args -> Hargs Hl. rewrite Hargs.
    rewrite (bind_run _ _ w args w [] eq_refl). by destruct args.
Qed.

End Inbound.

(** ** Outbound messages *)

Section Outbound.
Context {platform : Platform}.

Lemma ret_run {A} (a : A) w : ret a w = mkRun (Return a) w [].
Proof. reflexivity. Qed.

Lemma tell_run a w : tell a w = mkRun (Return tt) w [a].
Proof. reflexivity. Qed.

Lemma get_self_run w : get_self w = mkRun (Return (self w)) w [].
Proof. reflexivity. Qed.

Lemma the_client_run w c :
  _meteor_client (self w) = Some c -> the_client w = mkRun (Return c) w [].
Proof. intros H. unfold the_client, bind, get_self. cbn. by rewrite H. Qed.

Lemma send_message_run sc w c frm0 to0 in_reply_to msg_info room_id part :
  _meteor_client (self w) = Some c ->
  extras_get (extras in_reply_to) "msg_info" = Some (inl msg_info) ->
  py_getitem msg_info "rid" = inr room_id ->
  let mess := mkMessage (VStr part) frm0 to0 [("orig_msg", inr in_reply_to)] in
  send_message sc mess w =
  mkRun (Return tt) w
    [ASuperSendMessage mess;
     ACall "sendMessage" [VDict [("rid", room_id); ("msg", VStr part)]]].
Proof.
  intros Hc Hi Hr. cbn zeta. unfold send_message.
  rewrite (bind_run _ _ _ _ _ _ (tell_run _ w)).
  cbn [extras extras_get String.eqb Ascii.eqb Bool.eqb].
  rewrite (bind_run _ _ _ _ _ _ (ret_run in_reply_to w)). rewrite Hi.
  rewrite (bind_run _ _ _ _ _ _ (ret_run msg_info w)). rewrite Hr.
  rewrite (bind_run _ _ _ _ _ _ (ret_run room_id w)).
  unfold send_rocketchat_message, mc_call.
  rewrite (bind_run _ _ _ _ _ _ (the_client_run w c Hc)).
  reflexivity.
Qed.

Lemma split_and_send_run sc w c frm0 to0 in_reply_to msg_info room_id parts :
  _meteor_client (self w) = Some c ->
  extras_get (extras in_reply_to) "msg_info" = Some (inl msg_info) ->
  py_getitem msg_info "rid" = inr room_id ->
  let r := for_each parts (fun part =>
             send_message sc (mkMessage (VStr part) frm0 to0 [("orig_msg", inr in_reply_to)])) w in
  out r = Return tt /\ final r = w /\
  calls (log r) = map (send_message_call room_id) parts.
Proof.
  intros Hc Hi Hr. induction parts as [|part parts IH]; [done|].
  cbn zeta in *. cbn [for_each].
  rewrite (bind_run _ _ _ _ _ _
    (send_message_run sc w c frm0 to0 in_reply_to msg_info room_id part Hc Hi Hr)).
  cbn [out final log]. destruct IH as (Ho & Hf & Hcalls).
  split; [done|]. split; [done|]. cbn. by rewrite Hcalls.
Qed.

(** [send] to a user, without a reply context and in a session. *)
Lemma send_user_in_session sc u text groupchat_nick_reply w c :
  _meteor_client (self w) = Some c ->
  let identifier := ObjUser u in
  let resolve := ACall "createDirectMessage" [RocketChatUser.person u] in
  let reply := sc_call_reply sc "createDirectMessage" [RocketChatUser.person u] in
  let r := send sc identifier text None groupchat_nick_reply w in
  out r = Return (VBool true) /\
  log r = [resolve] /\
  _meteor_client (self (final r)) =
    Some (with_queue (mc_queue c ++ [Reply (Cb_query_user identifier text) reply]) c) /\
  (forall err msg_info rest room_id,
     reply = err :: msg_info :: rest ->
     py_getitem msg_info "rid" = inr room_id ->
     let r2 := run_callback sc (Cb_query_user identifier text) reply (final r) in
     out r2 = Return tt /\
     calls (log r ++ log r2) =
       ("createDirectMessage", [RocketChatUser.person u])
       :: map (send_message_call room_id) (split_string_after text)).
Proof.
  intros Hc. cbn zeta.
  assert (Hsend : send sc (ObjUser u) text None groupchat_nick_reply w =
    mkRun (Return (VBool true))
      {| environ := environ w;
         self := set_meteor_client
           (Some (with_queue (mc_queue c ++
              [Reply (Cb_query_user (ObjUser u) text)
                 (sc_call_reply sc "createDirectMessage" [RocketChatUser.person u])]) c))
           (self w) |}
      [ACall "createDirectMessage" [RocketChatUser.person u]]).
  { unfold send. cbn [isinstance_Identifier negb]. unfold create_reply_msg.
    rewrite bind_unfold. rewrite (bind_run _ _ _ _ _ _ (the_client_run w c Hc)).
    rewrite (bind_run _ _ _ _ _ _ (ret_run (RocketChatUser.person u) w)).
    unfold mc_call. rewrite (bind_run _ _ _ _ _ _ (the_client_run w c Hc)).
    rewrite (bind_run _ _ _ _ _ _ (tell_run _ w)).
    unfold enqueue, modify_client.
    rewrite (bind_run _ _ _ _ _ _ (the_client_run w c Hc)). reflexivity. }
  rewrite Hsend. cbn [out final log].
  split; [done|]. split; [done|]. split; [done|].
  intros err msg_info rest room_id Hreply Hrid. rewrite Hreply.
  set (w1 := {| environ := environ w; self := _ |}).
  unfold run_callback, query_user_callback.
  rewrite (bind_run _ _ _ _ _ _ (ret_run msg_info w1)).
  rewrite (bind_run _ _ _ _ _ _ (get_self_run w1)).
  unfold send. cbn [isinstance_Identifier negb isinstance_Room].
  rewrite bind_unfold.
  rewrite (bind_run _ _ _ _ _ _ (get_self_run w1)).
  rewrite (bind_run _ _ _ _ _ _ (ret_run tt w1)).
  unfold split_and_send_message. cbn [body to frm extras].
  edestruct (split_and_send_run sc w1 _ (ObjUser (bot_identifier (self w1))) (ObjUser u)
               (mkMessage (VStr text) (ObjUser u) (ObjUser (bot_identifier (self w1)))
                  [("msg_info", inl msg_info)])
               msg_info room_id (split_string_after text) eq_refl eq_refl Hrid)
    as (Ho & Hf & Hcalls).
  rewrite bind_unfold, Ho. cbn [out final log ret]. split; [done|].
  cbn [app calls]. rewrite !app_nil_r. cbn [app]. by rewrite Hcalls.
Qed.

End Outbound.

(** ** Settling the subscription *)

Section Settling.
Context {platform : Platform}.

Lemma settled_before_wait_app l l' :
  settled_before_wait l = true -> settled_before_wait (l ++ l') = true.
Proof.
  induction l as [|a l IH]; [done|]. cbn.
  destruct a as [| | | | | | | | |[]| |[]| | | | | | | | | | | | | |]; try exact IH; try done.
  intros H. rewrite existsb_app, H. done.
Qed.

Lemma log_prefix_bind {A B} (m : M A) (f : A -> M B) w :
  exists l, log (bind m f w) = log (m w) ++ l.
Proof.
  rewrite bind_unfold. destruct (out (m w)); cbn; eauto using app_nil_r.
  all: exists []; by rewrite app_nil_r.
Qed.

Lemma log_prefix_try_except {A} c (m : M A) h w :
  exists l, log (try_except c m h w) = log (m w) ++ l.
Proof.
  rewrite try_except_unfold. destruct (out (m w)) as [|e| |]; cbn;
    try (exists []; by rewrite app_nil_r).
  destruct (c e); cbn; [eauto|]. exists []; by rewrite app_nil_r.
Qed.

Lemma log_prefix_try_finally {A} (m : M A) f w :
  exists l, log (try_finally m f w) = log (m w) ++ l.
Proof.
  rewrite try_finally_unfold. destruct (out (m w)); cbn; eauto;
    exists []; by rewrite app_nil_r.
Qed.

(** The log of a session starts with the log of its wait for the
    subscription. *)
Lemma serve_once_log_prefix sc fuel w :
  sc_connect_error sc = None ->
  exists l,
    log (serve_once sc fuel w) =
    (begin_log (_server_uri (self w)) ++
     AConnect :: log (event_wait sc fuel SubscribingDone
                        (sc_interrupt_subscribing sc) false (connected_world w))) ++ l.
Proof.
  intros H. rewrite (serve_once_connected sc fuel w H). cbn [log].
  unfold serve_once_session.
  rewrite (bind_run _ _ _ _ _ _ (get_bool_config_run _ _ (connected_world w))).
  cbn [log app].
  set (hb := _get_bool_config _ _ _ _).
  destruct (log_prefix_bind
              (try_finally (try_except is_Exception (serve_once_wait sc fuel hb)
                              (serve_once_on_error sc fuel)) serve_once_finally)
              (fun _ => _log_debug "# ===== serve_once =====") (connected_world w))
    as [l1 ->].
  destruct (log_prefix_try_finally
              (try_except is_Exception (serve_once_wait sc fuel hb)
                 (serve_once_on_error sc fuel)) serve_once_finally (connected_world w))
    as [l2 ->].
  destruct (log_prefix_try_except is_Exception (serve_once_wait sc fuel hb)
              (serve_once_on_error sc fuel) (connected_world w)) as [l3 ->].
  unfold serve_once_wait at 1.
  destruct (log_prefix_bind
              (event_wait sc fuel SubscribingDone (sc_interrupt_subscribing sc) false)
              (fun _ =>
                 (if hb
                  then heartbeat_func ← get_config CONFIG_KEYS.HEARTBEAT_FUNC VNone;
                       (if callable heartbeat_func then ret tt
                        else raise (AssertionError (py_repr heartbeat_func)));;
                       heartbeat_interval ← get_config CONFIG_KEYS.HEARTBEAT_INTERVAL (VInt 10);
                       heartbeat_interval ← lift_exn (py_float heartbeat_interval);
                       heartbeat_loop sc fuel fuel heartbeat_func heartbeat_interval
                  else ret tt);;
                 event_wait sc fuel MeteorClosed (sc_interrupt_closed sc) (sc_server_closes sc))
              (connected_world w)) as [l4 ->].
  exists (l4 ++ l3 ++ l2 ++ l1).
  rewrite <- !app_assoc. cbn [app]. by rewrite <- ?app_assoc.
Qed.

Lemma run_transport_unfold sc fuel w :
  run_transport sc fuel w =
  (b ← get_self;
   match _meteor_client b with
   | None => ret tt
   | Some c =>
       match mc_queue c with
       | [] => ret tt
       | ev :: q =>
           match fuel with
           | O => out_of_fuel
           | S fuel' =>
               modify_client (with_queue q);;
               in_transport_thread (deliver sc ev);;
               run_transport sc fuel'
           end
       end
   end) w.
Proof. by destruct fuel. Qed.

(** Fuel that was enough stays enough: more of it changes nothing. *)
Lemma run_transport_more_fuel sc n k : forall w,
  out (run_transport sc n w) <> OutOfFuel ->
  run_transport sc (n + k) w = run_transport sc n w.
Proof.
  induction n as [|n IH]; intros w; rewrite (run_transport_unfold sc _ w),
    (run_transport_unfold sc (_ + k) w);
    rewrite !(bind_run _ _ _ _ _ _ (get_self_run w)); cbn [out final log app];
    destruct (_meteor_client (self w)) as [c|]; try done;
    destruct (mc_queue c) as [|ev q]; try done.
  cbn [Nat.add]. intros H.
  assert (E : bind (modify_client (with_queue q))
                (fun _ => bind (in_transport_thread (deliver sc ev))
                            (fun _ => run_transport sc (n + k))) w =
              bind (modify_client (with_queue q))
                (fun _ => bind (in_transport_thread (deliver sc ev))
                            (fun _ => run_transport sc n)) w);
    [|by rewrite E].
  revert H. rewrite !(bind_unfold (modify_client (with_queue q))).
  destruct (out (modify_client (with_queue q) w)); try done.
  rewrite !(bind_unfold (in_transport_thread (deliver sc ev))).
  destruct (out (in_transport_thread (deliver sc ev) _)); try done.
  cbn [out]. intros H. by rewrite IH.
Qed.

Lemma event_wait_more_fuel sc n k e w :
  out (event_wait sc n e None false w) <> OutOfFuel ->
  event_wait sc (n + k) e None false w = event_wait sc n e None false w.
Proof.
  unfold event_wait. rewrite !bind_unfold. intros H.
  rewrite run_transport_more_fuel; [done|].
  intros Ho. by rewrite Ho in H.
Qed.

Lemma wait_for_subscription_settles sc w :
  sc_interrupt_subscribing sc = None ->
  out (event_wait sc 4 SubscribingDone None false (connected_world w)) <> OutOfFuel /\
  settled_before_wait
    (begin_log (_server_uri (self w)) ++
     AConnect :: log (event_wait sc 4 SubscribingDone None false (connected_world w))) = true.
Proof.
  intros H.
  destruct sc as [ce lg sb isb dp he cl ic ci cr]. cbn in H. clear H.
  destruct lg as [[[] s]|]; destruct sb as [[]|]; vm_compute; by split.
Qed.

(** C2.  Whatever the outcome of the login and of the subscription, in a
    run of [serve_once] whose connection got started the subscribing-done
    event has been set whenever the wait for it is over.  The subscribe
    callback sets it on success, and the closed callback sets it, and the
    closed event, whatever its arguments. *)
Theorem subscribing_done_is_signalled sc fuel w :
  (sc_connect_error sc = None -> sc_interrupt_subscribing sc = None -> 4 <= fuel ->
   settled_before_wait (log (serve_once sc fuel w)) = true) /\
  (let r := _meteor_subscribe_callback sc VNone w in
   out r = Return tt /\ event_flag SubscribingDone (self (final r)) = true /\
   existsb is_waited_subscribing (log r) = false /\
   settled_before_wait (log r ++ [AEventWaited SubscribingDone]) = true) /\
  (forall code reason,
   let r := _meteor_closed_callback code reason w in
   out r = Return tt /\ event_flag SubscribingDone (self (final r)) = true /\
   event_flag MeteorClosed (self (final r)) = true /\
   settled_before_wait (log r ++ [AEventWaited SubscribingDone]) = true).
Proof.
  split; [|split].
  - intros Hc Hi Hf. destruct (serve_once_log_prefix sc fuel w Hc) as [l ->].
    apply settled_before_wait_app. rewrite Hi.
    destruct (wait_for_subscription_settles sc w Hi) as [Hfuel Hset].
    replace fuel with (4 + (fuel - 4)) by lia.
    by rewrite event_wait_more_fuel.
  - done.
  - done.
Qed.

End Settling.

(** ** The heartbeat loop *)

Section Heartbeat.
Context {platform : Platform}.

Lemma silent_counts l :
  forallb silent l = true ->
  count is_heartbeat l = 0 /\ count is_poll_true l = 0.
Proof.
  intros H. split; apply (count_none _ silent _ H); by intros [].
Qed.

Lemma session_silent a : transport_action a = true -> silent a = true.
Proof. by destruct a. Qed.

Lemma beats_match_silent {A} (m : M A) :
  respects silent (fun _ => True) m -> beats_match m.
Proof.
  intros H w. destruct (H w I) as [_ Hl].
  destruct (silent_counts _ Hl) as [-> ->]. done.
Qed.

Lemma beats_match_bind {A B} (m : M A) (f : A -> M B) :
  beats_match m -> (forall a, beats_match (f a)) -> beats_match (bind m f).
Proof.
  intros Hm Hf w. rewrite bind_unfold. specialize (Hm w).
  destruct (out (m w)) as [a| | |]; cbn [log]; try done.
  rewrite !count_app, Hm. by rewrite (Hf a).
Qed.

Lemma beats_match_try_except {A} c (m : M A) h :
  beats_match m -> (forall e, beats_match (h e)) -> beats_match (try_except c m h).
Proof.
  intros Hm Hh w. rewrite try_except_unfold. specialize (Hm w).
  destruct (out (m w)) as [a|e| |]; try done.
  destruct (c e); [|done]. cbn [log]. rewrite !count_app, Hm. by rewrite (Hh e).
Qed.

Lemma beats_match_try_finally {A} (m : M A) f :
  beats_match m -> beats_match f -> beats_match (try_finally m f).
Proof.
  intros Hm Hf w. rewrite try_finally_unfold. specialize (Hm w).
  destruct (out (m w)) as [a|e| |]; try done; cbn [log];
    rewrite !count_app, Hm; by rewrite (Hf _).
Qed.

Lemma poll_spec_bind {A} (m : M A) (f : A -> M bool) :
  respects silent (fun _ => True) m -> (forall a, poll_spec (f a)) ->
  poll_spec (bind m f).
Proof.
  intros Hm Hf w. rewrite bind_unfold. destruct (Hm w I) as [_ Hl].
  destruct (silent_counts _ Hl) as [H1 H2].
  destruct (out (m w)) as [a| | |]; cbn [out final log]; try done.
  destruct (Hf a (final (m w))) as (F1 & F2 & F3).
  rewrite !count_app, H1, H2, F1, F2. done.
Qed.

Lemma the_client_none w :
  _meteor_client (self w) = None ->
  the_client w = mkRun (Raise (AttributeError "_meteor_client")) w [].
Proof. intros H. unfold the_client, bind, get_self. cbn. by rewrite H. Qed.

Lemma modify_client_run f w c :
  _meteor_client (self w) = Some c ->
  modify_client f w =
  mkRun (Return tt)
    {| environ := environ w; self := set_meteor_client (Some (f c)) (self w) |} [].
Proof.
  intros H. unfold modify_client.
  by rewrite (bind_run _ _ _ _ _ _ (the_client_run w c H)).
Qed.

Section SessionX.
Variable sc : scenario.

Lemma run_transport_silent fuel :
  respects silent (fun _ => True) (run_transport sc fuel).
Proof.
  eapply respects_weaken; [apply session_silent|].
  apply run_transport_respects, stable_True.
Qed.

Ltac silent_auto :=
  repeat first [ apply run_transport_silent | respects_step
               | apply respects_modify_self; done
               | progress autounfold with backend ].

Lemma event_wait_silent fuel e interrupt remote_closes :
  respects silent (fun _ => True) (event_wait sc fuel e interrupt remote_closes).
Proof. unfold event_wait. silent_auto. Qed.

Lemma read_connected_spec fuel : poll_spec (read_connected sc fuel).
Proof.
  unfold read_connected.
  apply poll_spec_bind; [apply run_transport_silent|]. intros _.
  apply poll_spec_bind; [silent_auto|]. intros c0.
  apply poll_spec_bind; [silent_auto|]. intros _.
  apply poll_spec_bind; [silent_auto|]. intros _.
  intros w. destruct (_meteor_client (self w)) as [c|] eqn:Hc.
  - rewrite (bind_run _ _ _ _ _ _ (the_client_run w c Hc)).
    rewrite (bind_run _ _ _ _ _ _ (tell_run _ w)). cbn.
    destruct (connected c); cbn; (split; [done|]); (split; [done|]);
      intros _ _; by exists c.
  - rewrite (bind_stop _ _ _ _ _ _ (the_client_none w Hc)) by done. cbn.
    split; [done|]. split; [done|]. by intros b.
Qed.

Lemma call_heartbeat_counts f w :
  has_client (self w) ->
  count is_heartbeat (log (call_heartbeat sc f w)) = 1 /\
  count is_poll_true (log (call_heartbeat sc f w)) = 0.
Proof.
  intros [c Hc]. unfold call_heartbeat.
  rewrite (bind_run _ _ _ _ _ _ (the_client_run w c Hc)).
  rewrite (bind_run _ _ _ _ _ _ (tell_run _ w)).
  rewrite (bind_run _ _ _ _ _ _ (modify_client_run _ w c Hc)).
  cbn [out final log app].
  destruct (sc_heartbeat_error sc (mc_beats c)); done.
Qed.

Lemma heartbeat_loop_beats n fuel f t : beats_match (heartbeat_loop sc n fuel f t).
Proof.
  induction n as [|n IH]; [done|]. intros w. cbn [heartbeat_loop].
  rewrite bind_unfold.
  destruct (read_connected_spec fuel w) as (H1 & H2 & H3).
  destruct (out (read_connected sc fuel w)) as [[]| | |] eqn:Ho; cbn [log];
    rewrite ?count_app, ?H1, ?H2; try done.
  - destruct (call_heartbeat_counts f _ (H3 true eq_refl)) as [C1 C2].
    rewrite bind_unfold.
    destruct (out (call_heartbeat sc f _)); cbn [log];
      rewrite ?count_app, C1, C2; try done.
    cbn. f_equal.
    apply (beats_match_bind (time_sleep t) (fun _ => heartbeat_loop sc n fuel f t));
      [|intros _; apply IH].
    apply beats_match_silent. unfold time_sleep. silent_auto.
Qed.

Lemma serve_once_beats fuel : beats_match (serve_once sc fuel).
Proof.
  unfold serve_once, serve_once_begin, serve_once_connect_failed, serve_once_finally,
    serve_once_wait, serve_once_on_error, mc_connect, mc_remove_all_listeners,
    disconnect_callback.
  repeat first
    [ apply heartbeat_loop_beats
    | apply beats_match_bind; [|intros ?]
    | apply beats_match_try_except; [|intros ?]
    | apply beats_match_try_finally
    | match goal with
      | |- beats_match (match ?x with _ => _ end) => destruct x
      end
    | apply beats_match_silent;
        repeat first [ apply event_wait_silent | apply run_transport_silent
                     | respects_step | apply respects_modify_self; done
                     | progress autounfold with backend ] ].
Qed.


(** *** A session that stays connected for [k] reads *)

Lemma run_transport_idle fuel w c :
  _meteor_client (self w) = Some c -> mc_queue c = [] ->
  run_transport sc fuel w = mkRun (Return tt) w [].
Proof.
  intros Hc Hq. rewrite run_transport_unfold.
  rewrite (bind_run _ _ _ _ _ _ (get_self_run w)). by rewrite Hc, Hq.
Qed.

Lemma run_transport_idle_session fuel w c s cl :
  mc_queue c = [] ->
  run_transport sc fuel (session_world w c s cl) =
  mkRun (Return tt) (session_world w c s cl) [].
Proof. intros Hq. by apply (run_transport_idle fuel _ c). Qed.

Lemma the_client_session w c s cl :
  the_client (session_world w c s cl) = mkRun (Return c) (session_world w c s cl) [].
Proof. by apply the_client_run. Qed.

Lemma modify_client_session f w c s cl :
  modify_client f (session_world w c s cl) =
  mkRun (Return tt) (session_world w (f c) s cl) [].
Proof. by rewrite (modify_client_run f _ c). Qed.

Ltac run_by tac := cbv beta; erewrite bind_run; [| solve [tac]].
Ltac run_idle := run_by ltac:(apply run_transport_idle_session; reflexivity).
Ltac run_client := run_by ltac:(apply the_client_session).
Ltac run_modify := run_by ltac:(apply modify_client_session).

Lemma read_connected_live fuel w uri p b s cl :
  sc_drop_at_poll sc p = false ->
  read_connected sc fuel (session_world w (live_client uri p b) s cl) =
  mkRun (Return true) (session_world w (live_client uri (S p) b) s cl)
        [APollConnected true].
Proof.
  intros Hd. unfold read_connected.
  run_idle.
  run_client.
  cbn [mc_polls live_client]. rewrite Hd.
  rewrite (bind_run _ _ _ _ _ _ (ret_run tt _)).
  run_modify.
  reflexivity.
Qed.

Lemma call_heartbeat_live f w uri p b s cl :
  sc_heartbeat_error sc b = None ->
  call_heartbeat sc f (session_world w (live_client uri p b) s cl) =
  mkRun (Return tt) (session_world w (live_client uri p (S b)) s cl) [AHeartbeat f].
Proof.
  intros He. unfold call_heartbeat.
  run_client.
  rewrite (bind_run _ _ _ _ _ _ (tell_run _ _)).
  run_modify.
  cbn [mc_beats live_client]. rewrite He. reflexivity.
Qed.

Lemma read_connected_drop fuel w uri p b :
  sc_drop_at_poll sc p = true ->
  read_connected sc (S fuel) (session_world w (live_client uri p b) true false) =
  mkRun (Return false) (session_world w (closed_client uri (S p) b) true true)
        [ALogDebug "# ----- _meteor_closed_callback -----";
         AEventSet SubscribingDone; AEventSet MeteorClosed; APollConnected false].
Proof.
  intros Hd. unfold read_connected.
  run_idle.
  run_client.
  cbn [mc_polls live_client]. rewrite Hd.
  assert (Hclose : (remote_close sc;; run_transport sc (S fuel))
            (session_world w (live_client uri p b) true false) =
          mkRun (Return tt) (session_world w (closed_client uri p b) true true)
            [ALogDebug "# ----- _meteor_closed_callback -----";
             AEventSet SubscribingDone; AEventSet MeteorClosed]).
  { assert (H1 : remote_close sc (session_world w (live_client uri p b) true false) =
              mkRun (Return tt)
                (session_world w
                   (with_queue [Emit "closed" [fst (sc_close_info sc); snd (sc_close_info sc)]]
                      (closed_client uri p b)) true false) []) by reflexivity.
    rewrite (bind_run _ _ _ _ _ _ H1). rewrite run_transport_unfold.
    rewrite (bind_run _ _ _ _ _ _ (get_self_run _)).
    cbn [self session_world _meteor_client mc_queue with_queue].
    run_modify.
    assert (H2 : in_transport_thread
              (deliver sc (Emit "closed" [fst (sc_close_info sc); snd (sc_close_info sc)]))
              (session_world w (closed_client uri p b) true false) =
            mkRun (Return tt) (session_world w (closed_client uri p b) true true)
              [ALogDebug "# ----- _meteor_closed_callback -----";
               AEventSet SubscribingDone; AEventSet MeteorClosed]) by reflexivity.
    etransitivity;
      [apply (bind_run _ _ _ _ _ _ H2)|].
    cbv beta. erewrite run_transport_idle_session by reflexivity. reflexivity. }
  rewrite (bind_run _ _ _ _ _ _ Hclose).
  run_modify.
  reflexivity.
Qed.

Lemma time_sleep_run t w :
  time_sleep_error t = None -> time_sleep t w = mkRun (Return tt) w [ASleep t].
Proof. intros H. unfold time_sleep. by rewrite H. Qed.

(** The loop at 65ZNO from the [p]-th read on, when the connection drops
    right before the [k]-th. *)
Lemma heartbeat_loop_ticks f t w uri fuel k : forall d p n,
  p + d = k -> d < n ->
  (forall i, i < k -> sc_drop_at_poll sc i = false) ->
  sc_drop_at_poll sc k = true ->
  (forall i, i < k -> sc_heartbeat_error sc i = None) ->
  time_sleep_error t = None ->
  exists l,
    heartbeat_loop sc n (S fuel) f t (session_world w (live_client uri p p) true false) =
    mkRun (Return tt) (session_world w (closed_client uri (S k) k) true true) l /\
    List.filter loop_action l = heartbeat_trace f t d.
Proof.
  induction d as [|d IH]; intros p n Hp Hn Hdrop Hk Herr Ht;
    destruct n as [|n]; try lia; cbn [heartbeat_loop].
  - assert (p = k) as -> by lia.
    rewrite (bind_run _ _ _ _ _ _ (read_connected_drop fuel w uri k k Hk)).
    eexists. split; reflexivity.
  - rewrite (bind_run _ _ _ _ _ _
      (read_connected_live (S fuel) w uri p p true false (Hdrop p ltac:(lia)))).
    rewrite (bind_run _ _ _ _ _ _
      (call_heartbeat_live f w uri (S p) p true false (Herr p ltac:(lia)))).
    rewrite (bind_run _ _ _ _ _ _ (time_sleep_run t _ Ht)).
    destruct (IH (S p) n ltac:(lia) ltac:(lia) Hdrop Hk Herr Ht) as (l & -> & H1).
    eexists. split; [reflexivity|]. cbn [out final log app List.filter loop_action heartbeat_trace].
    by rewrite H1.
Qed.


Lemma wait_subscribed fuel w info :
  sc_login sc = Some (VNone, info) -> sc_subscribe sc = Some VNone -> 4 <= fuel ->
  exists l,
    event_wait sc fuel SubscribingDone None false (connected_world w) =
    mkRun (Return tt)
      (session_world w (live_client (_server_uri (self w)) 0 0) true false) l /\
    List.filter loop_action l = [].
Proof.
  intros Hl Hs Hf.
  assert (H4 : exists l,
    event_wait sc 4 SubscribingDone None false (connected_world w) =
    mkRun (Return tt)
      (session_world w (live_client (_server_uri (self w)) 0 0) true false) l /\
    List.filter loop_action l = []).
  { clear Hf. destruct sc as [ce lg sb isb dp he cl ic ci cr]. cbn in Hl, Hs. subst.
    eexists. split; [vm_compute; reflexivity|reflexivity]. }
  destruct H4 as (l & E & Hsil). exists l. split; [|done].
  replace fuel with (4 + (fuel - 4)) by lia.
  rewrite event_wait_more_fuel; [done|]. by rewrite E.
Qed.

Lemma wait_closed fuel remote_closes w uri p b :
  event_wait sc fuel MeteorClosed None remote_closes
    (session_world w (closed_client uri p b) true true) =
  mkRun (Return tt) (session_world w (closed_client uri p b) true true)
        [AEventWaited MeteorClosed].
Proof. unfold event_wait. run_idle. reflexivity. Qed.

Lemma get_config_run key d w :
  get_config key d w =
  mkRun (Return (_get_config (environ w) (_config_obj (self w)) key d)) w [].
Proof. reflexivity. Qed.

(** The body of the second [try] when the session is established, the
    heartbeat is configured and the connection drops right before the
    [k]-th read of [connected]. *)
Lemma serve_once_wait_ticks fuel w k t info :
  sc_login sc = Some (VNone, info) -> sc_subscribe sc = Some VNone ->
  sc_interrupt_subscribing sc = None -> sc_interrupt_closed sc = None ->
  (forall i, i < k -> sc_drop_at_poll sc i = false) ->
  sc_drop_at_poll sc k = true ->
  (forall i, i < k -> sc_heartbeat_error sc i = None) ->
  callable (_get_config (environ w) (_config_obj (self w))
              CONFIG_KEYS.HEARTBEAT_FUNC VNone) = true ->
  py_float (_get_config (environ w) (_config_obj (self w))
              CONFIG_KEYS.HEARTBEAT_INTERVAL (VInt 10)) = inr t ->
  time_sleep_error t = None ->
  4 + k <= fuel ->
  exists l,
    serve_once_wait sc fuel true (connected_world w) =
    mkRun (Return tt)
      (session_world w (closed_client (_server_uri (self w)) (S k) k) true true) l /\
    List.filter loop_action l =
    heartbeat_trace (_get_config (environ w) (_config_obj (self w))
                       CONFIG_KEYS.HEARTBEAT_FUNC VNone) t k.
Proof.
  intros Hl Hs Hi Hic Hdrop Hk Herr Hcall Hfloat Ht Hfuel.
  destruct (wait_subscribed fuel w info Hl Hs ltac:(lia)) as (l0 & E0 & F0).
  destruct fuel as [|fuel']; [lia|].
  destruct (heartbeat_loop_ticks
              (_get_config (environ w) (_config_obj (self w)) CONFIG_KEYS.HEARTBEAT_FUNC VNone)
              t w (_server_uri (self w)) fuel' k k 0 (S fuel')
              ltac:(lia) ltac:(lia) Hdrop Hk Herr Ht) as (l1 & E1 & F1).
  unfold serve_once_wait. rewrite Hi, Hic.
  rewrite (bind_run _ _ _ _ _ _ E0). cbv beta.
  match goal with
  | |- context [bind ?m (fun _ => event_wait _ _ MeteorClosed _ _) ?W] =>
      assert (EX : m W =
        mkRun (Return tt)
          (session_world w (closed_client (_server_uri (self w)) (S k) k) true true) l1)
  end.
  { run_by ltac:(apply get_config_run).
    cbn [environ self session_world _config_obj]. rewrite Hcall.
    run_by ltac:(apply ret_run).
    run_by ltac:(apply get_config_run).
    cbn [environ self session_world _config_obj]. rewrite Hfloat.
    run_by ltac:(reflexivity).
    cbv beta. rewrite E1. cbn [out final log app]. reflexivity. }
  rewrite (bind_run _ _ _ _ _ _ EX). cbv beta.
  rewrite wait_closed. cbn [out final log].
  eexists. split; [reflexivity|].
  rewrite !List.filter_app, F0, F1. cbn. by rewrite app_nil_r.
Qed.


Lemma serve_once_finally_closed w c s cl :
  exists w' l,
    serve_once_finally (session_world w c s cl) = mkRun (Return tt) w' l /\
    List.filter loop_action l = [].
Proof. eexists _, _. split; [vm_compute; reflexivity|reflexivity]. Qed.

Lemma count_heartbeat_loop_action l :
  count is_heartbeat (List.filter loop_action l) = count is_heartbeat l.
Proof.
  unfold count. induction l as [|a l IH]; [done|].
  destruct a; cbn; try done; by rewrite IH.
Qed.

Lemma count_heartbeat_trace f t k : count is_heartbeat (heartbeat_trace f t k) = k.
Proof. induction k as [|k IH]; [done|]. cbn. unfold count in IH. by rewrite IH. Qed.

Lemma serve_once_ticks fuel w k t info :
  sc_connect_error sc = None ->
  sc_login sc = Some (VNone, info) -> sc_subscribe sc = Some VNone ->
  sc_interrupt_subscribing sc = None -> sc_interrupt_closed sc = None ->
  (forall i, i < k -> sc_drop_at_poll sc i = false) ->
  sc_drop_at_poll sc k = true ->
  (forall i, i < k -> sc_heartbeat_error sc i = None) ->
  _get_bool_config (environ w) (_config_obj (self w))
    CONFIG_KEYS.HEARTBEAT_ENABLED VNone = true ->
  callable (_get_config (environ w) (_config_obj (self w))
              CONFIG_KEYS.HEARTBEAT_FUNC VNone) = true ->
  py_float (_get_config (environ w) (_config_obj (self w))
              CONFIG_KEYS.HEARTBEAT_INTERVAL (VInt 10)) = inr t ->
  time_sleep_error t = None ->
  4 + k <= fuel ->
  out (serve_once sc fuel w) = Return tt /\
  List.filter loop_action (log (serve_once sc fuel w)) =
  heartbeat_trace (_get_config (environ w) (_config_obj (self w))
                     CONFIG_KEYS.HEARTBEAT_FUNC VNone) t k.
Proof.
  intros Hc Hl Hs Hi Hic Hdrop Hk Herr Hen Hcall Hfloat Ht Hfuel.
  destruct (serve_once_wait_ticks fuel w k t info Hl Hs Hi Hic Hdrop Hk Herr
              Hcall Hfloat Ht Hfuel) as (l1 & E1 & F1).
  destruct (serve_once_finally_closed w
              (closed_client (_server_uri (self w)) (S k) k) true true)
    as (w2 & l2 & E2 & F2).
  rewrite (serve_once_connected sc fuel w Hc). cbv zeta. cbn [out log].
  unfold serve_once_session.
  rewrite (bind_run _ _ _ _ _ _ (get_bool_config_run _ _ _)).
  cbn [environ self connected_world session_world _config_obj]. rewrite Hen.
  pose proof (try_except_pass is_Exception _ (serve_once_on_error sc fuel) _ _ _ _ E1
                ltac:(done)) as E3.
  pose proof (try_finally_exit _ serve_once_finally _ _ _ _ E3
                ltac:(done) ltac:(done)) as E4.
  rewrite E2 in E4. cbn [out final log cast_outcome] in E4.
  cbv beta. rewrite (bind_run _ _ _ _ _ _ E4). cbn [out final log app].
  split; [reflexivity|].
  rewrite List.filter_app. cbn [List.filter loop_action begin_log app].
  rewrite !List.filter_app, F1, F2. cbn. by rewrite !app_nil_r.
Qed.

End SessionX.
(** C5. In every run of [serve_once] the heartbeat function is called
    exactly as many times as [connected] is read true at the head of the
    loop at 65ZNO.  When the session is established with the heartbeat
    enabled and the connection drops right before the [k]-th read, the run
    returns and what the loop did is, [k] times over, a read of [connected]
    giving true, a call of the heartbeat function and a sleep of the
    configured length, then one read giving false: [k] calls in all. *)
Theorem heartbeat_once_per_connected_read sc fuel w :
  count is_heartbeat (log (serve_once sc fuel w)) =
  count is_poll_true (log (serve_once sc fuel w)) /\
  (forall k t info,
     sc_connect_error sc = None ->
     sc_login sc = Some (VNone, info) -> sc_subscribe sc = Some VNone ->
     sc_interrupt_subscribing sc = None -> sc_interrupt_closed sc = None ->
     (forall i, i < k -> sc_drop_at_poll sc i = false) ->
     sc_drop_at_poll sc k = true ->
     (forall i, i < k -> sc_heartbeat_error sc i = None) ->
     _get_bool_config (environ w) (_config_obj (self w))
       CONFIG_KEYS.HEARTBEAT_ENABLED VNone = true ->
     callable (_get_config (environ w) (_config_obj (self w))
                 CONFIG_KEYS.HEARTBEAT_FUNC VNone) = true ->
     py_float (_get_config (environ w) (_config_obj (self w))
                 CONFIG_KEYS.HEARTBEAT_INTERVAL (VInt 10)) = inr t ->
     time_sleep_error t = None ->
     4 + k <= fuel ->
     out (serve_once sc fuel w) = Return tt /\
     List.filter loop_action (log (serve_once sc fuel w)) =
     heartbeat_trace (_get_config (environ w) (_config_obj (self w))
                        CONFIG_KEYS.HEARTBEAT_FUNC VNone) t k /\
     count is_heartbeat (log (serve_once sc fuel w)) = k).
Proof.
  split; [apply serve_once_beats|].
  intros k t info Hc Hl Hs Hi Hic Hdrop Hk Herr Hen Hcall Hfloat Ht Hfuel.
  destruct (serve_once_ticks sc fuel w k t info Hc Hl Hs Hi Hic Hdrop Hk Herr
              Hen Hcall Hfloat Ht Hfuel) as [Ho Hf].
  split; [done|]. split; [done|].
  by rewrite <- count_heartbeat_loop_action, Hf, count_heartbeat_trace.
Qed.

End Heartbeat.

(** ** Outbound messages: who can be written to *)

Section Resolution.
Context {platform : Platform}.

Lemma send_room_in_session sc name text groupchat_nick_reply w c :
  _meteor_client (self w) = Some c ->
  send sc (ObjRoom name) text None groupchat_nick_reply w =
  mkRun (Raise (AttributeError "person")) w [].
Proof.
  intros Hc. unfold send. cbn [isinstance_Identifier negb]. unfold create_reply_msg.
  rewrite bind_unfold. rewrite (bind_run _ _ _ _ _ _ (the_client_run w c Hc)).
  reflexivity.
Qed.

Lemma send_without_client sc identifier text groupchat_nick_reply w :
  isinstance_Identifier identifier = true ->
  _meteor_client (self w) = None ->
  send sc identifier text None groupchat_nick_reply w =
  mkRun (Raise (AttributeError "_meteor_client")) w [].
Proof.
  intros Hi Hc. unfold send. rewrite Hi. cbn [negb]. unfold create_reply_msg.
  rewrite bind_unfold.
  rewrite (bind_stop _ _ _ _ _ _ (the_client_none w Hc)) by done. reflexivity.
Qed.

(** C7.  [send] to a user without a reply context, in a session, makes
    exactly one call, 'createDirectMessage' for that user, and returns
    True with the reply still pending in the client.  When the reply comes
    with a message-info record that has a room id, its callback re-enters
    [send] and the 'sendMessage' calls, one per part of the text, follow
    the resolution call and carry that room id.  [send] to a room, which
    has no [person], and [send] while the backend holds no meteor client
    raise an [AttributeError], call nothing and leave the backend as it
    was. *)
Theorem send_resolves_room_first sc text groupchat_nick_reply w :
  (forall u c,
     _meteor_client (self w) = Some c ->
     let identifier := ObjUser u in
     let resolve := ACall "createDirectMessage" [RocketChatUser.person u] in
     let reply := sc_call_reply sc "createDirectMessage" [RocketChatUser.person u] in
     let r := send sc identifier text None groupchat_nick_reply w in
     out r = Return (VBool true) /\
     log r = [resolve] /\
     _meteor_client (self (final r)) =
       Some (with_queue (mc_queue c ++ [Reply (Cb_query_user identifier text) reply]) c) /\
     (forall err msg_info rest room_id,
        reply = err :: msg_info :: rest ->
        py_getitem msg_info "rid" = inr room_id ->
        let r2 := run_callback sc (Cb_query_user identifier text) reply (final r) in
        out r2 = Return tt /\
        calls (log r ++ log r2) =
          ("createDirectMessage", [RocketChatUser.person u])
          :: map (send_message_call room_id) (split_string_after text))) /\
  (forall name c,
     _meteor_client (self w) = Some c ->
     let r := send sc (ObjRoom name) text None groupchat_nick_reply w in
     out r = Raise (AttributeError "person") /\ log r = [] /\ final r = w) /\
  (forall identifier,
     isinstance_Identifier identifier = true ->
     _meteor_client (self w) = None ->
     let r := send sc identifier text None groupchat_nick_reply w in
     out r = Raise (AttributeError "_meteor_client") /\ log r = [] /\ final r = w).
Proof.
  split; [|split].
  - intros u c Hc. apply (send_user_in_session sc u text groupchat_nick_reply w c Hc).
  - intros name c Hc. cbn zeta.
    by rewrite (send_room_in_session sc name text groupchat_nick_reply w c Hc).
  - intros identifier Hi Hc. cbn zeta.
    by rewrite (send_without_client sc identifier text groupchat_nick_reply w Hi Hc).
Qed.

End Resolution.

(** ** Reconnect disabled *)

Section Reconnect.
Context {platform : Platform}.

Lemma patch_log_counts w :
  count is_create_client (patch_log w) = 0 /\
  count is_shutdown (patch_log w) = 0 /\
  count is_log_error (patch_log w) = 0.
Proof. unfold patch_log. by destruct (_get_bool_config _ _ _ _). Qed.

(** C4.  With reconnect disabled, [serve_forever] makes one attempt: one
    meteor client is created in the whole run.  When that run of
    [serve_once] returns, [serve_forever] returns with no error logged;
    when it raises an [Exception], the error is logged once and
    [serve_forever] returns all the same; a [KeyboardInterrupt] ends it
    quietly and any other exception goes on to the caller.  In each of
    these exits [shutdown] has been called exactly once. *)
Theorem serve_forever_without_reconnect scs fuel attempts w :
  _get_bool_config (environ w) (_config_obj (self w))
    CONFIG_KEYS.RECONNECT_ENABLED (VBool true) = false ->
  let r := serve_forever scs fuel (S attempts) w in
  let r1 := serve_once (scs 0) fuel w in
  count is_create_client (log r) = 1 /\
  (out r1 = Return tt ->
   out r = Return tt /\ count is_log_error (log r) = 0 /\
   count is_shutdown (log r) = 1) /\
  (forall e, out r1 = Raise e -> is_Exception e = true ->
   out r = Return tt /\ count is_log_error (log r) = 1 /\
   count is_shutdown (log r) = 1) /\
  (forall e, out r1 = Raise e -> is_Exception e = false ->
   out r = (if is_KeyboardInterrupt e then Return tt else Raise e) /\
   count is_log_error (log r) = 0 /\ count is_shutdown (log r) = 1).
Proof.
  intros H. destruct (serve_forever_single scs fuel attempts w H) as [Ho Hl].
  cbv zeta in *. rewrite Ho, Hl. clear Ho Hl.
  destruct (serve_once_attempt (scs 0) fuel w) as (A1 & A2 & A3).
  destruct (patch_log_counts w) as (P1 & P2 & P3).
  change (?a :: patch_log w) with ([a] ++ patch_log w).
  rewrite !count_app, A1, A2, A3, P1, P2, P3.
  split; [|split; [|split]].
  - destruct (out (serve_once (scs 0) fuel w)) as [[]|e| |]; try done.
    cbn [serve_forever_tail]. destruct (is_Exception e); [done|].
    by destruct (is_KeyboardInterrupt e).
  - by intros ->.
  - intros e -> He. cbn [serve_forever_tail]. by rewrite He.
  - intros e -> He. cbn [serve_forever_tail]. rewrite He.
    by destruct (is_KeyboardInterrupt e).
Qed.

End Reconnect.

(** ** The patched change_data *)

Section ChangeData.

Lemma set_fields_lookup fields : forall item k,
  set_fields fields item !! k =
  match dict_get (rev fields) k with
  | Some v => Some v
  | None => item !! k
  end.
Proof.
  induction fields as [|[k0 v0] fields IH] using rev_ind; intros item k; [done|].
  unfold set_fields. rewrite foldl_app. cbn [foldl fst snd].
  rewrite rev_app_distr. cbn [rev app dict_get].
  destruct (String.eqb_spec k0 k) as [->|Hne].
  - by rewrite lookup_insert_eq.
  - rewrite lookup_insert_ne by done. apply IH.
Qed.

Lemma clear_fields_spec cleared : forall item,
  match clear_fields cleared item with
  | (None, item') =>
      NoDup cleared /\ Forall (fun k => is_Some (item !! k)) cleared /\
      forall k, item' !! k = if bool_decide (k ∈ cleared) then None else item !! k
  | (Some e, _) =>
      exists k, e = KeyError k /\ k ∈ cleared /\
        ~ (NoDup cleared /\ Forall (fun k => is_Some (item !! k)) cleared)
  end.
Proof.
  induction cleared as [|key rest IH]; intros item; cbn [clear_fields].
  - split; [constructor|]. split; [constructor|]. intros k.
    rewrite bool_decide_eq_false_2; [done|]. apply not_elem_of_nil.
  - destruct (item !! key) as [v|] eqn:Hk.
    + specialize (IH (delete key item)).
      destruct (clear_fields rest (delete key item)) as [[e|] item'].
      * destruct IH as (k & -> & Hin & Hno). exists k. split; [done|].
        split; [by apply list_elem_of_further|].
        intros [Hnd Hall]. apply Hno.
        apply NoDup_cons in Hnd as [Hnotin Hnd]. split; [done|].
        apply Forall_cons in Hall as [_ Hall].
        rewrite Forall_forall in Hall |- *. intros x Hx.
        rewrite lookup_delete_ne by (intros ->; done). by apply Hall.
      * destruct IH as (Hnd & Hall & Hlk).
        assert (Hnotin : key ∉ rest).
        { intros Hin. rewrite Forall_forall in Hall.
          destruct (Hall key Hin) as [x Hx]. by rewrite lookup_delete_eq in Hx. }
        split; [by apply NoDup_cons|]. split.
        -- apply Forall_cons. split; [by eexists|].
           rewrite Forall_forall in Hall |- *. intros x Hx.
           specialize (Hall x Hx).
           rewrite lookup_delete_ne in Hall by (intros ->; done). done.
        -- intros k. rewrite Hlk.
           destruct (decide (k = key)) as [->|Hne].
           ++ rewrite (bool_decide_eq_false_2 _ Hnotin), lookup_delete_eq.
              rewrite bool_decide_eq_true_2; [done|apply list_elem_of_here].
           ++ rewrite lookup_delete_ne by done.
              destruct (decide (k ∈ rest)) as [Hin|Hnin].
              ** rewrite !bool_decide_eq_true_2; [done| |done].
                 by apply list_elem_of_further.
              ** rewrite !bool_decide_eq_false_2; [done| |done].
                 intros [->|?]%elem_of_cons; done.
    + exists key. split; [done|]. split; [apply list_elem_of_here|].
      intros [_ Hall]. apply Forall_cons in Hall as [[x Hx] _]. congruence.
Qed.

Lemma change_data_unfold data collection id fields cleared :
  change_data data collection id fields cleared =
  let items := default ∅ (data !! collection) in
  let item := default ∅ (items !! id) in
  let res := clear_fields cleared (set_fields fields item) in
  (fst res, <[collection := <[id := snd res]> items]> data).
Proof.
  unfold change_data, get_item, set_item. cbn zeta.
  destruct (data !! collection) as [items|] eqn:Hc.
  - rewrite Hc. cbn [mbind option_bind default from_option Datatypes.id].
    destruct (items !! id) as [item|] eqn:Hi.
    + rewrite Hc. cbn [mbind option_bind default from_option Datatypes.id].
      rewrite Hi. cbn [default from_option Datatypes.id].
      destruct (clear_fields _ _). by rewrite ?Hc.
    + rewrite ?lookup_insert_eq. cbn [mbind option_bind default from_option Datatypes.id].
      rewrite ?lookup_insert_eq. cbn [default from_option Datatypes.id].
      destruct (clear_fields _ _). rewrite ?lookup_insert_eq.
      by rewrite ?insert_insert_eq.
  - rewrite ?lookup_insert_eq. cbn [mbind option_bind default from_option Datatypes.id].
    rewrite lookup_empty. rewrite ?lookup_insert_eq.
    cbn [mbind option_bind default from_option Datatypes.id].
    rewrite ?lookup_insert_eq. cbn [default from_option Datatypes.id].
    destruct (clear_fields _ _). rewrite ?lookup_insert_eq.
    by rewrite ?insert_insert_eq.
Qed.

Lemma get_item_set data collection id items item c' i' :
  get_item (<[collection := <[id := item]> items]> data) c' i' =
  if decide (c' = collection)
  then if decide (i' = id) then Some item else items !! i'
  else get_item data c' i'.
Proof.
  unfold get_item. destruct (decide (c' = collection)) as [->|Hc].
  - rewrite lookup_insert_eq. cbn. destruct (decide (i' = id)) as [->|Hi].
    + by rewrite lookup_insert_eq.
    + by rewrite lookup_insert_ne.
  - by rewrite lookup_insert_ne.
Qed.

(** X1.  The patched [change_data] raises exactly when a key of [cleared] is
    not in the item once the changed fields are set, or comes twice in
    [cleared]; a collection or an item that is not there yet is no error. *)
Theorem change_data_succeeds_iff data collection id fields cleared :
  let old := default ∅ (get_item data collection id) in
  fst (change_data data collection id fields cleared) = None <->
  NoDup cleared /\
  Forall (fun k => is_Some (dict_get (rev fields) k) \/ is_Some (old !! k)) cleared.
Proof.
  cbn zeta. rewrite change_data_unfold. cbn zeta. cbn [fst].
  unfold get_item.
  set (item := default ∅ (default ∅ (data !! collection) !! id)).
  assert (Hitem : default ∅ (data !! collection ≫= fun items => items !! id) = item).
  { unfold item. destruct (data !! collection); [done|]. cbn. by rewrite lookup_empty. }
  rewrite Hitem.
  assert (Hall : Forall (fun k => is_Some (set_fields fields item !! k)) cleared <->
                 Forall (fun k => is_Some (dict_get (rev fields) k) \/ is_Some (item !! k))
                        cleared).
  { apply Forall_iff. intros k. rewrite set_fields_lookup.
    destruct (dict_get (rev fields) k) as [v|].
    - split; [by left; eexists | by eexists].
    - split; [by right | intros [[? [=]]|?]; done]. }
  pose proof (clear_fields_spec cleared (set_fields fields item)) as H.
  destruct (clear_fields cleared (set_fields fields item)) as [[e|] item']; cbn [fst].
  - destruct H as (k & _ & _ & Hno). split; [done|].
    intros [Hnd Hf]. destruct Hno. split; [done|]. by apply Hall.
  - destruct H as (Hnd & Hf & _). split; [|done]. intros _. split; [done|].
    by apply Hall.
Qed.

(** X2.  When the patched [change_data] raises nothing, the item it leaves has
    no key of [cleared], has each other changed field at the value given
    to it last, and has its other fields as they were. *)
Theorem change_data_updates_item data collection id fields cleared data' :
  change_data data collection id fields cleared = (None, data') ->
  exists item,
    get_item data' collection id = Some item /\
    forall k,
      item !! k =
      if bool_decide (k ∈ cleared) then None
      else match dict_get (rev fields) k with
           | Some v => Some v
           | None => default ∅ (get_item data collection id) !! k
           end.
Proof.
  rewrite change_data_unfold. cbn zeta.
  set (item := default ∅ (default ∅ (data !! collection) !! id)).
  assert (Hitem : default ∅ (get_item data collection id) = item).
  { unfold item, get_item. destruct (data !! collection); [done|].
    cbn. by rewrite lookup_empty. }
  rewrite Hitem.
  pose proof (clear_fields_spec cleared (set_fields fields item)) as H.
  destruct (clear_fields cleared (set_fields fields item)) as [[e|] item'];
    cbn [fst snd]; intros [= <-].
  destruct H as (_ & _ & Hlk). exists item'. split.
  - rewrite get_item_set. by rewrite !decide_True.
  - intros k. rewrite Hlk. by rewrite set_fields_lookup.
Qed.

(** X3.  Whether it raises or not, the patched [change_data] touches no other
    item than the one it is called for. *)
Theorem change_data_keeps_other_items data collection id fields cleared c' i' :
  c' <> collection \/ i' <> id ->
  get_item (snd (change_data data collection id fields cleared)) c' i' =
  get_item data c' i'.
Proof.
  intros Hne. rewrite change_data_unfold. cbn zeta. cbn [snd].
  rewrite get_item_set. destruct (decide (c' = collection)) as [->|Hc]; [|done].
  destruct Hne as [?|Hi]; [done|]. rewrite decide_False by done.
  unfold get_item. destruct (data !! collection); [done|]. cbn. by rewrite lookup_empty.
Qed.

(** X4.  A change that clears nothing can be applied twice: the second time
    leaves the store as the first did. *)
Theorem change_data_idempotent data collection id fields :
  let once := change_data data collection id fields [] in
  change_data (snd once) collection id fields [] = once.
Proof.
  cbn zeta. rewrite !change_data_unfold. cbn zeta. cbn [clear_fields fst snd].
  rewrite lookup_insert_eq. cbn [default from_option Datatypes.id].
  rewrite lookup_insert_eq. cbn [default from_option Datatypes.id].
  rewrite !insert_insert_eq. f_equal. f_equal. f_equal.
  apply map_eq. intros k. rewrite !set_fields_lookup.
  by destruct (dict_get (rev fields) k).
Qed.

End ChangeData.

(** ** Replies and cards *)

Section Sending.
Context {platform : Platform}.
Variable sc : scenario.

Lemma send_rocketchat_message_run params w c :
  _meteor_client (self w) = Some c ->
  send_rocketchat_message sc params w =
  mkRun (Return tt) w
    [ACall "sendMessage" (match params with VList l => l | _ => [params] end)].
Proof.
  intros Hc. unfold send_rocketchat_message, mc_call.
  rewrite (bind_run _ _ _ _ _ _ (the_client_run w c Hc)). reflexivity.
Qed.

Lemma send_rocketchat_message_no_client params w :
  _meteor_client (self w) = None ->
  send_rocketchat_message sc params w =
  mkRun (Raise (AttributeError "_meteor_client")) w [].
Proof.
  intros Hc. unfold send_rocketchat_message, mc_call.
  by rewrite (bind_stop _ _ _ _ _ _ (the_client_none w Hc)).
Qed.

(** X5.  [send] with a reply context resolves nothing: it returns None, leaves
    the backend as it was, and makes one 'sendMessage' call per part of
    the text, in order, each to the room of the message replied to. *)
Theorem send_in_reply_goes_to_its_room identifier text in_reply_to
    groupchat_nick_reply w c msg_info room_id :
  isinstance_Identifier identifier = true ->
  _meteor_client (self w) = Some c ->
  extras_get (extras in_reply_to) "msg_info" = Some (inl msg_info) ->
  py_getitem msg_info "rid" = inr room_id ->
  let r := send sc identifier text (Some in_reply_to) groupchat_nick_reply w in
  out r = Return VNone /\ final r = w /\
  calls (log r) = map (send_message_call room_id) (split_string_after text).
Proof.
  intros Hid Hc Hi Hr. cbn zeta. unfold send. rewrite Hid. cbn [negb].
  rewrite (bind_run _ _ _ _ _ _ (get_self_run w)).
  assert (Hprefix :
    (if isinstance_Room identifier
     then if py_truthy (GROUPCHAT_NICK_PREFIXED (bot_config (self w))) ||
             groupchat_nick_reply
          then prefix_groupchat_reply
                 (mkMessage (VStr text) (to in_reply_to) identifier
                    [("orig_msg", inr in_reply_to)]) (frm in_reply_to)
          else ret tt
     else ret tt) w = mkRun (Return tt) w []).
  { destruct (isinstance_Room identifier); [|done].
    by destruct (py_truthy _ || _). }
  rewrite (bind_run _ _ _ _ _ _ Hprefix).
  unfold split_and_send_message. cbn [body to frm extras].
  destruct (split_and_send_run sc w c (to in_reply_to) identifier in_reply_to
              msg_info room_id (split_string_after text) Hc Hi Hr)
    as (Ho & Hf & Hcalls).
  rewrite bind_unfold, Ho. cbn [out final log ret app].
  rewrite Hf. rewrite !app_nil_r. cbn [app]. done.
Qed.

(** X6.  [send_message] hands the message to the framework first and then
    looks for the room: a message with no original message, an original
    message with no message-info record, or a record with no room id make
    it raise after that, with no call on the meteor client. *)
Theorem send_message_without_room mess w :
  let r := send_message sc mess w in
  (extras_get (extras mess) "orig_msg" = None ->
   out r = Raise (KeyError "orig_msg") /\ final r = w /\
   log r = [ASuperSendMessage mess]) /\
  (forall orig_msg,
     extras_get (extras mess) "orig_msg" = Some (inr orig_msg) ->
     extras_get (extras orig_msg) "msg_info" = None ->
     out r = Raise (KeyError "msg_info") /\ final r = w /\
     log r = [ASuperSendMessage mess]) /\
  (forall orig_msg msg_info e,
     extras_get (extras mess) "orig_msg" = Some (inr orig_msg) ->
     extras_get (extras orig_msg) "msg_info" = Some (inl msg_info) ->
     py_getitem msg_info "rid" = inl e ->
     out r = Raise e /\ final r = w /\ log r = [ASuperSendMessage mess]).
Proof.
  cbn zeta. unfold send_message.
  rewrite (bind_run _ _ _ _ _ _ (tell_run _ w)). cbn [out final log].
  split; [|split].
  - intros ->. done.
  - intros orig_msg -> H.
    rewrite (bind_run _ _ _ _ _ _ (ret_run orig_msg w)). by rewrite H.
  - intros orig_msg msg_info e -> H He.
    rewrite (bind_run _ _ _ _ _ _ (ret_run orig_msg w)). rewrite H.
    rewrite (bind_run _ _ _ _ _ _ (ret_run msg_info w)). by rewrite He.
Qed.

(** X7.  A reply built by [build_reply] to a message relayed from the stream
    is addressed to the sender of that message, comes from the bot, and
    [send_message] sends it to the room the message came from. *)
Theorem reply_returns_to_the_room rec msg name text w c room_id :
  _meteor_client (self w) = Some c ->
  py_getitem rec "rid" = inr room_id ->
  let mess := inbound_message (self w) rec msg name in
  let reply := build_reply mess text false false in
  to reply = ObjUser (build_identifier name) /\
  frm reply = ObjUser (bot_identifier (self w)) /\
  body reply = text /\
  send_message sc reply w =
  mkRun (Return tt) w
    [ASuperSendMessage reply;
     ACall "sendMessage" [VDict [("rid", room_id); ("msg", text)]]].
Proof.
  intros Hc Hr. cbn zeta. split; [done|]. split; [done|]. split; [done|].
  unfold send_message, build_reply, inbound_message.
  rewrite (bind_run _ _ _ _ _ _ (tell_run _ w)).
  cbn [extras extras_get String.eqb Ascii.eqb Bool.eqb].
  rewrite (bind_run _ _ _ _ _ _ (ret_run _ w)).
  cbn [extras extras_get String.eqb Ascii.eqb Bool.eqb].
  rewrite (bind_run _ _ _ _ _ _ (ret_run rec w)). rewrite Hr.
  cbv beta. cbn [lift_exn].
  rewrite (bind_run _ _ _ _ _ _ (ret_run room_id w)).
  cbv beta. cbn [body]. by rewrite (send_rocketchat_message_run _ w c Hc).
Qed.

Lemma attachment_entry_get key value k :
  dict_get (attachment_entry key value) k =
  if String.eqb key k && py_truthy value then Some value else None.
Proof.
  unfold attachment_entry. destruct (py_truthy value); cbn.
  - destruct (String.eqb key k); done.
  - by rewrite andb_false_r.
Qed.

Lemma dict_get_app d1 d2 k :
  dict_get (d1 ++ d2) k =
  match dict_get d1 k with Some v => Some v | None => dict_get d2 k end.
Proof.
  induction d1 as [|[k0 v0] d1 IH]; [done|]. cbn.
  by destruct (String.eqb k0 k).
Qed.

(** X8.  [send_card] makes one 'sendMessage' call, to the room of the card's
    parent message, with the card's body and a single attachment; the
    attachment has an entry for each attribute of the card that is set,
    under the name Rocket.Chat gives it, and none for the others; its
    'fields' are there only when the card has fields, one per field and in
    their order. *)
Theorem send_card_attachment card parent msg_info room_id w c :
  _meteor_client (self w) = Some c ->
  card_parent card = Some parent ->
  extras_get (extras parent) "msg_info" = Some (inl msg_info) ->
  py_getitem msg_info "rid" = inr room_id ->
  let r := send_card sc card w in
  exists attachment,
    out r = Return tt /\ final r = w /\
    calls (log r) =
      [("sendMessage",
        [VDict [("rid", room_id); ("msg", card_body card);
                ("attachments", VList [VDict attachment])]])] /\
    dict_get attachment "color" = truthy_or_none (card_color card) /\
    dict_get attachment "title" = truthy_or_none (card_title card) /\
    dict_get attachment "title_link" = truthy_or_none (card_link card) /\
    dict_get attachment "text" = truthy_or_none (card_summary card) /\
    dict_get attachment "image_url" = truthy_or_none (card_image card) /\
    dict_get attachment "thumb_url" = truthy_or_none (card_thumbnail card) /\
    dict_get attachment "fields" =
      match card_fields card with
      | [] => None
      | fields =>
          Some (VList (map (fun f => VDict [("title", fst f); ("value", snd f)]) fields))
      end /\
    (forall k, k ∉ ["color"; "title"; "title_link"; "text"; "image_url";
                    "thumb_url"; "fields"] -> dict_get attachment k = None).
Proof.
  intros Hc Hp Hi Hr. cbn zeta. exists (card_attachment card).
  unfold send_card. rewrite Hp.
  rewrite (bind_run _ _ _ _ _ _ (ret_run parent w)). rewrite Hi.
  rewrite (bind_run _ _ _ _ _ _ (ret_run msg_info w)). rewrite Hr.
  cbv beta. cbn [lift_exn].
  rewrite (bind_run _ _ _ _ _ _ (ret_run room_id w)).
  cbv beta. rewrite (send_rocketchat_message_run _ w c Hc). cbn [out final log app calls].
  split; [done|]. split; [done|]. split; [done|].
  unfold card_attachment, truthy_or_none.
  repeat split;
    try (rewrite !dict_get_app, !attachment_entry_get; cbn;
         repeat match goal with |- context [py_truthy ?v] => destruct (py_truthy v) end;
         by destruct (card_fields card)).
  intros k Hk. rewrite !not_elem_of_cons in Hk.
  destruct Hk as (H1 & H2 & H3 & H4 & H5 & H6 & H7 & _).
  rewrite !dict_get_app, !attachment_entry_get.
  rewrite (proj2 (String.eqb_neq _ _)) by done.
  rewrite (proj2 (String.eqb_neq "title" _)) by done.
  rewrite (proj2 (String.eqb_neq "title_link" _)) by done.
  rewrite (proj2 (String.eqb_neq "text" _)) by done.
  rewrite (proj2 (String.eqb_neq "image_url" _)) by done.
  rewrite (proj2 (String.eqb_neq "thumb_url" _)) by done.
  cbn [andb]. destruct (card_fields card); [done|].
  cbn [length Nat.ltb Nat.leb dict_get].
  by rewrite (proj2 (String.eqb_neq "fields" _)) by done.
Qed.

End Sending.

(** ** The backend after a session *)

Section PostState.
Context {platform : Platform}.

Lemma stable_same_idle b0 :
  stable (fun b => has_client b /\ idle b = idle b0).
Proof.
  split.
  - intros e v b [[c Hc] Hi]. split; [exists c; by destruct e|].
    rewrite <- Hi. by destruct e.
  - intros c b [_ Hi]. split; [by exists c|]. by rewrite <- Hi.
Qed.

Lemma serve_once_finally_final w :
  has_client (self w) ->
  out (serve_once_finally w) = Return tt /\
  self (final (serve_once_finally w)) = idle (self w).
Proof.
  intros [c Hc]. destruct w as [env b]. destruct b. cbn in Hc. subst.
  split; reflexivity.
Qed.

Lemma serve_once_session_final sc fuel w :
  has_client (self w) ->
  let r := serve_once_session sc fuel w in
  (out r = Return tt \/ exists e, out r = Raise e) ->
  self (final r) = idle (self w).
Proof.
  intros Hc. cbn zeta. unfold serve_once_session.
  rewrite (bind_run _ _ _ _ _ _ (get_bool_config_run _ _ w)).
  cbn [out log final app].
  generalize (_get_bool_config (environ w) (_config_obj (self w))
                CONFIG_KEYS.HEARTBEAT_ENABLED VNone). intros hb.
  destruct (serve_once_session_respects sc _ (stable_same_idle (self w)) fuel hb w
              (conj Hc eq_refl)) as [[Hc' Hi] _].
  rewrite bind_unfold, try_finally_unfold.
  generalize dependent (try_except is_Exception (serve_once_wait sc fuel hb)
            (serve_once_on_error sc fuel) w). intros rb Hc' Hi.
  destruct (serve_once_finally_final (final rb) Hc') as [Ho Hf].
  destruct rb as [o wf l]. cbn [out final log] in *.
  destruct o as [[]|e| |]; cbn [out final log cast_outcome];
    rewrite ?Ho; cbn [out final log cast_outcome].
  - intros _. rewrite log_debug_run. cbn [final]. by rewrite Hf.
  - intros _. by rewrite Hf.
  - intros [H | [e H]]; discriminate H.
  - intros [H | [e H]]; discriminate H.
Qed.

(** X9.  Whenever [serve_once] returns or raises after its connection got
    started, and when [connect] itself raises an [Exception], it leaves
    the backend as it found it but for this: no meteor client, and both
    events cleared.  An interrupt out of [connect] that is no [Exception]
    skips the handler: the client just created stays in place, its
    callbacks hooked. *)
Theorem serve_once_leaves_backend_idle sc fuel w :
  let r := serve_once sc fuel w in
  (sc_connect_error sc = None ->
   (out r = Return tt \/ exists e, out r = Raise e) ->
   self (final r) = idle (self w)) /\
  (forall e, sc_connect_error sc = Some e -> is_Exception e = true ->
   self (final r) = idle (self w)) /\
  (forall e, sc_connect_error sc = Some e -> is_Exception e = false ->
   out r = Raise e /\
   _meteor_client (self (final r)) = Some (fresh_client (_server_uri (self w)))).
Proof.
  cbn zeta. split; [|split].
  - intros H. rewrite (serve_once_connected sc fuel w H). cbn [out final log].
    intros Hout.
    assert (Hc : has_client (self (connected_world w))) by (by eexists).
    rewrite (serve_once_session_final sc fuel (connected_world w) Hc Hout).
    by destruct w as [env []].
  - intros e H He. unfold serve_once.
    rewrite (bind_run _ _ _ _ _ _ (serve_once_begin_run w)).
    rewrite bind_unfold, (connect_failed_step sc w e H He).
    by destruct w as [env []].
  - intros e H He. unfold serve_once.
    rewrite (bind_run _ _ _ _ _ _ (serve_once_begin_run w)).
    rewrite bind_unfold, (connect_interrupted_step sc w e H He). done.
Qed.

End PostState.

(** ** Sessions that do not get established *)

Section Failing.
Context {platform : Platform}.

Lemma wait_session_fails sc fuel w :
  session_fails sc = true -> 4 <= fuel ->
  exists l,
    event_wait sc fuel SubscribingDone None false (connected_world w) =
    mkRun (Return tt)
      (session_world w (closed_client (_server_uri (self w)) 0 0) true true) l /\
    count is_online l = 0 /\ count is_connect_callback l = 0 /\
    count is_heartbeat l = 0 /\ count is_offline l = 0.
Proof.
  intros Hf Hfuel.
  assert (H4 : exists l,
    event_wait sc 4 SubscribingDone None false (connected_world w) =
    mkRun (Return tt)
      (session_world w (closed_client (_server_uri (self w)) 0 0) true true) l /\
    count is_online l = 0 /\ count is_connect_callback l = 0 /\
    count is_heartbeat l = 0 /\ count is_offline l = 0).
  { clear Hfuel. destruct sc as [ce lg sb isb dp he cl ic ci cr].
    unfold session_fails in Hf. cbn in Hf.
    destruct lg as [[[] info]|]; try destruct sb as [[]|]; try discriminate Hf;
      (eexists; split; [vm_compute; reflexivity|repeat split; reflexivity]). }
  destruct H4 as (l & E & Hl). exists l. split; [|done].
  replace fuel with (4 + (fuel - 4)) by lia.
  rewrite event_wait_more_fuel; [done|]. by rewrite E.
Qed.

Lemma serve_once_finally_quiet w :
  has_client (self w) ->
  let r := serve_once_finally w in
  out r = Return tt /\
  count is_online (log r) = 0 /\ count is_connect_callback (log r) = 0 /\
  count is_heartbeat (log r) = 0 /\ count is_close (log r) = 0 /\
  count is_offline (log r) = 1.
Proof.
  intros [c Hc]. destruct w as [env b]. destruct b. cbn in Hc. subst.
  cbn. repeat split; reflexivity.
Qed.

(** X10.  A session that does not get established is no error of [serve_once]:
    with the heartbeat off it returns, having announced the bot neither
    connected nor online, and it announces it offline all the same. *)
Theorem failed_session_ends_quietly sc fuel w :
  sc_connect_error sc = None ->
  session_fails sc = true ->
  sc_interrupt_subscribing sc = None -> sc_interrupt_closed sc = None ->
  _get_bool_config (environ w) (_config_obj (self w))
    CONFIG_KEYS.HEARTBEAT_ENABLED VNone = false ->
  4 <= fuel ->
  let r := serve_once sc fuel w in
  out r = Return tt /\
  count is_online (log r) = 0 /\ count is_connect_callback (log r) = 0 /\
  count is_offline (log r) = 1.
Proof.
  intros Hc Hf Hi Hic Hhb Hfuel. cbn zeta.
  destruct (wait_session_fails sc fuel w Hf Hfuel) as (l0 & E0 & N1 & N2 & _ & N4).
  assert (E1 : serve_once_wait sc fuel false (connected_world w) =
    mkRun (Return tt)
      (session_world w (closed_client (_server_uri (self w)) 0 0) true true)
      (l0 ++ [AEventWaited MeteorClosed])).
  { unfold serve_once_wait. rewrite Hi, Hic.
    rewrite (bind_run _ _ _ _ _ _ E0). cbv beta.
    rewrite (bind_run _ _ _ _ _ _ (ret_run tt _)). cbv beta.
    rewrite wait_closed. reflexivity. }
  destruct (serve_once_finally_quiet
              (session_world w (closed_client (_server_uri (self w)) 0 0) true true))
    as (Fo & F1 & F2 & _ & _ & F5); [by eexists|]. cbn zeta in Fo, F1, F2, F5.
  rewrite (serve_once_connected sc fuel w Hc). cbv zeta. cbn [out log].
  unfold serve_once_session.
  rewrite (bind_run _ _ _ _ _ _ (get_bool_config_run _ _ _)).
  cbn [environ self connected_world session_world _config_obj]. rewrite Hhb.
  pose proof (try_except_pass is_Exception _ (serve_once_on_error sc fuel) _ _ _ _ E1
                ltac:(done)) as E3.
  pose proof (try_finally_exit _ serve_once_finally _ _ _ _ E3
                ltac:(done) ltac:(done)) as E4.
  rewrite Fo in E4. cbn [cast_outcome] in E4.
  cbv beta. rewrite (bind_run _ _ _ _ _ _ E4). cbn [out final log app].
  split; [reflexivity|].
  rewrite !count_app. cbn [begin_log].
  change (AConnect :: ?l) with ([AConnect] ++ l).
  rewrite log_debug_run. cbn [log].
  rewrite !count_app, N1, N2, N4, F1, F2, F5. done.
Qed.

End Failing.

(** ** Errors of the heartbeat *)

Section HeartbeatErrors.
Context {platform : Platform}.
Variable sc : scenario.

Lemma wait_established fuel w info :
  sc_login sc = Some (VNone, info) -> sc_subscribe sc = Some VNone -> 4 <= fuel ->
  exists l,
    event_wait sc fuel SubscribingDone None false (connected_world w) =
    mkRun (Return tt)
      (session_world w (live_client (_server_uri (self w)) 0 0) true false) l /\
    count is_heartbeat l = 0 /\ count is_sleep l = 0 /\ count is_close l = 0 /\
    count is_online l = 1 /\ count is_connect_callback l = 1.
Proof.
  intros Hl Hs Hf.
  assert (H4 : exists l,
    event_wait sc 4 SubscribingDone None false (connected_world w) =
    mkRun (Return tt)
      (session_world w (live_client (_server_uri (self w)) 0 0) true false) l /\
    count is_heartbeat l = 0 /\ count is_sleep l = 0 /\ count is_close l = 0 /\
    count is_online l = 1 /\ count is_connect_callback l = 1).
  { clear Hf. destruct sc as [ce lg sb isb dp he cl ic ci cr]. cbn in Hl, Hs. subst.
    eexists. split; [vm_compute; reflexivity|repeat split; reflexivity]. }
  destruct H4 as (l & E & Hc). exists l. split; [|done].
  replace fuel with (4 + (fuel - 4)) by lia.
  rewrite event_wait_more_fuel; [done|]. by rewrite E.
Qed.

Lemma session_world_eta w c s cl :
  {| environ := environ (session_world w c s cl);
     self := self (session_world w c s cl) |} = session_world w c s cl.
Proof. reflexivity. Qed.

(** The handler of the second [try], reached in a live session. *)
Lemma serve_once_on_error_live fuel e w uri p b :
  serve_once_on_error sc (S fuel) e (session_world w (live_client uri p b) true false) =
  mkRun (Raise e) (session_world w (closed_client uri p b) true true)
    [AClose; ALogDebug "# ----- _meteor_closed_callback -----";
     AEventSet SubscribingDone; AEventSet MeteorClosed; AEventWaited MeteorClosed].
Proof.
  unfold serve_once_on_error.
  assert (H1 : mc_close sc (session_world w (live_client uri p b) true false) =
            mkRun (Return tt)
              (session_world w
                 (with_queue [Emit "closed" [fst (sc_close_info sc); snd (sc_close_info sc)]]
                    (closed_client uri p b)) true false) [AClose]) by reflexivity.
  rewrite (bind_run _ _ _ _ _ _ H1). cbv beta.
  assert (H2 : event_wait sc (S fuel) MeteorClosed None false
            (session_world w
               (with_queue [Emit "closed" [fst (sc_close_info sc); snd (sc_close_info sc)]]
                  (closed_client uri p b)) true false) =
          mkRun (Return tt) (session_world w (closed_client uri p b) true true)
            [ALogDebug "# ----- _meteor_closed_callback -----";
             AEventSet SubscribingDone; AEventSet MeteorClosed;
             AEventWaited MeteorClosed]).
  { unfold event_wait.
    assert (H3 : run_transport sc (S fuel)
              (session_world w
                 (with_queue [Emit "closed" [fst (sc_close_info sc); snd (sc_close_info sc)]]
                    (closed_client uri p b)) true false) =
            mkRun (Return tt) (session_world w (closed_client uri p b) true true)
              [ALogDebug "# ----- _meteor_closed_callback -----";
               AEventSet SubscribingDone; AEventSet MeteorClosed]).
    { rewrite run_transport_unfold.
      rewrite (bind_run _ _ _ _ _ _ (get_self_run _)).
      cbn [self session_world _meteor_client mc_queue with_queue].
      erewrite bind_run; [|apply modify_client_session].
      assert (H4 : in_transport_thread
                (deliver sc (Emit "closed" [fst (sc_close_info sc); snd (sc_close_info sc)]))
                (session_world w (closed_client uri p b) true false) =
              mkRun (Return tt) (session_world w (closed_client uri p b) true true)
                [ALogDebug "# ----- _meteor_closed_callback -----";
                 AEventSet SubscribingDone; AEventSet MeteorClosed]) by reflexivity.
      etransitivity; [apply (bind_run _ _ _ _ _ _ H4)|].
      cbv beta. erewrite run_transport_idle_session by reflexivity. reflexivity. }
    rewrite (bind_run _ _ _ _ _ _ H3). reflexivity. }
  rewrite (bind_run _ _ _ _ _ _ H2). reflexivity.
Qed.

Lemma serve_once_finally_counts w :
  has_client (self w) ->
  let r := serve_once_finally w in
  out r = Return tt /\
  count is_heartbeat (log r) = 0 /\ count is_sleep (log r) = 0 /\
  count is_close (log r) = 0.
Proof.
  intros [c Hc]. destruct w as [env b]. destruct b. cbn in Hc. subst.
  cbn. repeat split; reflexivity.
Qed.

(** What is left of [serve_once] once the body of its second [try] has
    raised an [Exception] in a live session: the handler closes the
    client and waits for it, the cleanup runs, the exception goes on. *)
Lemma serve_once_body_raises fuel w e l hb p b :
  sc_connect_error sc = None ->
  _get_bool_config (environ w) (_config_obj (self w))
    CONFIG_KEYS.HEARTBEAT_ENABLED VNone = hb ->
  serve_once_wait sc (S fuel) hb (connected_world w) =
    mkRun (Raise e) (session_world w (live_client (_server_uri (self w)) p b) true false) l ->
  is_Exception e = true ->
  let r := serve_once sc (S fuel) w in
  out r = Raise e /\
  count is_heartbeat (log r) = count is_heartbeat l /\
  count is_sleep (log r) = count is_sleep l /\
  count is_close (log r) = count is_close l + 1.
Proof.
  intros Hc Hhb E1 He. cbn zeta.
  destruct (serve_once_finally_counts
              (session_world w (closed_client (_server_uri (self w)) p b) true true))
    as (Fo & F1 & F2 & F3); [by eexists|]. cbn zeta in Fo, F1, F2, F3.
  rewrite (serve_once_connected sc (S fuel) w Hc). cbv zeta. cbn [out log].
  unfold serve_once_session.
  rewrite (bind_run _ _ _ _ _ _ (get_bool_config_run _ _ _)).
  cbn [environ self connected_world session_world _config_obj]. rewrite Hhb.
  pose proof (try_except_caught is_Exception _ (serve_once_on_error sc (S fuel)) _ _ _ _
                E1 He) as E3.
  rewrite serve_once_on_error_live in E3. cbn [out final log] in E3.
  pose proof (try_finally_exit _ serve_once_finally _ _ _ _ E3
                ltac:(done) ltac:(done)) as E4.
  rewrite Fo in E4. cbn [cast_outcome] in E4.
  cbv beta. rewrite (bind_stop _ _ _ _ _ _ E4) by done. cbn [out final log cast_outcome].
  split; [reflexivity|].
  change (AConnect :: ?l) with ([AConnect] ++ l).
  rewrite !count_app, F1, F2, F3. cbn [begin_log]. cbn. lia.
Qed.

(** X11.  With the heartbeat enabled and no callable heartbeat function, or an
    interval that [float] refuses, an established session ends at once:
    the heartbeat is never called, the client is closed once, and
    [serve_once] raises the [AssertionError], or [float]'s error, after
    its cleanup. *)
Theorem heartbeat_misconfigured fuel w info :
  sc_connect_error sc = None ->
  sc_login sc = Some (VNone, info) -> sc_subscribe sc = Some VNone ->
  sc_interrupt_subscribing sc = None ->
  _get_bool_config (environ w) (_config_obj (self w))
    CONFIG_KEYS.HEARTBEAT_ENABLED VNone = true ->
  4 <= fuel ->
  let func := _get_config (environ w) (_config_obj (self w))
                CONFIG_KEYS.HEARTBEAT_FUNC VNone in
  let interval := _get_config (environ w) (_config_obj (self w))
                    CONFIG_KEYS.HEARTBEAT_INTERVAL (VInt 10) in
  let r := serve_once sc fuel w in
  (callable func = false ->
   out r = Raise (AssertionError (py_repr func)) /\
   count is_heartbeat (log r) = 0 /\ count is_close (log r) = 1) /\
  (forall e, callable func = true -> py_float interval = inl e ->
   is_Exception e = true ->
   out r = Raise e /\
   count is_heartbeat (log r) = 0 /\ count is_close (log r) = 1).
Proof.
  intros Hc Hl Hs Hi Hhb Hfuel. cbn zeta.
  destruct (wait_established fuel w info Hl Hs Hfuel) as (l0 & E0 & C0 & Z0 & K0 & _).
  destruct fuel as [|fuel]; [lia|].
  split.
  - intros Hcall.
    assert (E1 : serve_once_wait sc (S fuel) true (connected_world w) =
      mkRun (Raise (AssertionError (py_repr
               (_get_config (environ w) (_config_obj (self w))
                  CONFIG_KEYS.HEARTBEAT_FUNC VNone))))
        (session_world w (live_client (_server_uri (self w)) 0 0) true false) l0).
    { unfold serve_once_wait. rewrite Hi.
      rewrite (bind_run _ _ _ _ _ _ E0). cbv beta.
      rewrite bind_unfold.
      erewrite bind_run; [|apply get_config_run].
      cbn [environ self session_world _config_obj]. rewrite Hcall.
      cbn [out final log cast_outcome]. by rewrite !app_nil_r. }
    destruct (serve_once_body_raises fuel w _ l0 true 0 0 Hc Hhb E1 eq_refl)
      as (Ho & H1 & _ & H3).
    by rewrite Ho, H1, H3, C0, K0.
  - intros e Hcall Hfl He.
    assert (E1 : serve_once_wait sc (S fuel) true (connected_world w) =
      mkRun (Raise e)
        (session_world w (live_client (_server_uri (self w)) 0 0) true false) l0).
    { unfold serve_once_wait. rewrite Hi.
      rewrite (bind_run _ _ _ _ _ _ E0). cbv beta.
      rewrite bind_unfold.
      erewrite bind_run; [|apply get_config_run].
      cbn [environ self session_world _config_obj]. rewrite Hcall.
      cbv beta. erewrite bind_run; [|apply ret_run].
      cbv beta. erewrite bind_run; [|apply get_config_run].
      cbn [environ self session_world _config_obj]. rewrite Hfl.
      cbn [out final log cast_outcome]. by rewrite !app_nil_r. }
    destruct (serve_once_body_raises fuel w _ l0 true 0 0 Hc Hhb E1 He)
      as (Ho & H1 & _ & H3).
    by rewrite Ho, H1, H3, C0, K0.
Qed.

Lemma call_heartbeat_raises f w uri p b s cl e :
  sc_heartbeat_error sc b = Some e ->
  call_heartbeat sc f (session_world w (live_client uri p b) s cl) =
  mkRun (Raise e) (session_world w (live_client uri p (S b)) s cl) [AHeartbeat f].
Proof.
  intros He. unfold call_heartbeat.
  erewrite bind_run; [|apply the_client_session].
  cbv beta. erewrite bind_run; [|apply tell_run].
  cbv beta. erewrite bind_run; [|apply modify_client_session].
  cbn [mc_beats live_client]. rewrite He. reflexivity.
Qed.

Lemma heartbeat_loop_raises f t w uri fuel j e : forall d p n,
  p + d = j -> d < n ->
  (forall i, i <= j -> sc_drop_at_poll sc i = false) ->
  (forall i, i < j -> sc_heartbeat_error sc i = None) ->
  sc_heartbeat_error sc j = Some e ->
  time_sleep_error t = None ->
  exists l,
    heartbeat_loop sc n (S fuel) f t (session_world w (live_client uri p p) true false) =
    mkRun (Raise e) (session_world w (live_client uri (S j) (S j)) true false) l /\
    count is_heartbeat l = S d /\ count is_sleep l = d /\ count is_close l = 0.
Proof.
  induction d as [|d IH]; intros p n Hp Hn Hdrop Herr He Ht;
    destruct n as [|n]; try lia; cbn [heartbeat_loop].
  - assert (p = j) as -> by lia.
    rewrite (bind_run _ _ _ _ _ _
      (read_connected_live sc (S fuel) w uri j j true false (Hdrop j ltac:(lia)))).
    cbv beta. rewrite bind_unfold.
    rewrite (call_heartbeat_raises f w uri (S j) j true false e He).
    eexists. split; [reflexivity|]. done.
  - rewrite (bind_run _ _ _ _ _ _
      (read_connected_live sc (S fuel) w uri p p true false (Hdrop p ltac:(lia)))).
    rewrite (bind_run _ _ _ _ _ _
      (call_heartbeat_live sc f w uri (S p) p true false (Herr p ltac:(lia)))).
    rewrite (bind_run _ _ _ _ _ _ (time_sleep_run t _ Ht)).
    destruct (IH (S p) n ltac:(lia) ltac:(lia) Hdrop Herr He Ht) as (l & -> & H1 & H2 & H3).
    eexists. split; [reflexivity|]. cbn [out final log app].
    change (?a :: ?b :: ?c :: l) with ([a; b; c] ++ l).
    rewrite !count_app, H1, H2, H3. done.
Qed.

(** X12.  When the heartbeat function raises an [Exception] at its call number
    [j] (from 0), in a session that is still connected, [serve_once]
    closes the client, cleans up and raises that exception: the function
    has been called [j + 1] times and the loop has slept [j] times. *)
Theorem heartbeat_error_ends_session fuel w info j t e :
  sc_connect_error sc = None ->
  sc_login sc = Some (VNone, info) -> sc_subscribe sc = Some VNone ->
  sc_interrupt_subscribing sc = None ->
  (forall i, i <= j -> sc_drop_at_poll sc i = false) ->
  (forall i, i < j -> sc_heartbeat_error sc i = None) ->
  sc_heartbeat_error sc j = Some e -> is_Exception e = true ->
  _get_bool_config (environ w) (_config_obj (self w))
    CONFIG_KEYS.HEARTBEAT_ENABLED VNone = true ->
  callable (_get_config (environ w) (_config_obj (self w))
              CONFIG_KEYS.HEARTBEAT_FUNC VNone) = true ->
  py_float (_get_config (environ w) (_config_obj (self w))
              CONFIG_KEYS.HEARTBEAT_INTERVAL (VInt 10)) = inr t ->
  time_sleep_error t = None ->
  4 + j <= fuel ->
  let r := serve_once sc fuel w in
  out r = Raise e /\
  count is_heartbeat (log r) = S j /\ count is_sleep (log r) = j /\
  count is_close (log r) = 1.
Proof.
  intros Hc Hl Hs Hi Hdrop Herr He Hex Hhb Hcall Hfl Ht Hfuel. cbn zeta.
  destruct (wait_established fuel w info Hl Hs ltac:(lia)) as (l0 & E0 & C0 & Z0 & K0 & _).
  destruct fuel as [|fuel]; [lia|].
  destruct (heartbeat_loop_raises
              (_get_config (environ w) (_config_obj (self w)) CONFIG_KEYS.HEARTBEAT_FUNC VNone)
              t w (_server_uri (self w)) fuel j e j 0 (S fuel)
              ltac:(lia) ltac:(lia) Hdrop Herr He Ht) as (l1 & E1 & B1 & Z1 & K1).
  assert (E2 : serve_once_wait sc (S fuel) true (connected_world w) =
    mkRun (Raise e)
      (session_world w (live_client (_server_uri (self w)) (S j) (S j)) true false)
      (l0 ++ l1)).
  { unfold serve_once_wait. rewrite Hi.
    rewrite (bind_run _ _ _ _ _ _ E0). cbv beta.
    rewrite bind_unfold.
    erewrite bind_run; [|apply get_config_run].
    cbn [environ self session_world _config_obj]. rewrite Hcall.
    cbv beta. erewrite bind_run; [|apply ret_run].
    cbv beta. erewrite bind_run; [|apply get_config_run].
    cbn [environ self session_world _config_obj]. rewrite Hfl.
    cbv beta. erewrite bind_run; [|reflexivity].
    cbv beta. rewrite E1. cbn [out final log cast_outcome app]. reflexivity. }
  destruct (serve_once_body_raises fuel w _ _ true (S j) (S j) Hc Hhb E2 Hex)
    as (Ho & H1 & H2 & H3).
  rewrite Ho, H1, H2, H3, !count_app, C0, Z0, K0, B1, Z1, K1. done.
Qed.

End HeartbeatErrors.

(** ** Reconnecting *)

Section Reconnecting.
Context {platform : Platform}.

Lemma serve_once_connect_fails sc fuel w e :
  sc_connect_error sc = Some e -> is_Exception e = true ->
  exists w' l,
    serve_once sc fuel w = mkRun (Raise e) w' l /\
    count is_create_client l = 1 /\ count is_log_error l = 0 /\
    count is_delay_reconnect l = 0 /\ count is_shutdown l = 0.
Proof.
  intros H He. unfold serve_once.
  rewrite (bind_run _ _ _ _ _ _ (serve_once_begin_run w)).
  rewrite bind_unfold, (connect_failed_step sc w e H He).
  cbn [out final log cast_outcome]. eexists _, _. split; [reflexivity|].
  repeat split; reflexivity.
Qed.

Lemma serve_once_connect_interrupted sc fuel w e :
  sc_connect_error sc = Some e -> is_Exception e = false ->
  exists w' l,
    serve_once sc fuel w = mkRun (Raise e) w' l /\
    count is_create_client l = 1 /\ count is_log_error l = 0 /\
    count is_delay_reconnect l = 0 /\ count is_shutdown l = 0.
Proof.
  intros H He. unfold serve_once.
  rewrite (bind_run _ _ _ _ _ _ (serve_once_begin_run w)).
  rewrite bind_unfold, (connect_interrupted_step sc w e H He).
  cbn [out final log cast_outcome]. eexists _, _. split; [reflexivity|].
  repeat split; reflexivity.
Qed.

Lemma serve_loop_retries scs fuel : forall k attempts n w,
  k < attempts ->
  (forall i, i < k ->
     exists e, sc_connect_error (scs (n + i)) = Some e /\ is_Exception e = true) ->
  sc_connect_error (scs (n + k)) = Some KeyboardInterrupt ->
  exists w' l,
    serve_loop scs true fuel attempts n w = mkRun (Raise KeyboardInterrupt) w' l /\
    count is_create_client l = S k /\ count is_log_error l = k /\
    count is_delay_reconnect l = k /\ count is_shutdown l = 0.
Proof.
  induction k as [|k IH]; intros attempts n w Hk Hfail Hint;
    destruct attempts as [|attempts]; try lia; cbn [serve_loop].
  - rewrite Nat.add_0_r in Hint.
    destruct (serve_once_connect_interrupted (scs n) fuel w KeyboardInterrupt Hint eq_refl)
      as (w1 & l1 & E1 & C1 & C2 & C3 & C4).
    rewrite (bind_stop _ _ _ _ _ _
      (try_except_pass is_Exception _ _ _ _ _ _ E1 ltac:(by intros ? [= <-]))) by done.
    by eexists _, _.
  - destruct (Hfail 0 ltac:(lia)) as (e & He & Hex). rewrite Nat.add_0_r in He.
    destruct (serve_once_connect_fails (scs n) fuel w e He Hex)
      as (w1 & l1 & E1 & C1 & C2 & C3 & C4).
    pose proof (try_except_caught is_Exception _
                  (fun _ => _log_error "# ----- `serve_once` failed with error -----")
                  _ _ _ _ E1 Hex) as E2.
    cbn [out final log _log_error tell] in E2.
    rewrite (bind_run _ _ _ _ _ _ E2). cbv beta.
    rewrite (bind_run _ _ _ _ _ _ (log_debug_run _ _)). cbv beta.
    erewrite bind_run; [|reflexivity]. cbv beta.
    rewrite (bind_run _ _ _ _ _ _ (log_debug_run _ _)). cbv beta.
    destruct (IH attempts (S n) w1 ltac:(lia)) as (w2 & l2 & E3 & D1 & D2 & D3 & D4).
    { intros i Hi. replace (S n + i) with (n + S i) by lia. apply Hfail. lia. }
    { by replace (S n + k) with (n + S k) by lia. }
    rewrite E3. cbn [out final log]. eexists _, _. split; [reflexivity|].
    rewrite !count_app, C1, C2, C3, C4, D1, D2, D3, D4. cbn. repeat split; lia.
Qed.

(** X13.  With reconnect enabled, [serve_forever] answers every attempt whose
    [connect] fails by logging the error, waiting and trying again, with
    a new client each time; a [KeyboardInterrupt] in attempt [k] ends it:
    it returns after [k + 1] attempts, [k] errors logged, [k] waits, and
    one [shutdown]. *)
Theorem reconnect_until_interrupted scs fuel attempts w k :
  _get_bool_config (environ w) (_config_obj (self w))
    CONFIG_KEYS.RECONNECT_ENABLED (VBool true) = true ->
  (forall i, i < k ->
     exists e, sc_connect_error (scs i) = Some e /\ is_Exception e = true) ->
  sc_connect_error (scs k) = Some KeyboardInterrupt ->
  k < attempts ->
  let r := serve_forever scs fuel attempts w in
  out r = Return tt /\
  count is_create_client (log r) = S k /\ count is_log_error (log r) = k /\
  count is_delay_reconnect (log r) = k /\ count is_shutdown (log r) = 1.
Proof.
  intros Hrec Hfail Hint Hk. cbn zeta.
  destruct (serve_loop_retries scs fuel k attempts 0 w Hk Hfail Hint)
    as (w1 & l1 & E1 & C1 & C2 & C3 & C4).
  unfold serve_forever.
  rewrite (bind_run _ _ _ _ _ _ (log_debug_run _ w)). cbv beta.
  rewrite (bind_run _ _ _ _ _ _ (patch_run w)). cbv beta.
  rewrite (bind_run _ _ _ _ _ _ (get_bool_config_run _ _ w)). cbv beta.
  rewrite Hrec.
  pose proof (try_except_caught is_KeyboardInterrupt _ (fun _ => ret tt) _ _ _ _ E1 eq_refl)
    as E2.
  cbn [out final log ret] in E2.
  pose proof (try_finally_exit _ shutdown _ _ _ _ E2 ltac:(done) ltac:(done)) as E3.
  cbn [shutdown tell out final log cast_outcome] in E3.
  rewrite (bind_run _ _ _ _ _ _ E3). cbn [out final log _log_debug tell].
  split; [reflexivity|].
  destruct (patch_log_counts w) as (P1 & P2 & P3).
  assert (P4 : count is_delay_reconnect (patch_log w) = 0).
  { unfold patch_log.
    by destruct (_get_bool_config _ _ CONFIG_KEYS.PATCH_METEOR_CLIENT _). }
  change (?a :: ?l) with ([a] ++ l).
  rewrite !count_app, P1, P2, P3, P4, C1, C2, C3, C4. cbn. repeat split; lia.
Qed.

End Reconnecting.

(** ** The constructor, in full *)

Section Constructor.
Context {platform : Platform}.

Lemma init_unfold environ config :
  __init__ environ config =
  let config_obj := ROCKETCHAT_CONFIG config in
  if negb (isinstance_int (resolved_log_level environ config))
  then inl (AttributeError "_logger")
  else
    let logger := Some (resolved_log_level environ config) in
    let server_uri := _get_config environ config_obj CONFIG_KEYS.SERVER_URI VNone in
    if is_none server_uri then inl (missing_config logger CONFIG_KEYS.SERVER_URI)
    else
      let login_username :=
        _get_config environ config_obj CONFIG_KEYS.LOGIN_USERNAME VNone in
      if is_none login_username then inl (missing_config logger CONFIG_KEYS.LOGIN_USERNAME)
      else
        let login_password :=
          _get_config environ config_obj CONFIG_KEYS.LOGIN_PASSWORD VNone in
        match login_password with
        | VNone => inl (missing_config logger CONFIG_KEYS.LOGIN_PASSWORD)
        | VBytes _ | VStr _ =>
            inr {| bot_config := config;
                   _config_obj := config_obj;
                   _logger := logger;
                   _server_uri := server_uri;
                   _login_username := login_username;
                   _login_password :=
                     match login_password with
                     | VStr s => VBytes (list_byte_of_string s)
                     | _ => login_password
                     end;
                   bot_identifier := build_identifier login_username;
                   _subscribing_done_event := false;
                   _meteor_closed_event := false;
                   _meteor_client := None |}
        | _ => inl TypeError
        end.
Proof.
  unfold __init__, resolved_log_level. cbn zeta.
  destruct (negb (isinstance_int _)); [done|].
  destruct (is_none (_get_config _ _ CONFIG_KEYS.SERVER_URI _)); [done|].
  destruct (is_none (_get_config _ _ CONFIG_KEYS.LOGIN_USERNAME _)); [done|].
  by destruct (_get_config _ _ CONFIG_KEYS.LOGIN_PASSWORD _).
Qed.


(** X15.  When the logging level [__init__] arrives at is no int, the error it
    prepares is never raised: reporting it goes through the logger, which
    does not exist yet, and [__init__] ends with that [AttributeError],
    whatever the other settings are. *)
Theorem init_invalid_log_level environ config :
  isinstance_int (resolved_log_level environ config) = false ->
  __init__ environ config = inl (AttributeError "_logger").
Proof. intros H. rewrite init_unfold. cbn zeta. by rewrite H. Qed.

End Constructor.

(** * The properties on concrete inputs *)

(** C1 at a refused login: the run returns, with each cleanup action once. *)
Lemma cleanup_on_every_exit_witness :
  let r := @serve_once example_platform login_refused 10 (example_world false false) in
  count is_unhook (log r) = 1 /\ count is_release (log r) = 1 /\
  count is_offline (log r) = 1 /\ count is_disconnect (log r) = 1.
Proof.
  apply (proj1 (@cleanup_on_every_exit example_platform login_refused 10
                  (example_world false false))).
  - reflexivity.
  - left. vm_compute. reflexivity.
Defined.

(** When [connect] raises, the handler at 6KYHD unhooks the callbacks and
    releases the client, and the run ends there: the bot is not notified
    offline and the disconnect callback is not called. *)
Lemma cleanup_without_notifications :
  let r := @serve_once example_platform connect_refused 10 (example_world false false) in
  out r = Raise (OtherException "ConnectionRefusedError") /\
  count is_unhook (log r) = 1 /\ count is_release (log r) = 1 /\
  count is_offline (log r) = 0 /\ count is_disconnect (log r) = 0 /\
  ~ (count is_offline (log r) = 1 /\ count is_disconnect (log r) = 1).
Proof. vm_compute. repeat split; try reflexivity. intros [H _]. discriminate H. Qed.

(** C2 at a refused login. *)
Lemma subscribing_done_is_signalled_witness :
  settled_before_wait
    (log (@serve_once example_platform login_refused 10 (example_world false false))) = true.
Proof.
  apply (proj1 (@subscribing_done_is_signalled example_platform login_refused 10
                  (example_world false false))).
  - reflexivity.
  - reflexivity.
  - lia.
Defined.

(** C3 on the environment variable ROCKETCHAT_RECONNECT_ENABLED=FALSE and
    on a key that is set nowhere. *)
Lemma get_bool_config_rule_witness :
  _get_bool_config {[ "ROCKETCHAT_RECONNECT_ENABLED" := "FALSE" ]} None
    CONFIG_KEYS.RECONNECT_ENABLED (VBool true) = false /\
  _get_bool_config ∅ None CONFIG_KEYS.RECONNECT_ENABLED (VBool true) = true.
Proof.
  split.
  - destruct (get_bool_config_rule {[ "ROCKETCHAT_RECONNECT_ENABLED" := "FALSE" ]} None
                CONFIG_KEYS.RECONNECT_ENABLED (VBool true)) as (_ & _ & _ & _ & H).
    destruct (H "FALSE" eq_refl) as (_ & _ & _ & Hf & _). exact (Hf eq_refl).
  - destruct (get_bool_config_rule ∅ None CONFIG_KEYS.RECONNECT_ENABLED (VBool true))
      as (_ & _ & _ & H & _).
    destruct (H eq_refl (or_introl eq_refl)) as (_ & _ & Ht). exact (Ht eq_refl).
Defined.

(** C4 at a refused login: one attempt, and [serve_forever] returns. *)
Lemma serve_forever_without_reconnect_witness :
  let r := @serve_forever example_platform (fun _ => login_refused) 10 1
             (example_world false false) in
  count is_create_client (log r) = 1 /\ out r = Return tt /\
  count is_shutdown (log r) = 1.
Proof.
  destruct (@serve_forever_without_reconnect example_platform (fun _ => login_refused)
              10 0 (example_world false false) eq_refl) as (H1 & H2 & _).
  destruct H2 as (H2 & _ & H3); [vm_compute; reflexivity|].
  exact (conj H1 (conj H2 H3)).
Defined.

(** C5 when the connection is found down at the fourth read: three calls. *)
Lemma heartbeat_once_per_connected_read_witness :
  let r := @serve_once example_platform steady_session 10 (example_world false true) in
  out r = Return tt /\
  List.filter loop_action (log r) =
    heartbeat_trace (platform := example_platform) (VFunc "heartbeat") 1%Z 3 /\
  count is_heartbeat (log r) = 3.
Proof.
  apply (proj2 (@heartbeat_once_per_connected_read example_platform steady_session 10
                  (example_world false true)) 3 1%Z (VDict [("id", VStr "u1")]));
    try reflexivity.
  - intros i Hi. destruct i as [|[|[|i]]]; [reflexivity..|lia].
  - lia.
Defined.

(** C6 on two records, the first from another user and the second from
    the bot: the first alone gives a message. *)
Lemma changed_callback_relays_witness :
  let args := [record_from "alice" "hello"; record_from "bot" "echo"] in
  let r := @_meteor_changed_callback example_platform (VStr "stream-room-messages")
             (VStr "id") (VDict [("args", VList args)]) VNone (example_world false false) in
  out r = Return tt /\
  dispatched (log r) =
    [mkMessage (VStr "hello") (ObjUser (build_identifier (VStr "alice")))
       (ObjUser (build_identifier (VStr "bot")))
       [("msg_info", inl (record_from "alice" "hello"))]].
Proof.
  destruct (@changed_callback_relays example_platform (VStr "stream-room-messages")
              (VStr "id")
              (VDict [("args", VList [record_from "alice" "hello";
                                      record_from "bot" "echo"])])
              VNone (example_world false false))
    as (_ & Hbot & Hother & Hall & _).
  destruct (Hall [record_from "alice" "hello"; record_from "bot" "echo"]
              eq_refl eq_refl eq_refl) as (H1 & _ & H2).
  split; [exact H1|]. cbv zeta. rewrite H2. cbn [flat_map].
  rewrite (Hother (record_from "alice" "hello") (VStr "hello") (VStr "alice")
             eq_refl eq_refl eq_refl).
  rewrite (Hbot (record_from "bot" "echo") (VStr "bot") eq_refl eq_refl).
  reflexivity.
Defined.

(** A record with a body and no sender makes the callback raise at
    [msg_info['u']]: the record after it, with a non-empty body and from
    another user than the bot, is not dispatched. *)
Lemma changed_callback_stops_at_malformed_record :
  let args := [record_without_sender; record_from "alice" "hello"] in
  let w := example_world false false in
  let r := @_meteor_changed_callback example_platform (VStr "stream-room-messages")
             (VStr "id") (VDict [("args", VList args)]) VNone w in
  nonempty_body (record_from "alice" "hello") = Some (VStr "hello") /\
  record_sender (record_from "alice" "hello") = Some (VStr "alice") /\
  py_eq (VStr "alice") (_login_username (self w)) = false /\
  out r = Raise (KeyError "u") /\
  dispatched (log r) = [].
Proof. vm_compute. repeat split; reflexivity. Qed.

(** C7 in a session: the resolution call, then the message to the room
    of the reply. *)
Lemma send_resolves_room_first_witness :
  let u := build_identifier (VStr "alice") in
  let r := @send example_platform steady_session (ObjUser u) "hi" None false
             example_session_world in
  let r2 := @run_callback example_platform steady_session
              (Cb_query_user (ObjUser u) "hi")
              [VNone; VDict [("rid", VStr "room1")]] (final r) in
  out r = Return (VBool true) /\
  calls (log r ++ log r2) =
    [("createDirectMessage", [VStr "alice"]);
     ("sendMessage", [VDict [("rid", VStr "room1"); ("msg", VStr "hi")]])].
Proof.
  destruct (proj1 (@send_resolves_room_first example_platform steady_session
                     "hi" false example_session_world)
              (build_identifier (VStr "alice"))
              (live_client (VStr "ws://localhost:3000/websocket") 0 0) eq_refl)
    as (H1 & _ & _ & H2).
  destruct (H2 VNone (VDict [("rid", VStr "room1")]) [] (VStr "room1") eq_refl eq_refl)
    as (_ & H3).
  exact (conj H1 H3).
Defined.

(** A room passes the test [send] makes of its [identifier], and has no
    [person] to resolve: [send] raises and calls nothing.  So does [send]
    to a user while the backend holds no meteor client. *)
Lemma send_cannot_resolve :
  let room := ObjRoom "general" in
  let r := @send example_platform steady_session room "hi" None false
             example_session_world in
  let user := ObjUser (build_identifier (VStr "alice")) in
  let r' := @send example_platform steady_session user "hi" None false
              (example_world false false) in
  isinstance_Identifier room = true /\
  out r = Raise (AttributeError "person") /\ calls (log r) = [] /\
  isinstance_Identifier user = true /\
  out r' = Raise (AttributeError "_meteor_client") /\ calls (log r') = [].
Proof. vm_compute. repeat split; reflexivity. Qed.

Lemma example_init :
  @__init__ example_platform ∅ (example_config false false) =
  inr (example_backend false false).
Proof. vm_compute. reflexivity. Qed.

(** C8: without a login password [__init__] raises, and from
    [example_config] it builds [example_backend], the password in bytes. *)
Lemma init_requires_settings_witness :
  (exists e, @__init__ example_platform ∅ config_without_password = inl e /\
             is_Exception e = true) /\
  _meteor_client (example_backend false false) = None /\
  exists bytes, _login_password (example_backend false false) = VBytes bytes.
Proof.
  split.
  - apply (proj1 (@init_requires_settings example_platform ∅ config_without_password)
             CONFIG_KEYS.LOGIN_PASSWORD).
    + unfold required_settings. apply list_elem_of_further, list_elem_of_further,
        list_elem_of_here.
    + reflexivity.
  - destruct (proj2 (@init_requires_settings example_platform ∅ (example_config false false))
                (example_backend false false) example_init) as (H1 & bytes & H2 & _).
    exact (conj H1 (ex_intro _ bytes H2)).
Defined.

(** ** The further properties on concrete inputs *)

Lemma change_data_updates_item_witness :
  exists item,
    get_item (snd (change_data example_store "users" "u1"
                     [("status", VStr "away")] ["name"])) "users" "u1" = Some item /\
    item !! "status" = Some (VStr "away") /\ item !! "name" = None.
Proof.
  assert (H : change_data example_store "users" "u1" [("status", VStr "away")] ["name"] =
              (None, snd (change_data example_store "users" "u1"
                            [("status", VStr "away")] ["name"])))
    by (vm_compute; reflexivity).
  destruct (change_data_updates_item example_store "users" "u1"
              [("status", VStr "away")] ["name"] _ H) as (item & Hg & Hk).
  exists item. split; [exact Hg|]. split; rewrite Hk; vm_compute; reflexivity.
Defined.

Lemma change_data_keeps_other_items_witness :
  get_item (snd (change_data example_store "rooms" "r1" [("name", VStr "general")] []))
    "users" "u1" = get_item example_store "users" "u1".
Proof.
  apply change_data_keeps_other_items. left. discriminate.
Defined.

Lemma send_in_reply_goes_to_its_room_witness :
  let r := @send example_platform steady_session
             (ObjUser (build_identifier (VStr "alice"))) "hi" (Some example_inbound)
             false example_session_world in
  out r = Return VNone /\ final r = example_session_world /\
  calls (log r) = [("sendMessage", [VDict [("rid", VStr "room1"); ("msg", VStr "hi")]])].
Proof.
  apply (@send_in_reply_goes_to_its_room example_platform steady_session
           (ObjUser (build_identifier (VStr "alice"))) "hi" example_inbound false
           example_session_world
           (live_client (VStr "ws://localhost:3000/websocket") 0 0)
           (record_from "alice" "hello") (VStr "room1"));
    reflexivity.
Defined.

Lemma send_message_without_room_witness :
  let mess := mkMessage (VStr "hi") (ObjUser (build_identifier (VStr "bot")))
                (ObjUser (build_identifier (VStr "alice"))) [] in
  let r := @send_message example_platform steady_session mess example_session_world in
  out r = Raise (KeyError "orig_msg") /\ final r = example_session_world /\
  log r = [ASuperSendMessage mess].
Proof.
  apply (proj1 (@send_message_without_room example_platform steady_session
                  (mkMessage (VStr "hi") (ObjUser (build_identifier (VStr "bot")))
                     (ObjUser (build_identifier (VStr "alice"))) [])
                  example_session_world)).
  reflexivity.
Defined.

Lemma reply_returns_to_the_room_witness :
  let reply := build_reply example_inbound (VStr "hi yourself") false false in
  to reply = ObjUser (build_identifier (VStr "alice")) /\
  calls (log (@send_message example_platform steady_session reply example_session_world)) =
    [("sendMessage", [VDict [("rid", VStr "room1"); ("msg", VStr "hi yourself")]])].
Proof.
  destruct (@reply_returns_to_the_room example_platform steady_session
              (record_from "alice" "hello") (VStr "hello") (VStr "alice")
              (VStr "hi yourself") example_session_world
              (live_client (VStr "ws://localhost:3000/websocket") 0 0) (VStr "room1")
              eq_refl eq_refl) as (H1 & _ & _ & H2).
  split; [exact H1|]. unfold example_inbound. rewrite H2. reflexivity.
Defined.

Lemma send_card_attachment_witness :
  exists attachment,
    calls (log (@send_card example_platform steady_session example_card
                  example_session_world)) =
      [("sendMessage",
        [VDict [("rid", VStr "room1"); ("msg", VStr "build finished");
                ("attachments", VList [VDict attachment])]])] /\
    dict_get attachment "title" = Some (VStr "Build 42") /\
    dict_get attachment "text" = None.
Proof.
  destruct (@send_card_attachment example_platform steady_session example_card
              example_inbound (record_from "alice" "hello") (VStr "room1")
              example_session_world
              (live_client (VStr "ws://localhost:3000/websocket") 0 0)
              eq_refl eq_refl eq_refl eq_refl)
    as (attachment & _ & _ & Hc & _ & Ht & _ & Hs & _).
  exists attachment. split; [exact Hc|]. split; [exact Ht|exact Hs].
Defined.

Lemma serve_once_leaves_backend_idle_witness :
  self (final (@serve_once example_platform login_refused 10 (example_world false false))) =
  idle (self (example_world false false)).
Proof.
  apply (proj1 (@serve_once_leaves_backend_idle example_platform login_refused 10
                  (example_world false false))).
  - reflexivity.
  - left. vm_compute. reflexivity.
Defined.

Lemma failed_session_ends_quietly_witness :
  let r := @serve_once example_platform login_refused 10 (example_world false false) in
  out r = Return tt /\
  count is_online (log r) = 0 /\ count is_connect_callback (log r) = 0 /\
  count is_offline (log r) = 1.
Proof.
  apply (@failed_session_ends_quietly example_platform login_refused 10
           (example_world false false)); try reflexivity. lia.
Defined.

Lemma heartbeat_misconfigured_witness :
  let r := @serve_once example_platform steady_session 10 world_without_heartbeat_func in
  out r = Raise (AssertionError "None") /\
  count is_heartbeat (log r) = 0 /\ count is_close (log r) = 1.
Proof.
  apply (proj1 (@heartbeat_misconfigured example_platform steady_session 10
                  world_without_heartbeat_func (VDict [("id", VStr "u1")])
                  eq_refl eq_refl eq_refl eq_refl eq_refl ltac:(lia))).
  reflexivity.
Defined.

Lemma heartbeat_error_ends_session_witness :
  let r := @serve_once example_platform heartbeat_breaks 10 (example_world false true) in
  out r = Raise (OtherException "RuntimeError") /\
  count is_heartbeat (log r) = 3 /\ count is_sleep (log r) = 2 /\
  count is_close (log r) = 1.
Proof.
  apply (@heartbeat_error_ends_session example_platform heartbeat_breaks 10
           (example_world false true) (VDict [("id", VStr "u1")]) 2 1%Z
           (OtherException "RuntimeError")); try reflexivity.
  - intros i Hi. destruct i as [|[|i]]; [reflexivity..|lia].
  - lia.
Defined.

Lemma reconnect_until_interrupted_witness :
  let scs := fun i => if Nat.ltb i 2 then connect_refused else connect_interrupted in
  let r := @serve_forever example_platform scs 10 5 (example_world true false) in
  out r = Return tt /\
  count is_create_client (log r) = 3 /\ count is_log_error (log r) = 2 /\
  count is_delay_reconnect (log r) = 2 /\ count is_shutdown (log r) = 1.
Proof.
  apply (@reconnect_until_interrupted example_platform
           (fun i => if Nat.ltb i 2 then connect_refused else connect_interrupted)
           10 5 (example_world true false) 2); try reflexivity.
  - intros i Hi. exists (OtherException "ConnectionRefusedError").
    destruct i as [|[|i]]; [by split..|lia].
  - lia.
Defined.

Lemma init_invalid_log_level_witness :
  @__init__ example_platform {[ "ROCKETCHAT_BOT_LOG_LEVEL" := "LOUD" ]}
    (example_config false false) = inl (AttributeError "_logger").
Proof.
  apply (@init_invalid_log_level example_platform). vm_compute. reflexivity.
Defined.
